(** * Code-transformation platform: plan parsing, plan application, pipeline

    A shallow embedding of [src/core/engine.py] (class
    [CodeTransformationPlatform] and the command-line driver [main]) and of
    the streaming pipeline of [src/web/interface.py] ([event_generator]).

    Python values are embedded as follows.
    - [str] is [string]; the two searches the engine performs
      ([str.find], [str.rfind] with a one-character needle) and slicing
      [s[i:j]] are written out with Python's conventions for negative and
      out-of-range indices.
    - The values produced by [json.loads], which are also the values held by
      the (unchecked) fields of the dataclass [CodeModification], are the
      inductive type [json].
    - An exception is a class name with the text [str(e)].
    - The local file system is a finite map from canonical paths to nodes;
      the remote sandbox is the list of commands sent to it, its replies
      being given by the environment.
    - Stateful methods are computations in a state-and-exception monad over
      the record [state], which also keeps, in order, what a run prints and
      yields and which methods it enters.
    - Library functions and outside services (the JSON decoder, the language
      model, the sandbox, sub-processes, the repository host) are the fields
      of the record [Env]; the theorems hold for every [Env]. *)

From stdpp Require Import gmap strings list pretty.
From Stdlib Require Import ZArith Ascii String.

#[local] Open Scope string_scope.
#[local] Open Scope list_scope.
#[local] Open Scope Z_scope.

(** ** Python strings *)

Module PyStr.

(** The double-quote character. *)
Definition dquote : ascii := ascii_of_nat 34.

Fixpoint index_of (c : ascii) (s : string) : option nat :=
  match s with
  | EmptyString => None
  | String a s' => if Ascii.eqb a c then Some 0%nat else S <$> index_of c s'
  end.

Fixpoint rindex_of (c : ascii) (s : string) : option nat :=
  match s with
  | EmptyString => None
  | String a s' =>
      match rindex_of c s' with
      | Some i => Some (S i)
      | None => if Ascii.eqb a c then Some 0%nat else None
      end
  end.

(** [s.find(c)] and [s.rfind(c)]: the index, or -1. *)
Definition find (s : string) (c : ascii) : Z :=
  match index_of c s with Some i => Z.of_nat i | None => -1 end.

Definition rfind (s : string) (c : ascii) : Z :=
  match rindex_of c s with Some i => Z.of_nat i | None => -1 end.

Fixpoint drop (n : nat) (s : string) : string :=
  match n, s with
  | O, _ => s
  | S _, EmptyString => EmptyString
  | S n', String _ s' => drop n' s'
  end.

Fixpoint take (n : nat) (s : string) : string :=
  match n, s with
  | O, _ => EmptyString
  | S _, EmptyString => EmptyString
  | S n', String a s' => String a (take n' s')
  end.

(** A slice bound is counted from the end when negative and clamped to
    [0 .. len(s)]. *)
Definition clamp (len i : Z) : Z :=
  if i <? 0 then Z.max 0 (i + len) else Z.min i len.

(** [s[i:j]] *)
Definition slice (s : string) (i j : Z) : string :=
  let n := Z.of_nat (String.length s) in
  let a := clamp n i in
  let b := clamp n j in
  take (Z.to_nat (b - a)) (drop (Z.to_nat a) s).

Definition startswith (s p : string) : bool := String.prefix p s.

Definition endswith (s p : string) : bool :=
  Nat.leb (String.length p) (String.length s)
  && String.eqb (drop (String.length s - String.length p) s) p.

Definition endswith_char (s : string) (c : ascii) : bool :=
  match rindex_of c s with
  | Some i => Nat.eqb (S i) (String.length s)
  | None => false
  end.

(** [s.rstrip('/')] *)
Fixpoint rstrip (c : ascii) (s : string) : string :=
  match s with
  | EmptyString => EmptyString
  | String a s' =>
      match rstrip c s' with
      | EmptyString => if Ascii.eqb a c then EmptyString else String a EmptyString
      | r => String a r
      end
  end.

(** [s.split(c)] *)
Fixpoint split (c : ascii) (s : string) : list string :=
  match s with
  | EmptyString => [EmptyString]
  | String a s' =>
      if Ascii.eqb a c then EmptyString :: split c s'
      else match split c s' with
           | w :: ws => String a w :: ws
           | [] => [String a EmptyString]
           end
  end.

(** [sep.join(l)] *)
Fixpoint join (sep : string) (l : list string) : string :=
  match l with
  | [] => EmptyString
  | [x] => x
  | x :: l' => x +:+ sep +:+ join sep l'
  end.

Fixpoint contains (c : ascii) (s : string) : bool :=
  match s with
  | EmptyString => false
  | String a s' => Ascii.eqb a c || contains c s'
  end.

(** [s.replace(old, new)] for a non-empty [old]; [skip] counts the
    characters of a match still to be passed over. *)
Fixpoint replace_from (old new : string) (skip : nat) (s : string) : string :=
  match s with
  | EmptyString => EmptyString
  | String a s' =>
      match skip with
      | S k => replace_from old new k s'
      | O =>
          if String.prefix old s
          then new +:+ replace_from old new (String.length old - 1) s'
          else String a (replace_from old new 0 s')
      end
  end.

Definition replace (s old new : string) : string := replace_from old new 0 s.

(** White space as [str.strip] knows it.  A text is held as its UTF-8 bytes,
    so the white space beyond ASCII comes as two or three bytes: U+0085 and
    U+00A0; U+1680, U+2000 to U+200A, U+2028, U+2029, U+202F, U+205F and
    U+3000. *)
Definition is_space (a : ascii) : bool :=
  let n := N_of_ascii a in ((n =? 32) || ((9 <=? n) && (n <=? 13)) || ((28 <=? n) && (n <=? 31)))%N.

Definition is_space2 (a b : ascii) : bool :=
  let m := N_of_ascii a in
  let n := N_of_ascii b in
  ((m =? 194) && ((n =? 133) || (n =? 160)))%N.

Definition is_space3 (a b c : ascii) : bool :=
  let l := N_of_ascii a in
  let m := N_of_ascii b in
  let n := N_of_ascii c in
  (((l =? 225) && (m =? 154) && (n =? 128))
   || ((l =? 226) && (m =? 128)
       && (((128 <=? n) && (n <=? 138)) || (n =? 168) || (n =? 169) || (n =? 175)))
   || ((l =? 226) && (m =? 129) && (n =? 159))
   || ((l =? 227) && (m =? 128) && (n =? 128)))%N.

(** [s.lstrip()] *)
Fixpoint lstrip (s : string) : string :=
  match s with
  | String a s1 =>
      if is_space a then lstrip s1
      else
        match s1 with
        | String b s2 =>
            if is_space2 a b then lstrip s2
            else
              match s2 with
              | String c s3 => if is_space3 a b c then lstrip s3 else s
              | EmptyString => s
              end
        | EmptyString => s
        end
  | EmptyString => EmptyString
  end.

(** Nothing but white space. *)
Definition all_space (s : string) : bool := String.eqb (lstrip s) EmptyString.

(** [s.rstrip()]: the text up to the white space it ends with. *)
Fixpoint rstrip_space (s : string) : string :=
  match s with
  | EmptyString => EmptyString
  | String a s' => if all_space s then EmptyString else String a (rstrip_space s')
  end.

(** [s.strip()] *)
Definition strip (s : string) : string := rstrip_space (lstrip s).

Definition lower_char (a : ascii) : ascii :=
  let n := N_of_ascii a in
  if ((65 <=? n) && (n <=? 90))%N then ascii_of_N (n + 32) else a.

(** [s.lower()] on ASCII letters.  Other letters are left as they are; none
    of them becomes a letter of the extensions the engine knows. *)
Fixpoint lower (s : string) : string :=
  match s with
  | EmptyString => EmptyString
  | String a s' => String (lower_char a) (lower s')
  end.

(** [l[i]]: a negative index counts from the end. *)
Definition index {A} (l : list A) (i : Z) : option A :=
  let n := Z.of_nat (List.length l) in
  if (0 <=? i) && (i <? n) then List.nth_error l (Z.to_nat i)
  else if (- n <=? i) && (i <? 0) then List.nth_error l (Z.to_nat (i + n))
  else None.

End PyStr.

(** ** Python values and exceptions *)

(** The values [json.loads] can return.  A float is kept with the two things
    the engine can observe of it: whether it is zero (truth value) and its
    printed form. *)
#[warnings="-register-all"]
Inductive json : Type :=
| JNull
| JBool (b : bool)
| JNum (z : Z)
| JFloat (is_zero : bool) (shown : string)
| JStr (s : string)
| JArr (items : list json)
| JObj (members : list (string * json)).

(** An exception: its class and [str(e)]. *)
Record exn := Exn { exn_class : string; exn_str : string }.

Definition result (A : Type) : Type := exn + A.

Definition is_ok {A} (r : result A) : bool :=
  match r with inr _ => true | inl _ => false end.

Module PyVal.

Definition type_name (v : json) : string :=
  match v with
  | JNull => "NoneType"
  | JBool _ => "bool"
  | JNum _ => "int"
  | JFloat _ _ => "float"
  | JStr _ => "str"
  | JArr _ => "list"
  | JObj _ => "dict"
  end.

(** Truth value, as tested by [x or ''] . *)
Definition truthy (v : json) : bool :=
  match v with
  | JNull => false
  | JBool b => b
  | JNum z => negb (z =? 0)
  | JFloat is_zero _ => negb is_zero
  | JStr s => negb (String.eqb s EmptyString)
  | JArr l => match l with [] => false | _ => true end
  | JObj m => match m with [] => false | _ => true end
  end.

(** [x or y] *)
Definition or_else (x y : json) : json := if truthy x then x else y.

Definition hex_digit (n : N) : ascii :=
  match n with
  | 0%N => "0" | 1%N => "1" | 2%N => "2" | 3%N => "3" | 4%N => "4"
  | 5%N => "5" | 6%N => "6" | 7%N => "7" | 8%N => "8" | 9%N => "9"
  | 10%N => "a" | 11%N => "b" | 12%N => "c" | 13%N => "d" | 14%N => "e"
  | _ => "f"
  end%char.

Fixpoint escape (quote : ascii) (s : string) : string :=
  match s with
  | EmptyString => EmptyString
  | String a s' =>
      let n := N_of_ascii a in
      let rest := escape quote s' in
      if Ascii.eqb a "\" then String "\" (String "\" rest)
      else if Ascii.eqb a quote then String "\" (String a rest)
      else if (n =? 10)%N then String "\" (String "n" rest)
      else if (n =? 13)%N then String "\" (String "r" rest)
      else if (n =? 9)%N then String "\" (String "t" rest)
      else if ((n <? 32) || (n =? 127))%N then
        String "\" (String "x" (String (hex_digit (n / 16)) (String (hex_digit (n mod 16)) rest)))
      else String a rest
  end.

(** [repr(s)] for a string: single quotes, unless the text has a single
    quote and no double quote. *)
Definition repr_str (s : string) : string :=
  let q : ascii :=
    if PyStr.contains "'" s && negb (PyStr.contains PyStr.dquote s) then PyStr.dquote else "'"%char in
  String q (escape q s +:+ String q EmptyString).

Fixpoint repr (v : json) : string :=
  match v with
  | JNull => "None"
  | JBool true => "True"
  | JBool false => "False"
  | JNum z => pretty z
  | JFloat _ shown => shown
  | JStr s => repr_str s
  | JArr l => "[" +:+ PyStr.join ", " (List.map repr l) +:+ "]"
  | JObj m =>
      "{" +:+ PyStr.join ", "
            (List.map (fun kv => match kv with (k, x) => repr_str k +:+ ": " +:+ repr x end) m)
      +:+ "}"
  end.

(** [str(v)], which is what an f-string interpolates. *)
Definition str (v : json) : string :=
  match v with
  | JStr s => s
  | _ => repr v
  end.

(** [d.get(k)] on the members of a dict *)
Fixpoint dict_get (k : string) (m : list (string * json)) : option json :=
  match m with
  | [] => None
  | (k', v) :: m' => if String.eqb k' k then Some v else dict_get k m'
  end.

(** [d[k] = v]: an existing key keeps its place. *)
Fixpoint dict_set (k : string) (v : json) (m : list (string * json)) : list (string * json) :=
  match m with
  | [] => [(k, v)]
  | (k', v') :: m' => if String.eqb k' k then (k, v) :: m' else (k', v') :: dict_set k v m'
  end.

Fixpoint chars (s : string) : list json :=
  match s with
  | EmptyString => []
  | String a s' => JStr (String a EmptyString) :: chars s'
  end.

(** The items a [for] loop over [v] visits: the elements of a list, the
    keys of a dict, the characters of a string; other values are not
    iterable. *)
Definition iterate (v : json) : result (list json) :=
  match v with
  | JArr l => inr l
  | JObj m => inr (List.map (fun kv => JStr (fst kv)) m)
  | JStr s => inr (chars s)
  | _ => inl (Exn "TypeError" ("'" +:+ type_name v +:+ "' object is not iterable"))
  end.

(** [v[k]] with a string key [k] *)
Definition subscript (v : json) (k : string) : result json :=
  match v with
  | JObj m =>
      match dict_get k m with
      | Some x => inr x
      | None => inl (Exn "KeyError" (repr_str k))
      end
  | JStr _ => inl (Exn "TypeError" "string indices must be integers, not 'str'")
  | JArr _ => inl (Exn "TypeError" "list indices must be integers or slices, not str")
  | _ => inl (Exn "TypeError" ("'" +:+ type_name v +:+ "' object is not subscriptable"))
  end.

(** [v.get(k, d)] *)
Definition get (v : json) (k : string) (d : json) : result json :=
  match v with
  | JObj m => inr (default d (dict_get k m))
  | _ => inl (Exn "AttributeError" ("'" +:+ type_name v +:+ "' object has no attribute 'get'"))
  end.

End PyVal.

(** Sequencing of computations that may raise. *)
Definition rbind {A B} (r : result A) (k : A -> result B) : result B :=
  match r with
  | inl e => inl e
  | inr a => k a
  end.

Declare Scope result_scope.
Delimit Scope result_scope with result.
Notation "'let*' x := r 'in' k" := (rbind r (fun x => k))
  (at level 10, x name, r at level 100, k at level 200) : result_scope.

(** ** A decoder for JSON text

    The engine calls the library function [json.loads].  The general
    theorems below hold for any decoder; this one follows the JSON grammar
    (objects, arrays, strings with the one-letter escapes, integers, the
    three literals, surrounding white space, a repeated key keeping its last
    value) and is used to run the engine on concrete texts.  Fractional
    numbers and [\u] escapes are not decoded, and the text of the decoder's
    error is not modelled: [Expecting value] stands for it. *)

Module JsonText.

Definition is_ws (a : ascii) : bool :=
  let n := N_of_ascii a in ((n =? 32) || (n =? 9) || (n =? 10) || (n =? 13))%N.

Definition is_digit (a : ascii) : bool :=
  let n := N_of_ascii a in ((48 <=? n) && (n <=? 57))%N.

Fixpoint skip_ws (s : string) : string :=
  match s with
  | String a s' => if is_ws a then skip_ws s' else s
  | EmptyString => EmptyString
  end.

Definition unescape (a : ascii) : option ascii :=
  if Ascii.eqb a PyStr.dquote then Some PyStr.dquote
  else if Ascii.eqb a "\" then Some "\"%char
  else if Ascii.eqb a "/" then Some "/"%char
  else if Ascii.eqb a "n" then Some (ascii_of_nat 10)
  else if Ascii.eqb a "r" then Some (ascii_of_nat 13)
  else if Ascii.eqb a "t" then Some (ascii_of_nat 9)
  else if Ascii.eqb a "b" then Some (ascii_of_nat 8)
  else if Ascii.eqb a "f" then Some (ascii_of_nat 12)
  else None.

(** The text after an opening quote, up to the closing one. *)
Fixpoint string_body (s : string) : option (string * string) :=
  match s with
  | EmptyString => None
  | String a s' =>
      if Ascii.eqb a PyStr.dquote then Some (EmptyString, s')
      else if Ascii.eqb a "\" then
        match s' with
        | String e s'' =>
            match unescape e, string_body s'' with
            | Some c, Some (w, r) => Some (String c w, r)
            | _, _ => None
            end
        | EmptyString => None
        end
      else if (N_of_ascii a <? 32)%N then None
      else match string_body s' with
           | Some (w, r) => Some (String a w, r)
           | None => None
           end
  end.

Fixpoint digits (acc : Z) (s : string) : Z * string :=
  match s with
  | String a s' =>
      if is_digit a then digits (10 * acc + (Z.of_N (N_of_ascii a) - 48)) s' else (acc, s)
  | EmptyString => (acc, s)
  end.

Definition starts_fraction (s : string) : bool :=
  match s with
  | String a _ => Ascii.eqb a "." || Ascii.eqb a "e" || Ascii.eqb a "E"
  | EmptyString => false
  end.

(** An integer literal without its sign: no leading zero. *)
Definition natural (s : string) : option (Z * string) :=
  match s with
  | String a s' =>
      if Ascii.eqb a "0" then
        (if starts_fraction s' then None else Some (0, s'))
      else if is_digit a then
        let '(z, r) := digits 0 s in
        if starts_fraction r then None else Some (z, r)
      else None
  | EmptyString => None
  end.

Definition literal (word : string) (v : json) (s : string) : option (json * string) :=
  if String.prefix word s then Some (v, PyStr.drop (String.length word) s) else None.

Fixpoint value (fuel : nat) (s : string) : option (json * string) :=
  match fuel with
  | O => None
  | S fuel' =>
      match skip_ws s with
      | EmptyString => None
      | String a r =>
          if Ascii.eqb a "{" then
            match skip_ws r with
            | String b r' =>
                if Ascii.eqb b "}" then Some (JObj [], r')
                else members fuel' [] (String b r')
            | EmptyString => None
            end
          else if Ascii.eqb a "[" then
            match skip_ws r with
            | String b r' =>
                if Ascii.eqb b "]" then Some (JArr [], r')
                else elements fuel' [] (String b r')
            | EmptyString => None
            end
          else if Ascii.eqb a PyStr.dquote then
            match string_body r with
            | Some (w, r') => Some (JStr w, r')
            | None => None
            end
          else if Ascii.eqb a "-" then
            match natural r with
            | Some (z, r') => Some (JNum (- z), r')
            | None => None
            end
          else if is_digit a then
            match natural (String a r) with
            | Some (z, r') => Some (JNum z, r')
            | None => None
            end
          else if Ascii.eqb a "t" then literal "true" (JBool true) (String a r)
          else if Ascii.eqb a "f" then literal "false" (JBool false) (String a r)
          else if Ascii.eqb a "n" then literal "null" JNull (String a r)
          else None
      end
  end
with elements (fuel : nat) (acc : list json) (s : string) : option (json * string) :=
  match fuel with
  | O => None
  | S fuel' =>
      match value fuel' s with
      | Some (v, r) =>
          match skip_ws r with
          | String a r' =>
              if Ascii.eqb a "," then elements fuel' (acc ++ [v]) r'
              else if Ascii.eqb a "]" then Some (JArr (acc ++ [v]), r')
              else None
          | EmptyString => None
          end
      | None => None
      end
  end
with members (fuel : nat) (acc : list (string * json)) (s : string) : option (json * string) :=
  match fuel with
  | O => None
  | S fuel' =>
      match skip_ws s with
      | String q r =>
          if Ascii.eqb q PyStr.dquote then
            match string_body r with
            | Some (k, r1) =>
                match skip_ws r1 with
                | String c r2 =>
                    if Ascii.eqb c ":" then
                      match value fuel' r2 with
                      | Some (v, r3) =>
                          match skip_ws r3 with
                          | String a r4 =>
                              if Ascii.eqb a "," then members fuel' (PyVal.dict_set k v acc) r4
                              else if Ascii.eqb a "}" then Some (JObj (PyVal.dict_set k v acc), r4)
                              else None
                          | EmptyString => None
                          end
                      | None => None
                      end
                    else None
                | EmptyString => None
                end
            | None => None
            end
          else None
      | EmptyString => None
      end
  end.

(** A whole text: one value, then white space only. *)
Definition decode (s : string) : option json :=
  match value (2 * String.length s + 2) s with
  | Some (v, r) => match skip_ws r with EmptyString => Some v | _ => None end
  | None => None
  end.

Definition loads (s : string) : result json :=
  match decode s with
  | Some v => inr v
  | None => inl (Exn "JSONDecodeError" "Expecting value")
  end.

(** Concrete texts below are written with ['] where the JSON text has a
    double quote. *)
Fixpoint dq (s : string) : string :=
  match s with
  | EmptyString => EmptyString
  | String a s' => String (if Ascii.eqb a "'" then PyStr.dquote else a) (dq s')
  end.

End JsonText.

(** ** The local file system

    A tree of directories and regular files, kept as a finite map from
    canonical paths (the names from the root down) to nodes.  There are no
    symbolic links and no permissions, and a relative path is read from the
    root. *)

Inductive node : Type :=
| Dir
| File (data : string).

Module Fs.

Abbreviation tree := (gmap (list string) node).

Definition os_error (cls : string) (errno : string) (path : string) : exn :=
  Exn cls (errno +:+ ": " +:+ PyVal.repr_str path).

Definition ENOENT := os_error "FileNotFoundError" "[Errno 2] No such file or directory".
Definition ENOTDIR := os_error "NotADirectoryError" "[Errno 20] Not a directory".
Definition EISDIR := os_error "IsADirectoryError" "[Errno 21] Is a directory".
Definition EEXIST := os_error "FileExistsError" "[Errno 17] File exists".

Definition parent (p : list string) : list string := removelast p.

Definition is_dot (c : string) : bool := String.eqb c EmptyString || String.eqb c ".".

(** Path resolution: every component is looked up in a directory that
    must exist; the last component itself need not.  [mk] says whether
    missing directories are created on the way (as [os.makedirs] does). *)
Fixpoint walk (mk : bool) (path : string) (t : tree) (cur : list string) (comps : list string)
  : result (tree * list string) :=
  match comps with
  | [] => inr (t, cur)
  | c :: rest =>
      match t !! cur with
      | Some Dir =>
          if is_dot c then walk mk path t cur rest
          else if String.eqb c ".." then walk mk path t (parent cur) rest
          else
            let nxt := cur ++ [c] in
            match t !! nxt with
            | None => if mk then walk mk path (<[nxt := Dir]> t) nxt rest
                      else walk mk path t nxt rest
            | Some _ => walk mk path t nxt rest
            end
      | Some (File _) => inl (ENOTDIR path)
      | None => inl (ENOENT path)
      end
  end.

Definition resolve (path : string) (t : tree) : result (list string) :=
  if String.eqb path EmptyString then inl (ENOENT path)
  else match walk false path t [] (PyStr.split "/" path) with
       | inl e => inl e
       | inr (_, p) => inr p
       end.

(** [os.path.exists] *)
Definition exists_ (path : string) (t : tree) : bool :=
  match resolve path t with
  | inr p => bool_decide (is_Some (t !! p))
  | inl _ => false
  end.

(** [os.path.isdir] *)
Definition isdir (path : string) (t : tree) : bool :=
  match resolve path t with
  | inr p => match t !! p with Some Dir => true | _ => false end
  | inl _ => false
  end.

(** [os.makedirs(path, exist_ok=True)] *)
Definition makedirs (path : string) (t : tree) : result tree :=
  if String.eqb path EmptyString then inl (ENOENT path)
  else match walk true path t [] (PyStr.split "/" path) with
       | inl e => inl e
       | inr (t', p) =>
           match t' !! p with
           | Some (File _) => inl (EEXIST path)
           | _ => inr t'
           end
       end.

(** [os.mkdir] of the canonical path [p], written [path]. *)
Definition mkdir (path : string) (p : list string) (t : tree) : result tree :=
  match t !! p with
  | Some _ => inl (EEXIST path)
  | None =>
      match t !! parent p with
      | Some Dir => inr (<[p := Dir]> t)
      | Some (File _) => inl (ENOTDIR path)
      | None => inl (ENOENT path)
      end
  end.

(** [open(path, 'w')], which creates the file or empties it. *)
Definition open_w (path : string) (t : tree) : result (tree * list string) :=
  match resolve path t with
  | inl e => inl e
  | inr p =>
      match t !! p with
      | Some Dir => inl (EISDIR path)
      | _ => inr (<[p := File EmptyString]> t, p)
      end
  end.

(** [os.remove] *)
Definition remove (path : string) (t : tree) : result tree :=
  match resolve path t with
  | inl e => inl e
  | inr p =>
      match t !! p with
      | Some (File _) => inr (delete p t)
      | Some Dir => inl (EISDIR path)
      | None => inl (ENOENT path)
      end
  end.

Fixpoint is_prefix (p q : list string) : bool :=
  match p, q with
  | [], _ => true
  | a :: p', b :: q' => String.eqb a b && is_prefix p' q'
  | _ :: _, [] => false
  end.

(** [shutil.rmtree] of an existing directory *)
Definition rmtree (path : string) (t : tree) : result tree :=
  match resolve path t with
  | inl e => inl e
  | inr p =>
      match t !! p with
      | Some Dir => inr (filter (fun kv => negb (is_prefix p (fst kv)) = true) t)
      | Some (File _) => inl (ENOTDIR path)
      | None => inl (ENOENT path)
      end
  end.

(** What a reader finds at [path]: the text of a regular file. *)
Definition read (path : string) (t : tree) : option string :=
  match resolve path t with
  | inr p => match t !! p with Some (File d) => Some d | _ => None end
  | inl _ => None
  end.

(** [posixpath.join(a, b)] *)
Definition join (a b : string) : string :=
  if PyStr.startswith b "/" then b
  else if String.eqb a EmptyString || PyStr.endswith_char a "/" then a +:+ b
  else a +:+ "/" +:+ b.

Fixpoint all_char (c : ascii) (s : string) : bool :=
  match s with
  | EmptyString => true
  | String a s' => Ascii.eqb a c && all_char c s'
  end.

(** [posixpath.dirname] *)
Definition dirname (p : string) : string :=
  let i := PyStr.rfind p "/" + 1 in
  let head := PyStr.slice p 0 i in
  if negb (String.eqb head EmptyString) && negb (all_char "/" head)
  then PyStr.rstrip "/" head else head.

End Fs.

(** ** Data model ([src/core/models.py]) *)

(** The dataclass checks none of its fields: each holds whatever value the
    plan carried. *)
Record CodeModification := {
  file_path : json;
  operation : json;
  content : json;
  description : json
}.

Record RepositoryInfo := {
  repo_owner : string;
  repo_name : string;
  repo_url : string;
  repo_description : option string;
  repo_language : option string;
  repo_fork : bool
}.

(** The dictionary built by [examine_codebase]. *)
Record Analysis := {
  total_files : nat;
  languages : list string;
  main_files : list string;
  structure : string
}.

(** What the sandbox's [run_code] returns, as far as the engine reads it. *)
Record Execution := {
  text : option string;
  error : bool
}.

(** How a [subprocess.run] of the test runner ends: with its output, by
    running out of time, by not finding the program, or with another
    exception. *)
Inductive proc_outcome : Type :=
| ProcDone (stdout : string)
| ProcTimeout
| ProcNotFound
| ProcRaised (e : exn).

(** The dictionary returned by [run_code_validation]. *)
Record Validation := {
  validation_output : option string;
  validation_status : string
}.

(** The dictionary returned by [commit_and_publish]. *)
Record Published := {
  pub_branch : string;
  pub_commit_message : string;
  pub_status : string
}.

(** One server-sent event of the web pipeline. *)
Record sse := {
  event : string;
  ev_status : string;
  ev_message : string;
  ev_step : option (nat * nat);
  ev_payload : list (string * json)
}.

(** One entry of [active_sessions]. *)
Record Session := {
  s_github_token : string;
  s_openai_token : string;
  s_repo_url : string;
  s_prompt : string;
  s_branch_name : string;
  s_commit_message : string;
  s_status : string
}.

Definition with_status (st : string) (s : Session) : Session :=
  {| s_github_token := s_github_token s; s_openai_token := s_openai_token s;
     s_repo_url := s_repo_url s; s_prompt := s_prompt s;
     s_branch_name := s_branch_name s; s_commit_message := s_commit_message s;
     s_status := st |}.

(** ** State *)

(** The attributes of a [CodeTransformationPlatform] object. *)
Record platform := {
  openai_client : bool;
  github_client : option string;
  e2b_api_key : option string;
  e2b_session : option string;
  workspace_path : option string
}.

(** What a run leaves behind, in order: the lines printed, the events
    yielded and, as a record for the properties below, the methods of the
    platform that were entered. *)
Inductive action : Type :=
| Enter (method : string)
| Print (line : string)
| Yield (ev : sse).

Record state := {
  self : platform;
  files : Fs.tree;
  sent : list string;
  sandbox_open : bool;
  active_sessions : gmap string Session;
  trace : list action
}.

Definition set_self (p : platform) (s : state) : state :=
  {| self := p; files := files s; sent := sent s; sandbox_open := sandbox_open s;
     active_sessions := active_sessions s; trace := trace s |}.

Definition set_files (t : Fs.tree) (s : state) : state :=
  {| self := self s; files := t; sent := sent s; sandbox_open := sandbox_open s;
     active_sessions := active_sessions s; trace := trace s |}.

Definition set_sent (l : list string) (s : state) : state :=
  {| self := self s; files := files s; sent := l; sandbox_open := sandbox_open s;
     active_sessions := active_sessions s; trace := trace s |}.

Definition set_sandbox_open (b : bool) (s : state) : state :=
  {| self := self s; files := files s; sent := sent s; sandbox_open := b;
     active_sessions := active_sessions s; trace := trace s |}.

Definition set_active_sessions (m : gmap string Session) (s : state) : state :=
  {| self := self s; files := files s; sent := sent s; sandbox_open := sandbox_open s;
     active_sessions := m; trace := trace s |}.

Definition set_trace (l : list action) (s : state) : state :=
  {| self := self s; files := files s; sent := sent s; sandbox_open := sandbox_open s;
     active_sessions := active_sessions s; trace := l |}.

Definition set_github_client (v : option string) (p : platform) : platform :=
  {| openai_client := openai_client p; github_client := v; e2b_api_key := e2b_api_key p;
     e2b_session := e2b_session p; workspace_path := workspace_path p |}.

Definition set_e2b_session (v : option string) (p : platform) : platform :=
  {| openai_client := openai_client p; github_client := github_client p;
     e2b_api_key := e2b_api_key p; e2b_session := v; workspace_path := workspace_path p |}.

Definition set_workspace_path (v : option string) (p : platform) : platform :=
  {| openai_client := openai_client p; github_client := github_client p;
     e2b_api_key := e2b_api_key p; e2b_session := e2b_session p; workspace_path := v |}.

(** ** Computations: state threaded through, exceptions as results.  What a
    computation did to the state before it raised stays done. *)

Definition M (A : Type) : Type := state -> result A * state.

Definition ret {A} (a : A) : M A := fun s => (inr a, s).

Definition raise {A} (e : exn) : M A := fun s => (inl e, s).

Definition bind {A B} (m : M A) (k : A -> M B) : M B :=
  fun s =>
    match m s with
    | (inl e, s') => (inl e, s')
    | (inr a, s') => k a s'
    end.

(** [try: m except Exception as e: h e] *)
Definition try_except {A} (m : M A) (h : exn -> M A) : M A :=
  fun s =>
    match m s with
    | (inl e, s') => h e s'
    | (inr a, s') => (inr a, s')
    end.

(** [try: m finally: f] *)
Definition try_finally {A} (m : M A) (f : M unit) : M A :=
  fun s =>
    match m s with
    | (r, s') =>
        match f s' with
        | (inl e, s'') => (inl e, s'')
        | (inr _, s'') => (r, s'')
        end
    end.

Definition lift {A} (r : result A) : M A := fun s => (r, s).

Definition get_state : M state := fun s => (inr s, s).

Definition modify (f : state -> state) : M unit := fun s => (inr tt, f s).

Definition get_self : M platform := fun s => (inr (self s), s).

Definition update_self (f : platform -> platform) : M unit :=
  modify (fun s => set_self (f (self s)) s).

Definition emit (a : action) : M unit :=
  modify (fun s => set_trace (trace s ++ [a]) s).

Definition print (line : string) : M unit := emit (Print line).

Definition yield (ev : sse) : M unit := emit (Yield ev).

Declare Scope m_scope.
Delimit Scope m_scope with M.
Notation "x <- m ;; k" := (bind m (fun x => k))
  (at level 20, m at level 99, k at level 200, only parsing) : m_scope.
Notation "m ;; k" := (bind m (fun _ => k))
  (at level 100, k at level 200, only parsing, right associativity) : m_scope.

Definition RuntimeError (msg : string) : exn := Exn "RuntimeError" msg.
Definition ValueError (msg : string) : exn := Exn "ValueError" msg.
Definition TypeError (msg : string) : exn := Exn "TypeError" msg.

(** ** What the engine depends on

    Library functions and outside services, each as the function the engine
    sees: whether the optional packages were importable, the process
    environment, the JSON decoder, the language model, the sandbox service
    (its replies may depend on the commands sent before), temporary
    directories, sub-processes and the repository host.  [mkdtemp] is the
    place [tempfile.mkdtemp] picks for its directory, or the error it raises
    when it finds none; [pytest] is how the test run ends together with the
    files it leaves behind. *)
Record Env := {
  E2B_AVAILABLE : bool;
  OPENAI_AVAILABLE : bool;
  GITHUB_AVAILABLE : bool;
  getenv : string -> option string;
  json_loads : string -> result json;
  chat_completion : string -> Analysis -> result (option string);
  sandbox_new : string -> option exn;
  sandbox_aenter : string -> option exn;
  sandbox_aexit : list string -> option exn;
  sandbox_run : list string -> string -> result Execution;
  mkdtemp : string -> Fs.tree -> result (list string);
  git_clone : string -> string -> Fs.tree -> result Fs.tree;
  os_walk : string -> Fs.tree -> list (string * list string);
  pytest : string -> Z -> Fs.tree -> proc_outcome * Fs.tree;
  git : list string -> string -> Fs.tree -> option exn;
  get_repos : string -> result (list RepositoryInfo);
  now_stamp : string
}.

(** ** The engine ([src/core/engine.py]) *)

Module Engine.
Section WithEnv.

Context (E : Env).

#[local] Open Scope m_scope.

(** [a or b] on optional strings: [None] and the empty string are false. *)
Definition or_str (a b : option string) : option string :=
  match a with
  | Some s => if String.eqb s EmptyString then b else a
  | None => b
  end.

(** [not a] *)
Definition falsy (a : option string) : bool :=
  match a with
  | Some s => String.eqb s EmptyString
  | None => true
  end.

(** [CodeTransformationPlatform.__init__]: the new object replaces [self]. *)
Definition init (openai_api_key e2b_key : option string) : M unit :=
  let openai_api_key := or_str openai_api_key (getenv E "OPENAI_API_KEY") in
  let e2b_key := or_str e2b_key (getenv E "E2B_API_KEY") in
  if falsy openai_api_key then raise (ValueError "OpenAI API key is required")
  else
    modify (set_self {| openai_client := OPENAI_AVAILABLE E;
                        github_client := None;
                        e2b_api_key := e2b_key;
                        e2b_session := None;
                        workspace_path := None |}).

Definition setup_github_connection (github_token : string) : M unit :=
  emit (Enter "setup_github_connection");;
  if negb (GITHUB_AVAILABLE E) then raise (RuntimeError "PyGithub is not installed")
  else
    update_self (set_github_client (Some github_token));;
    print "✅ GitHub connection established".

(** The sandbox object's [run_code]: the command is recorded as sent
    whether or not the call raises. *)
Definition run_code (cmd : string) : M Execution :=
  s <- get_state;;
  modify (set_sent (sent s ++ [cmd]));;
  lift (sandbox_run E (sent s) cmd).

(** [self.workspace_path = tempfile.mkdtemp(prefix=...)] and the two lines
    after it.  The directory is made where the library picked its place;
    what that raises leaves the method. *)
Definition local_environment : M string :=
  s <- get_state;;
  p <- lift (mkdtemp E "code_transform_" (files s));;
  let name := "/" +:+ PyStr.join "/" p in
  t <- lift (Fs.mkdir name p (files s));;
  modify (set_files t);;
  update_self (set_workspace_path (Some name));;
  print ("📁 Local environment created: " +:+ name);;
  ret name.

Definition create_execution_environment : M string :=
  emit (Enter "create_execution_environment");;
  if negb (E2B_AVAILABLE E) then local_environment
  else
    try_except
      (p <- get_self;;
       match e2b_api_key p with
       | Some key =>
           if String.eqb key EmptyString
           then raise (ValueError "E2B API key required for cloud execution")
           else
             match sandbox_new E key with
             | Some e => raise e
             | None =>
                 update_self (set_e2b_session (Some key));;
                 match sandbox_aenter E key with
                 | Some e => raise e
                 | None =>
                     modify (set_sandbox_open true);;
                     print "☁️ E2B cloud environment initialized";;
                     ret "e2b_environment"
                 end
             end
       | None => raise (ValueError "E2B API key required for cloud execution")
       end)
      (fun e =>
         print ("⚠️ E2B initialization failed: " +:+ exn_str e);;
         local_environment).

Definition retrieve_user_repositories : M (list RepositoryInfo) :=
  emit (Enter "retrieve_user_repositories");;
  p <- get_self;;
  match github_client p with
  | None => raise (RuntimeError "GitHub connection not established")
  | Some token =>
      match get_repos E token with
      | inr repos => ret (List.filter (fun r => negb (repo_fork r)) repos)
      | inl e => raise (RuntimeError ("Failed to retrieve repositories: " +:+ exn_str e))
      end
  end.

(** [repo_url.split('/')[-1].replace('.git', '')] *)
Definition repo_name_of (url : string) : string :=
  PyStr.replace (List.last (PyStr.split "/" url) EmptyString) ".git" EmptyString.

Definition download_repository (url : string) : M string :=
  emit (Enter "download_repository");;
  try_except
    (p <- get_self;;
     match e2b_session p with
     | Some _ =>
         run_code ("git clone " +:+ url);;
         ret ("/home/user/" +:+ repo_name_of url)
     | None =>
         match workspace_path p with
         | None =>
             raise (TypeError "expected str, bytes or os.PathLike object, not NoneType")
         | Some ws =>
             let local_path := Fs.join ws (repo_name_of url) in
             s <- get_state;;
             t <- lift (git_clone E url local_path (files s));;
             modify (set_files t);;
             ret local_path
         end
     end)
    (fun e => raise (RuntimeError ("Failed to download repository: " +:+ exn_str e))).

(** [Path(file).name]: the last component of the path, where empty
    components and [.] components do not count. *)
Definition path_name (file : string) : string :=
  List.last (List.filter (fun c => negb (Fs.is_dot c)) (PyStr.split "/" file)) EmptyString.

(** [Path(file).suffix.lower()]: from the last dot of the name on, unless
    that dot starts or ends the name. *)
Definition suffix_lower (file : string) : string :=
  let name := path_name file in
  let i := PyStr.rfind name "." in
  if (0 <? i) && (i <? Z.of_nat (String.length name) - 1)
  then PyStr.lower (PyStr.slice name i (Z.of_nat (String.length name)))
  else EmptyString.

Definition language_map : list (string * string) :=
  [(".py", "Python"); (".js", "JavaScript"); (".ts", "TypeScript"); (".java", "Java");
   (".cpp", "C++"); (".c", "C"); (".go", "Go"); (".rs", "Rust")].

Fixpoint assoc (k : string) (m : list (string * string)) : option string :=
  match m with
  | [] => None
  | (k', v) :: m' => if String.eqb k' k then Some v else assoc k m'
  end.

(** The extensions are collected in a set; its members are taken here in
    the order of their first occurrence. *)
Definition _identify_languages (file_list : list string) : list string :=
  let exts := List.filter (fun e => negb (String.eqb e EmptyString)) (List.map suffix_lower file_list) in
  omap (fun e => assoc e language_map) (remove_dups exts).

Definition code_suffixes : list string :=
  [".py"; ".js"; ".ts"; ".java"; ".cpp"; ".c"; ".go"; ".rs"].

(** The two loops over [os.walk(repo_path)]: each directory comes with the
    names of its files. *)
Definition code_files (walked : list (string * list string)) : list string :=
  List.flat_map
    (fun entry =>
       List.map (Fs.join (fst entry))
         (List.filter (fun filename => List.existsb (PyStr.endswith filename) code_suffixes)
            (snd entry)))
    walked.

Definition find_command (repo_path : string) : string :=
  "find " +:+ repo_path +:+
  " -name '*.py' -o -name '*.js' -o -name '*.ts' -o -name '*.java' -o -name '*.cpp' -o -name '*.c' -o -name '*.go' -o -name '*.rs' | head -20".

Definition examine_codebase (repo_path : string) : M Analysis :=
  emit (Enter "examine_codebase");;
  try_except
    (p <- get_self;;
     file_list <-
       match e2b_session p with
       | Some _ =>
           r <- run_code (find_command repo_path);;
           ret (match text r with
                | Some t => if String.eqb t EmptyString then []
                            else PyStr.split (ascii_of_nat 10) (PyStr.strip t)
                | None => []
                end)
       | None =>
           s <- get_state;;
           ret (code_files (os_walk E repo_path (files s)))
       end;;
     ret {| total_files := List.length file_list;
            languages := _identify_languages file_list;
            main_files := List.firstn 10 file_list;
            structure := "Repository with " +:+ pretty (List.length file_list) +:+ " code files" |})
    (fun e => raise (RuntimeError ("Failed to examine codebase: " +:+ exn_str e))).

(** *** Plan parsing *)

(** The text between the first opening brace and the last closing brace. *)
Definition extract_json (content : string) : string :=
  let start_idx := PyStr.find content "{" in
  let end_idx := PyStr.rfind content "}" + 1 in
  PyStr.slice content start_idx end_idx.

(** The body of the loop: one [CodeModification] from one entry. *)
Definition modification_of (mod_ : json) : result CodeModification :=
  (let* fp := PyVal.subscript mod_ "file_path" in
   let* op := PyVal.subscript mod_ "operation" in
   let* c := PyVal.get mod_ "content" (JStr EmptyString) in
   let* d := PyVal.get mod_ "description" (JStr EmptyString) in
   inr {| file_path := fp; operation := op; content := c; description := d |})%result.

Fixpoint modifications_of (mods : list json) : result (list CodeModification) :=
  match mods with
  | [] => inr []
  | mod_ :: rest =>
      (let* t := modification_of mod_ in
       let* ts := modifications_of rest in
       inr (t :: ts))%result
  end.

(** From the reply's text to the list of transformations. *)
Definition parse_plan (content : string) : result (list CodeModification) :=
  (let* data := json_loads E (extract_json content) in
   let* items := PyVal.get data "transformations" (JArr []) in
   let* mods := PyVal.iterate items in
   modifications_of mods)%result.

Definition nl : string := String (ascii_of_nat 10) EmptyString.

(** The request sent to the model. *)
Definition context_text (prompt : string) (analysis : Analysis) : string :=
  nl +:+ "Codebase Examination:" +:+ nl
  +:+ "- Files: " +:+ pretty (total_files analysis) +:+ nl
  +:+ "- Languages: " +:+ PyStr.join ", " (languages analysis) +:+ nl
  +:+ "- Main files: " +:+ PyStr.join ", " (List.firstn 5 (main_files analysis)) +:+ nl
  +:+ nl +:+ "User Request: " +:+ prompt +:+ nl
  +:+ nl +:+ "Create specific code transformations in JSON format:" +:+ nl
  +:+ JsonText.dq
"{
    'transformations': [
        {
            'file_path': 'path/to/file',
            'operation': 'create|modify|delete',
            'content': 'file content (for create/modify)',
            'description': 'explanation'
        }
    ]
}
".

Definition create_code_transformations (prompt : string) (analysis : Analysis)
  : M (list CodeModification) :=
  emit (Enter "create_code_transformations");;
  p <- get_self;;
  if negb (openai_client p) then raise (RuntimeError "OpenAI client not available")
  else
    try_except
      (reply <- lift (chat_completion E (context_text prompt analysis) analysis);;
       match reply with
       | Some reply_text => lift (parse_plan reply_text)
       | None => raise (Exn "AttributeError" "'NoneType' object has no attribute 'find'")
       end)
      (fun e => raise (RuntimeError ("Failed to create code transformations: " +:+ exn_str e))).

(** *** Plan application *)

(** [v == s] for a string constant [s] *)
Definition eq_str (v : json) (s : string) : bool :=
  match v with
  | JStr x => String.eqb x s
  | _ => false
  end.

(** [transformation.content or ''] *)
Definition content_or_empty (t : CodeModification) : json :=
  PyVal.or_else (content t) (JStr EmptyString).

Definition echo_command (repo_path : string) (t : CodeModification) : string :=
  "echo '" +:+ PyVal.str (content_or_empty t) +:+ "' > " +:+ repo_path +:+ "/"
  +:+ PyVal.str (file_path t).

Definition rm_command (repo_path : string) (t : CodeModification) : string :=
  "rm -f " +:+ repo_path +:+ "/" +:+ PyVal.str (file_path t).

(** [os.path.join(repo_path, transformation.file_path)] *)
Definition full_path_of (repo_path : string) (t : CodeModification) : result string :=
  match file_path t with
  | JStr fp => inr (Fs.join repo_path fp)
  | v => inl (TypeError ("join() argument must be str, bytes, or os.PathLike object, not '"
                         +:+ PyVal.type_name v +:+ "'"))
  end.

Definition makedirs (path : string) : M unit :=
  s <- get_state;;
  t <- lift (Fs.makedirs path (files s));;
  modify (set_files t).

(** [with open(full_path, 'w') as f: f.write(data)] *)
Definition write_file (full_path : string) (data : json) : M unit :=
  s <- get_state;;
  match Fs.open_w full_path (files s) with
  | inl e => raise e
  | inr (t, p) =>
      modify (set_files t);;
      match data with
      | JStr d => modify (set_files (<[p := File d]> t))
      | v => raise (TypeError ("write() argument must be str, not " +:+ PyVal.type_name v))
      end
  end.

Definition remove_if_exists (full_path : string) : M unit :=
  s <- get_state;;
  if Fs.exists_ full_path (files s) then
    t <- lift (Fs.remove full_path (files s));;
    modify (set_files t)
  else ret tt.

(** The body of the loop for one transformation, up to the append. *)
Definition implement_one (repo_path : string) (t : CodeModification) : M unit :=
  p <- get_self;;
  match e2b_session p with
  | Some _ =>
      if eq_str (operation t) "create" then
        run_code (echo_command repo_path t);; ret tt
      else if eq_str (operation t) "modify" then
        run_code (echo_command repo_path t);; ret tt
      else if eq_str (operation t) "delete" then
        run_code (rm_command repo_path t);; ret tt
      else ret tt
  | None =>
      full_path <- lift (full_path_of repo_path t);;
      if eq_str (operation t) "create" then
        makedirs (Fs.dirname full_path);;
        write_file full_path (content_or_empty t)
      else if eq_str (operation t) "modify" then
        write_file full_path (content_or_empty t)
      else if eq_str (operation t) "delete" then
        remove_if_exists full_path
      else ret tt
  end.

Fixpoint implement_loop (repo_path : string) (ts : list CodeModification)
    (implemented_files : list json) : M (list json) :=
  match ts with
  | [] => ret implemented_files
  | t :: rest =>
      implement_one repo_path t;;
      print ("✅ Implemented: " +:+ PyVal.str (file_path t));;
      implement_loop repo_path rest (implemented_files ++ [file_path t])
  end.

Definition implement_transformations (repo_path : string) (ts : list CodeModification)
  : M (list json) :=
  emit (Enter "implement_transformations");;
  try_except
    (implement_loop repo_path ts [])
    (fun e => raise (RuntimeError ("Failed to implement transformations: " +:+ exn_str e))).

(** *** Validation, publication, teardown *)

Definition pytest_command (repo_path : string) : string :=
  "cd " +:+ repo_path +:+ " && python -m pytest --tb=short || echo 'No pytest found'".

Definition run_code_validation (repo_path : string) : M Validation :=
  emit (Enter "run_code_validation");;
  try_except
    (p <- get_self;;
     out <-
       match e2b_session p with
       | Some _ =>
           r <- run_code (pytest_command repo_path);;
           ret (text r)
       | None =>
           s <- get_state;;
           let ran := pytest E repo_path 60 (files s) in
           modify (set_files (snd ran));;
           match fst ran with
           | ProcDone out => ret (Some out)
           | ProcTimeout => ret (Some "Validation timed out")
           | ProcNotFound => ret (Some "No pytest found")
           | ProcRaised e => raise e
           end
       end;;
     ret {| validation_output := out; validation_status := "completed" |})
    (fun e =>
       ret {| validation_output := Some ("Validation execution failed: " +:+ exn_str e);
              validation_status := "failed" |}).

Fixpoint run_commands (cmds : list string) : M unit :=
  match cmds with
  | [] => ret tt
  | cmd :: rest =>
      r <- run_code cmd;;
      if error r then raise (RuntimeError ("Git command failed: " +:+ cmd))
      else run_commands rest
  end.

(** [subprocess.run(["git", ...], cwd=repo_path, check=True)] *)
Definition run_git (args : list string) (repo_path : string) : M unit :=
  s <- get_state;;
  match git E args repo_path (files s) with
  | Some e => raise e
  | None => ret tt
  end.

Definition commit_and_publish (repo_path branch_name commit_message github_token : string)
  : M Published :=
  emit (Enter "commit_and_publish");;
  try_except
    (p <- get_self;;
     match e2b_session p with
     | Some _ =>
         run_commands
           ["cd " +:+ repo_path;
            "git add .";
            "git commit -m '" +:+ commit_message +:+ "'";
            "git checkout -b " +:+ branch_name;
            "git push -u origin " +:+ branch_name]
     | None =>
         run_git ["add"; "."] repo_path;;
         run_git ["commit"; "-m"; commit_message] repo_path;;
         run_git ["checkout"; "-b"; branch_name] repo_path;;
         run_git ["push"; "-u"; "origin"; branch_name] repo_path
     end;;
     ret {| pub_branch := branch_name; pub_commit_message := commit_message;
            pub_status := "success" |})
    (fun e => raise (RuntimeError ("Failed to commit and publish: " +:+ exn_str e))).

Definition cleanup_resources : M unit :=
  emit (Enter "cleanup_resources");;
  try_except
    (p <- get_self;;
     match e2b_session p with
     | Some _ =>
         s <- get_state;;
         match sandbox_aexit E (sent s) with
         | Some e => raise e
         | None => modify (set_sandbox_open false);; print "☁️ E2B session closed"
         end
     | None => ret tt
     end;;
     match workspace_path p with
     | Some ws =>
         s <- get_state;;
         if negb (String.eqb ws EmptyString) && Fs.exists_ ws (files s) then
           t <- lift (Fs.rmtree ws (files s));;
           modify (set_files t);;
           print "📁 Local environment cleaned up"
         else ret tt
     | None => ret tt
     end)
    (fun e => print ("⚠️ Cleanup warning: " +:+ exn_str e)).

(** *** The command-line driver [main]

    The three answers read from the terminal are arguments: the token and
    the prompt as typed, the repository number as the outcome of
    [int(input(...))]. *)

Fixpoint print_repos (i : nat) (repos : list RepositoryInfo) : M unit :=
  match repos with
  | [] => ret tt
  | repo :: rest =>
      print (pretty (i + 1)%nat +:+ ". " +:+ repo_owner repo +:+ "/" +:+ repo_name repo +:+ " - "
             +:+ default "Unknown" (or_str (repo_language repo) None));;
      print_repos (S i) rest
  end.

(** The steps of [main] once the plan is applied: validation, then
    publication. *)
Definition validate_and_publish (repo_path prompt github_token : string) : M unit :=
  print "🧪 Running validation...";;
  validation_results <- run_code_validation repo_path;;
  print ("✅ Validation completed: " +:+ validation_status validation_results);;
  let branch_name := "ai-transformed-" +:+ now_stamp E in
  let commit_message := "AI-transformed changes: " +:+ PyStr.slice prompt 0 50 +:+ "..." in
  print ("🚀 Publishing to branch: " +:+ branch_name);;
  publish_result <- commit_and_publish repo_path branch_name commit_message github_token;;
  print "🎉 Publication completed successfully!";;
  print ("📋 Branch: " +:+ pub_branch publish_result);;
  print ("💬 Commit: " +:+ pub_commit_message publish_result).

(** The body of the [try] of [main]. *)
Definition main_steps (token_typed : string) (number_typed : result Z)
    (prompt_typed : string) : M unit :=
  let github_token := PyStr.strip token_typed in
  setup_github_connection github_token;;
  create_execution_environment;;
  repos <- retrieve_user_repositories;;
  print ("📋 Found " +:+ pretty (List.length repos) +:+ " repositories");;
  print_repos 0 (List.firstn 5 repos);;
  number <- lift number_typed;;
  let repo_choice := number - 1 in
  selected_repo <-
    match PyStr.index repos repo_choice with
    | Some r => ret r
    | None => raise (Exn "IndexError" "list index out of range")
    end;;
  let prompt := PyStr.strip prompt_typed in
  print ("📥 Downloading " +:+ repo_name selected_repo +:+ "...");;
  repo_path <- download_repository (repo_url selected_repo);;
  print "🔍 Examining codebase...";;
  analysis <- examine_codebase repo_path;;
  print ("📊 Found " +:+ pretty (total_files analysis) +:+ " files in "
         +:+ PyStr.join ", " (languages analysis));;
  print "🤖 Creating code transformations...";;
  transformations <- create_code_transformations prompt analysis;;
  print ("✏️ Created " +:+ pretty (List.length transformations) +:+ " transformations");;
  print "🔧 Implementing transformations...";;
  implement_transformations repo_path transformations;;
  validate_and_publish repo_path prompt github_token.

Definition main (token_typed : string) (number_typed : result Z) (prompt_typed : string)
  : M unit :=
  print "🚀 Advanced AI-Powered Code Transformation System";;
  print "==================================================";;
  init None None;;
  try_finally
    (try_except
       (main_steps token_typed number_typed prompt_typed)
       (fun e => print ("❌ Error: " +:+ exn_str e)))
    cleanup_resources.

End WithEnv.
End Engine.

(** ** The streaming pipeline ([src/web/interface.py])

    The generator is run to its end: every event it yields is taken by the
    consumer. *)

Module Web.
Section WithEnv.

Context (E : Env).

#[local] Open Scope m_scope.

Definition status_update (message : string) (step : nat) (status : string) : sse :=
  {| event := "status_update"; ev_status := status; ev_message := message;
     ev_step := Some (step, 6%nat); ev_payload := [] |}.

Definition error_event (message : string) : sse :=
  {| event := "error"; ev_status := "error"; ev_message := message;
     ev_step := None; ev_payload := [] |}.

Definition json_of_strings (l : list string) : json := JArr (List.map JStr l).

Definition json_of_analysis (a : Analysis) : json :=
  JObj [("total_files", JNum (Z.of_nat (total_files a)));
        ("languages", json_of_strings (languages a));
        ("main_files", json_of_strings (main_files a));
        ("structure", JStr (structure a))].

Definition json_of_published (r : Published) : json :=
  JObj [("branch", JStr (pub_branch r));
        ("commit_message", JStr (pub_commit_message r));
        ("status", JStr (pub_status r))].

(** [active_sessions[session_id]["status"] = status], when the entry is
    there. *)
Definition set_session_status (session_id status : string) : M unit :=
  modify (fun s =>
    set_active_sessions (alter (with_status status) session_id (active_sessions s)) s).

(** The body of the [try] of the generator. *)
Definition event_steps (session_id : string) : M unit :=
  s <- get_state;;
  match active_sessions s !! session_id with
  | None => yield (error_event "Session not found")
  | Some session_data =>
      Engine.init E (Some (s_openai_token session_data)) (getenv E "E2B_API_KEY");;
      Engine.setup_github_connection E (s_github_token session_data);;
      set_session_status session_id "running";;
      yield (status_update "Creating E2B cloud execution environment..." 1 "initializing");;
      Engine.create_execution_environment E;;
      yield (status_update "Execution environment created successfully" 1 "initializing");;
      yield (status_update "Downloading repository to execution environment..." 2 "analyzing");;
      repo_path <- Engine.download_repository E (s_repo_url session_data);;
      yield (status_update "Repository downloaded successfully" 2 "analyzing");;
      yield (status_update "Examining codebase structure..." 3 "analyzing");;
      analysis <- Engine.examine_codebase E repo_path;;
      yield {| event := "analysis_complete"; ev_status := "analyzing";
               ev_message := "Examination complete: " +:+ pretty (total_files analysis)
                             +:+ " files found";
               ev_step := Some (3%nat, 6%nat);
               ev_payload := [("analysis", json_of_analysis analysis)] |};;
      yield (status_update "Creating code transformations with AI..." 4 "generating");;
      transformations <-
        Engine.create_code_transformations E (s_prompt session_data) analysis;;
      yield {| event := "modifications_generated"; ev_status := "generating";
               ev_message := "Created " +:+ pretty (List.length transformations)
                             +:+ " transformations";
               ev_step := Some (4%nat, 6%nat);
               ev_payload :=
                 [("modifications_count", JNum (Z.of_nat (List.length transformations)))] |};;
      yield (status_update "Implementing transformations in codebase..." 5 "executing");;
      implemented_files <- Engine.implement_transformations E repo_path transformations;;
      yield {| event := "modifications_applied"; ev_status := "executing";
               ev_message := "Implemented " +:+ pretty (List.length implemented_files)
                             +:+ " transformations";
               ev_step := Some (5%nat, 6%nat);
               ev_payload := [("applied_files", JArr implemented_files)] |};;
      yield (status_update "Publishing changes to GitHub..." 6 "deploying");;
      publish_result <-
        Engine.commit_and_publish E repo_path (s_branch_name session_data)
          (s_commit_message session_data) (s_github_token session_data);;
      yield {| event := "deployment_complete"; ev_status := "completed";
               ev_message := "Publication completed successfully!";
               ev_step := Some (6%nat, 6%nat);
               ev_payload := [("result", json_of_published publish_result)] |};;
      set_session_status session_id "completed"
  end.

Definition event_generator (session_id : string) : M unit :=
  try_except
    (event_steps session_id)
    (fun e =>
       set_session_status session_id "failed";;
       yield (error_event ("Generation failed: " +:+ exn_str e))).

End WithEnv.
End Web.

(** ** Starting a session ([start_generation] of [src/web/interface.py]) *)

(** The body of a generation request. *)
Record CodeGenerationRequest := {
  rq_github_token : string;
  rq_openai_token : string;
  rq_repo_url : string;
  rq_prompt : string;
  rq_branch_name : string;
  rq_commit_message : string
}.

Module Api.

#[local] Open Scope m_scope.

(** The entry stored for a request. *)
Definition session_of (request : CodeGenerationRequest) : Session :=
  {| s_github_token := rq_github_token request;
     s_openai_token := rq_openai_token request;
     s_repo_url := rq_repo_url request;
     s_prompt := rq_prompt request;
     s_branch_name := rq_branch_name request;
     s_commit_message := rq_commit_message request;
     s_status := "pending" |}.

(** [start_generation]; [stamp] is the text of [datetime.now().timestamp()].
    It returns the session identifier and the status [started]. *)
Definition start_generation (stamp : string) (request : CodeGenerationRequest)
  : M (string * string) :=
  let session_id := "session_" +:+ stamp in
  modify (fun s =>
    set_active_sessions (<[session_id := session_of request]> (active_sessions s)) s);;
  ret (session_id, "started").

End Api.

(** ** Helper functions ([src/utils/helpers.py]) *)

Module Helpers.

(** [p in s] for strings *)
Fixpoint substring_of (p s : string) : bool :=
  String.prefix p s
  || match s with
     | EmptyString => false
     | String _ s' => substring_of p s'
     end.

(** The characters [sanitize_filename] replaces. *)
Definition unsafe_chars : list ascii :=
  ["<"; ">"; ":"; PyStr.dquote; "/"; "\"; "|"; "?"; "*"]%char.

(** The loop: one [filename.replace(char, '_')] per unsafe character. *)
Definition sanitize_filename (filename : string) : string :=
  List.fold_left
    (fun name char => PyStr.replace name (String char EmptyString) "_")
    unsafe_chars filename.

Definition format_repository_url (url : string) : result string :=
  let url :=
    if negb (PyStr.startswith url "http://" || PyStr.startswith url "https://")
    then "https://github.com/" +:+ url
    else url in
  if negb (substring_of "github.com" url)
  then inl (ValueError "Repository URL must be a GitHub URL")
  else inr url.

(** [parts.index(x)] when [x in parts] *)
Fixpoint index_in (x : string) (parts : list string) : option nat :=
  match parts with
  | [] => None
  | y :: rest => if String.eqb y x then Some 0%nat else S <$> index_in x rest
  end.

(** The dictionary returned by [extract_repo_info_from_url]. *)
Record RepoRef := {
  ref_owner : string;
  ref_repo : string
}.

Definition extract_repo_info_from_url (url : string) : result RepoRef :=
  let url := if PyStr.endswith url ".git" then PyStr.slice url 0 (-4) else url in
  let parts := PyStr.split "/" url in
  let failure := inl (ValueError "Could not extract repository information from URL") in
  match index_in "github.com" parts with
  | Some github_index =>
      if Nat.leb (github_index + 3) (List.length parts) then
        match List.nth_error parts (github_index + 1), List.nth_error parts (github_index + 2) with
        | Some owner, Some repo => inr {| ref_owner := owner; ref_repo := repo |}
        | _, _ => failure
        end
      else failure
  | None => failure
  end.

End Helpers.

(** * What the properties are stated with *)

(** ** Plans *)

(** The value an entry of the plan has under a key. *)
Definition entry_field (k : string) (entry : json) : option json :=
  match entry with
  | JObj m => PyVal.dict_get k m
  | _ => None
  end.

(** An entry that has both keys the parser reads without a default. *)
Definition keyed (entry : json) : Prop :=
  is_Some (entry_field "file_path" entry) /\ is_Some (entry_field "operation" entry).

(** A transformation carries the values of its entry. *)
Definition carries (entry : json) (t : CodeModification) : Prop :=
  entry_field "file_path" entry = Some (file_path t)
  /\ entry_field "operation" entry = Some (operation t).

(** An operation the executor has a branch for. *)
Definition known_operation (v : json) : bool :=
  Engine.eq_str v "create" || Engine.eq_str v "modify" || Engine.eq_str v "delete".

(** A deletion as the plan states it: a path and nothing to write. *)
Definition deletion (path : string) : CodeModification :=
  {| file_path := JStr path; operation := JStr "delete"; content := JNull;
     description := JStr EmptyString |}.

(** ** Traces *)

(** The methods entered, in order. *)
Fixpoint enters (l : list action) : list string :=
  match l with
  | [] => []
  | Enter method :: l' => method :: enters l'
  | _ :: l' => enters l'
  end.

Definition entered_methods (s : state) : list string := enters (trace s).

(** The state once a method has been entered, and once a path has been
    reported as implemented. *)
Definition entered (method : string) (s : state) : state :=
  set_trace (trace s ++ [Enter method]) s.

Definition reported (t : CodeModification) (s : state) : state :=
  set_trace (trace s ++ [Print ("✅ Implemented: " +:+ PyVal.str (file_path t))]) s.

(** The methods entered once [name] is entered too. *)
Definition then_ (name : string) (l : list string) : list string := l ++ [name].

(** ** Frames and outcomes of computations *)

(** [m] ends with the same [proj] of the state as it started with. *)
Definition keeps {A X : Type} (proj : state -> X) (m : M A) : Prop :=
  forall s, proj (snd (m s)) = proj s.

(** [m] ends with [f] applied to the [proj] it started with. *)
Definition advances {A X : Type} (proj : state -> X) (f : X -> X) (m : M A) : Prop :=
  forall s, proj (snd (m s)) = f (proj s).

(** Every list of the first followed by every list of the second. *)
Definition cat_all (l1 l2 : list (list string)) : list (list string) :=
  List.flat_map (fun x => List.map (fun y => x ++ y) l2) l1.

(** [m] adds to the methods entered one of the lists of [ok] when it
    returns and one of the lists of [bad] when it raises. *)
Definition outcome {A} (ok bad : list (list string)) (m : M A) : Prop :=
  forall s,
    exists x,
      entered_methods (snd (m s)) = entered_methods s ++ x
      /\ In x (match fst (m s) with inr _ => ok | inl _ => bad end).

(** [b] comes right after every [a]. *)
Fixpoint always_followed_by (a b : string) (l : list string) : bool :=
  match l with
  | [] => true
  | x :: l' =>
      (if String.eqb x a
       then match l' with y :: _ => String.eqb y b | [] => false end
       else true)
      && always_followed_by a b l'
  end.

(** The stages of [main], in the order of its body. *)
Definition main_stages : list string :=
  ["setup_github_connection"; "create_execution_environment"; "retrieve_user_repositories";
   "download_repository"; "examine_codebase"; "create_code_transformations";
   "implement_transformations"; "run_code_validation"; "commit_and_publish"].

(** The methods a run of [main] can enter: none, or the stages up to one of
    them and then the teardown.  Validation is not the last stage of any. *)
Definition main_runs : list (list string) :=
  [] :: List.map (fun n => List.firstn n main_stages ++ ["cleanup_resources"])
          [1; 2; 3; 4; 5; 6; 7; 9]%nat.

(** [ms] is one of them. *)
Definition one_of_main_runs (ms : list string) : bool :=
  existsb (fun l => bool_decide (ms = l)) main_runs.

(** [l] is an initial segment of [whole]. *)
Fixpoint initial_segment (whole l : list string) : bool :=
  match l, whole with
  | [], _ => true
  | x :: l', y :: whole' => String.eqb x y && initial_segment whole' l'
  | _ :: _, [] => false
  end.

(** ** Provisioning, validation, sessions *)

(** The scratch directory is made at [p]: the library picks that place and
    the directory can be made there, which leaves the files [t']. *)
Definition scratch_made (E : Env) (s : state) (p : list string) (t' : Fs.tree) : Prop :=
  mkdtemp E "code_transform_" (files s) = inr p
  /\ Fs.mkdir ("/" +:+ PyStr.join "/" p) p (files s) = inr t'.

(** The name of the scratch directory at [p]. *)
Definition scratch_name (p : list string) : string := "/" +:+ PyStr.join "/" p.

(** The sandbox cannot be reached at all: the package is missing, there
    is no key, or making the sandbox object raises. *)
Definition unreachable (E : Env) (s : state) : Prop :=
  E2B_AVAILABLE E = false
  \/ Engine.falsy (e2b_api_key (self s)) = true
  \/ exists key e, e2b_api_key (self s) = Some key /\ sandbox_new E key = Some e.

(** The result of a validation that ran out of time. *)
Definition timed_out : Validation :=
  {| validation_output := Some "Validation timed out"; validation_status := "completed" |}.

(** The result of a validation whose run raised [e]. *)
Definition failed_with (e : exn) : Validation :=
  {| validation_output := Some ("Validation execution failed: " +:+ exn_str e);
     validation_status := "failed" |}.

(** The stages of the streaming pipeline, in order. *)
Definition web_stages : list string :=
  ["setup_github_connection"; "create_execution_environment"; "download_repository";
   "examine_codebase"; "create_code_transformations"; "implement_transformations";
   "commit_and_publish"].

(** The session identifiers in use. *)
Definition session_ids (s : state) : gset string := dom (active_sessions s).

(** ** A concrete environment, for running the engine *)

Module Demo.

Definition done : Execution := {| text := Some EmptyString; error := false |}.

Definition a_repo : RepositoryInfo :=
  {| repo_owner := "octo"; repo_name := "demo"; repo_url := "https://github.com/octo/demo.git";
     repo_description := None; repo_language := Some "Python"; repo_fork := false |}.

(** The knobs: is the sandbox package there, does entering the sandbox
    session raise, what does the sandbox answer, what does the model
    reply, how does the test run end. *)
Definition env (e2b : bool) (aenter : option exn)
    (run : list string -> string -> result Execution)
    (reply : string) (tests : proc_outcome) : Env :=
  {| E2B_AVAILABLE := e2b;
     OPENAI_AVAILABLE := true;
     GITHUB_AVAILABLE := true;
     getenv := fun name =>
       if String.eqb name "E2B_API_KEY" then Some "e2b-key"
       else if String.eqb name "OPENAI_API_KEY" then Some "sk-demo"
       else None;
     json_loads := JsonText.loads;
     chat_completion := fun _ _ => inr (Some reply);
     sandbox_new := fun _ => None;
     sandbox_aenter := fun _ => aenter;
     sandbox_aexit := fun _ => None;
     sandbox_run := run;
     mkdtemp := fun _ _ => inr ["tmp"; "code_transform_0"];
     git_clone := fun _ dest t => Fs.makedirs dest t;
     os_walk := fun _ _ => [];
     pytest := fun _ _ t => (tests, t);
     git := fun _ _ _ => None;
     get_repos := fun _ => inr [a_repo];
     now_stamp := "20240101-000000" |}.

Definition always_done : list string -> string -> result Execution := fun _ _ => inr done.

(** No sandbox package: everything runs locally. *)
Definition local_env (reply : string) : Env :=
  env false None always_done reply (ProcDone EmptyString).

(** The sandbox is there and answers every command. *)
Definition remote_env (reply : string) : Env :=
  env true None always_done reply (ProcDone EmptyString).

Definition new_platform : platform :=
  {| openai_client := true; github_client := None; e2b_api_key := None;
     e2b_session := None; workspace_path := None |}.

Definition a_session : Session :=
  {| s_github_token := "ghp"; s_openai_token := "sk"; s_repo_url := repo_url a_repo;
     s_prompt := "add a file"; s_branch_name := "ai-generated-changes";
     s_commit_message := "AI-generated improvements"; s_status := "pending" |}.

Definition start : state :=
  {| self := new_platform;
     files := {[ [] := Dir; ["tmp"] := Dir ]};
     sent := [];
     sandbox_open := false;
     active_sessions := {[ "session_1" := a_session ]};
     trace := [] |}.

(** A cloned repository at [/w/r] with nothing in it. *)
Definition fresh : state :=
  {| self := new_platform;
     files := {[ [] := Dir; ["w"] := Dir; ["w"; "r"] := Dir ]};
     sent := [];
     sandbox_open := false;
     active_sessions := ∅;
     trace := [] |}.

(** The same, with a sandbox session in use. *)
Definition fresh_remote : state :=
  set_sandbox_open true (set_self (set_e2b_session (Some "e2b-key") new_platform) fresh).

Definition no_analysis : Analysis :=
  {| total_files := 0; languages := []; main_files := [];
     structure := "Repository with 0 code files" |}.

Definition change (path op text : string) : CodeModification :=
  {| file_path := JStr path; operation := JStr op; content := JStr text;
     description := JStr EmptyString |}.

End Demo.

(** A sandbox that answers the first command and raises on the second. *)
Definition second_command_fails : list string -> string -> result Execution :=
  fun history _ =>
    if Nat.eqb (List.length history) 1 then inl (Exn "TimeoutException" "sandbox timed out")
    else inr Demo.done.

(** The sandbox object can be made, but entering its session raises. *)
Definition enter_fails : Env :=
  Demo.env true (Some (Exn "SandboxException" "cannot start sandbox")) Demo.always_done
    EmptyString (ProcDone EmptyString).

(** A platform object that was given a sandbox key. *)
Definition with_key : state :=
  set_self (set_github_client (Some "ghp")
              {| openai_client := true; github_client := None; e2b_api_key := Some "e2b-key";
                 e2b_session := None; workspace_path := None |}) Demo.start.

(** Tests that never finish in time. *)
Definition slow_tests : Env :=
  Demo.env false None Demo.always_done
    (JsonText.dq "{'transformations': [{'file_path': 'a.txt', 'operation': 'create', 'content': 'X'}]}")
    ProcTimeout.

(** A sandbox whose calls run out of time. *)
Definition sandbox_times_out : Env :=
  Demo.env true None (fun _ _ => inl (Exn "TimeoutException" "sandbox timed out"))
    EmptyString (ProcDone EmptyString).

(** A model whose plan has an entry without operation. *)
Definition incomplete_reply : Env :=
  Demo.local_env (JsonText.dq "{'transformations': [{'file_path': 'a.txt'}]}").

(** ** More on plans *)

(** The key the parser would miss first in an entry that is an object. *)
Definition missing_key (m : list (string * json)) : option string :=
  match PyVal.dict_get "file_path" m, PyVal.dict_get "operation" m with
  | None, _ => Some "file_path"
  | Some _, None => Some "operation"
  | Some _, Some _ => None
  end.

(** A transformation has its entry's content and description, or the empty
    text where the entry has none. *)
Definition filled (entry : json) (t : CodeModification) : Prop :=
  content t = default (JStr EmptyString) (entry_field "content" entry)
  /\ description t = default (JStr EmptyString) (entry_field "description" entry).

(** The command a transformation sends to the sandbox, if any. *)
Definition command_of (repo : string) (t : CodeModification) : option string :=
  if Engine.eq_str (operation t) "create" || Engine.eq_str (operation t) "modify"
  then Some (Engine.echo_command repo t)
  else if Engine.eq_str (operation t) "delete" then Some (Engine.rm_command repo t)
  else None.

(** The command, if any, as a list. *)
Definition option_list (o : option string) : list string :=
  match o with Some c => [c] | None => [] end.

(** The sandbox answers every command (it may report an error, but the call
    returns). *)
Definition sandbox_answers (E : Env) : Prop :=
  forall history cmd, is_ok (sandbox_run E history cmd) = true.

(** A write: one of the two operations that write the content. *)
Definition writes (t : CodeModification) : bool :=
  Engine.eq_str (operation t) "create" || Engine.eq_str (operation t) "modify".

(** The two trees have the same directories. *)
Definition same_directories (t t' : gmap (list string) node) : Prop :=
  forall q, t' !! q = Some Dir <-> t !! q = Some Dir.

(** A path the operating system takes: no NUL byte in it, fewer than 4096
    bytes in all, and at most 255 bytes in each of its components. *)
Definition os_takes (path : string) : bool :=
  negb (PyStr.contains (ascii_of_nat 0) path)
  && (String.length path <? 4096)%nat
  && forallb (fun c => (String.length c <=? 255)%nat) (PyStr.split "/" path).

(** ** Publication and teardown *)

(** The commands a publication sends to the sandbox. *)
Definition publish_commands (repo_path branch_name commit_message : string) : list string :=
  ["cd " +:+ repo_path;
   "git add .";
   "git commit -m '" +:+ commit_message +:+ "'";
   "git checkout -b " +:+ branch_name;
   "git push -u origin " +:+ branch_name].

(** A publication that went through. *)
Definition published (branch_name commit_message : string) : Published :=
  {| pub_branch := branch_name; pub_commit_message := commit_message;
     pub_status := "success" |}.

(** A sandbox whose session cannot be closed. *)
Definition close_fails : Env :=
  let E := Demo.remote_env EmptyString in
  {| E2B_AVAILABLE := E2B_AVAILABLE E;
     OPENAI_AVAILABLE := OPENAI_AVAILABLE E;
     GITHUB_AVAILABLE := GITHUB_AVAILABLE E;
     getenv := getenv E;
     json_loads := json_loads E;
     chat_completion := chat_completion E;
     sandbox_new := sandbox_new E;
     sandbox_aenter := sandbox_aenter E;
     sandbox_aexit := fun _ => Some (Exn "SandboxException" "sandbox is gone");
     sandbox_run := sandbox_run E;
     mkdtemp := mkdtemp E;
     git_clone := git_clone E;
     os_walk := os_walk E;
     pytest := pytest E;
     git := git E;
     get_repos := get_repos E;
     now_stamp := now_stamp E |}.

(** A process environment with no key in it. *)
Definition no_keys : Env :=
  let E := Demo.local_env EmptyString in
  {| E2B_AVAILABLE := E2B_AVAILABLE E;
     OPENAI_AVAILABLE := OPENAI_AVAILABLE E;
     GITHUB_AVAILABLE := GITHUB_AVAILABLE E;
     getenv := fun _ => None;
     json_loads := json_loads E;
     chat_completion := chat_completion E;
     sandbox_new := sandbox_new E;
     sandbox_aenter := sandbox_aenter E;
     sandbox_aexit := sandbox_aexit E;
     sandbox_run := sandbox_run E;
     mkdtemp := mkdtemp E;
     git_clone := git_clone E;
     os_walk := os_walk E;
     pytest := pytest E;
     git := git E;
     get_repos := get_repos E;
     now_stamp := now_stamp E |}.

(** ** The streaming pipeline *)

(** The event that ends a stream that went through. *)
Definition deployment_complete (branch_name commit_message : string) : sse :=
  {| event := "deployment_complete"; ev_status := "completed";
     ev_message := "Publication completed successfully!";
     ev_step := Some (6%nat, 6%nat);
     ev_payload := [("result", Web.json_of_published (published branch_name commit_message))] |}.

(** [name] is not among the methods. *)
Definition never_entered (name : string) (l : list string) : bool :=
  negb (List.existsb (String.eqb name) l).

(** A session but for its status. *)
Definition request_of (x : Session) : Session := with_status EmptyString x.

(** A model whose plan creates one file. *)
Definition one_file_reply : Env :=
  Demo.local_env
    (JsonText.dq "{'transformations': [{'file_path': 'a.txt', 'operation': 'create', 'content': 'X'}]}").

(** ** Download and examination *)

(** A sandbox that answers every command with its error flag set. *)
Definition failing_sandbox : Env :=
  Demo.env true None (fun _ _ => inr {| text := None; error := true |}) EmptyString
    (ProcDone EmptyString).

(** How often a character occurs in a text. *)
Fixpoint occurrences (c : ascii) (s : string) : nat :=
  match s with
  | EmptyString => 0%nat
  | String a s' => ((if Ascii.eqb a c then 1 else 0) + occurrences c s')%nat
  end.

(** A sandbox whose listing is one blank line. *)
Definition blank_listing : Env :=
  Demo.env true None (fun _ _ => inr {| text := Some Engine.nl; error := false |}) EmptyString
    (ProcDone EmptyString).

(** The language a file counts for, if any. *)
Definition language_of (file : string) : option string :=
  Engine.assoc (Engine.suffix_lower file) Engine.language_map.

(** The names of the languages the engine knows. *)
Definition known_languages : list string := List.map snd Engine.language_map.

(** A path that ends in one of the suffixes of code files. *)
Definition code_file (path : string) : bool :=
  List.existsb (PyStr.endswith path) Engine.code_suffixes.

(** A local run over a clone with the given directories and file names. *)
Definition listing (walked : list (string * list string)) : Env :=
  let E := Demo.local_env EmptyString in
  {| E2B_AVAILABLE := E2B_AVAILABLE E;
     OPENAI_AVAILABLE := OPENAI_AVAILABLE E;
     GITHUB_AVAILABLE := GITHUB_AVAILABLE E;
     getenv := getenv E;
     json_loads := json_loads E;
     chat_completion := chat_completion E;
     sandbox_new := sandbox_new E;
     sandbox_aenter := sandbox_aenter E;
     sandbox_aexit := sandbox_aexit E;
     sandbox_run := sandbox_run E;
     mkdtemp := mkdtemp E;
     git_clone := git_clone E;
     os_walk := fun _ _ => walked;
     pytest := pytest E;
     git := git E;
     get_repos := get_repos E;
     now_stamp := now_stamp E |}.

(** ** Helper functions *)

(** The character a sanitized name has in the place of [a]. *)
Definition safe_char (a : ascii) : ascii :=
  if List.existsb (Ascii.eqb a) Helpers.unsafe_chars then "_"%char else a.

(** The long form of the short name [owner/repo]. *)
Definition github_url (owner repo : string) : string :=
  "https://github.com/" +:+ owner +:+ "/" +:+ repo.

(** * Properties *)

(** Paths, directories and resolution on a small tree. *)
Example walk_demo :
  let t : Fs.tree := {[ [] := Dir; ["w"] := Dir; ["w"; "r"] := Dir ]} in
  Fs.makedirs "/w/r/a/b" t = inr (<[ ["w";"r";"a";"b"] := Dir ]> (<[ ["w";"r";"a"] := Dir ]> t))
  /\ Fs.dirname (Fs.join "/w/r" "a/b/c.txt") = "/w/r/a/b"
  /\ Fs.dirname "/x" = "/" /\ Fs.dirname "x" = EmptyString /\ Fs.dirname "//x//y" = "//x"
  /\ Fs.exists_ "/w/r/../r/." t = true /\ Fs.exists_ "/w/q" t = false
  /\ Fs.join "/w" "/etc/x" = "/etc/x".
Proof. vm_compute. repeat split; reflexivity. Qed.

(** ** Searching and slicing *)

Module PyStrFacts.
Import PyStr.

#[local] Arguments String.append !_ _ / : simpl nomatch.

Lemma length_app (a b : string) :
  String.length (a +:+ b) = (String.length a + String.length b)%nat.
Proof. induction a as [|x a IH]; simpl; [reflexivity | now rewrite IH]. Qed.

Lemma app_assoc (a b c : string) : (a +:+ b) +:+ c = a +:+ (b +:+ c).
Proof. induction a as [|x a IH]; simpl; [reflexivity | now rewrite IH]. Qed.

Lemma contains_index_of (c : ascii) (s : string) :
  contains c s = false <-> index_of c s = None.
Proof.
  induction s as [|a s IH]; simpl; [tauto |].
  destruct (Ascii.eqb a c); simpl; [split; discriminate |].
  rewrite IH. destruct (index_of c s); simpl; split; congruence.
Qed.

Lemma contains_rindex_of (c : ascii) (s : string) :
  contains c s = false <-> rindex_of c s = None.
Proof.
  induction s as [|a s IH]; simpl; [tauto |].
  destruct (rindex_of c s) as [i|].
  - destruct (Ascii.eqb a c); simpl; split; try discriminate.
    intros H. apply IH in H. discriminate.
  - destruct (Ascii.eqb a c); simpl; split; try discriminate; try reflexivity.
    intros _. now apply IH.
Qed.

Lemma contains_true_index_of (c : ascii) (s : string) :
  contains c s = true -> exists i, index_of c s = Some i.
Proof.
  intros H. destruct (index_of c s) as [i|] eqn:Hi; [eauto |].
  apply contains_index_of in Hi. congruence.
Qed.

Lemma contains_true_rindex_of (c : ascii) (s : string) :
  contains c s = true -> exists i, rindex_of c s = Some i.
Proof.
  intros H. destruct (rindex_of c s) as [i|] eqn:Hi; [eauto |].
  apply contains_rindex_of in Hi. congruence.
Qed.

Lemma index_of_lt (c : ascii) (s : string) (i : nat) :
  index_of c s = Some i -> (i < String.length s)%nat.
Proof.
  revert i. induction s as [|a s IH]; simpl; intros i H; [discriminate |].
  destruct (Ascii.eqb a c).
  - injection H as <-. lia.
  - destruct (index_of c s) as [j|]; simpl in H; [|discriminate].
    injection H as <-. specialize (IH j eq_refl). lia.
Qed.

Lemma rindex_of_lt (c : ascii) (s : string) (i : nat) :
  rindex_of c s = Some i -> (i < String.length s)%nat.
Proof.
  revert i. induction s as [|a s IH]; simpl; intros i H; [discriminate |].
  destruct (rindex_of c s) as [j|].
  - injection H as <-. specialize (IH j eq_refl). lia.
  - destruct (Ascii.eqb a c); [|discriminate]. injection H as <-. lia.
Qed.

Lemma index_of_app_none (c : ascii) (a b : string) :
  index_of c a = None ->
  index_of c (a +:+ b) = (fun i => (String.length a + i)%nat) <$> index_of c b.
Proof.
  induction a as [|x a IH]; simpl; intros H.
  - now destruct (index_of c b).
  - destruct (Ascii.eqb x c); [discriminate |].
    destruct (index_of c a) as [j|] eqn:Hj; simpl in H; [discriminate |].
    rewrite IH by reflexivity. now destruct (index_of c b).
Qed.

Lemma index_of_app_some (c : ascii) (a b : string) (i : nat) :
  index_of c a = Some i -> index_of c (a +:+ b) = Some i.
Proof.
  revert i. induction a as [|x a IH]; simpl; intros i H; [discriminate |].
  destruct (Ascii.eqb x c); [assumption |].
  destruct (index_of c a) as [j|]; simpl in H; [|discriminate].
  now rewrite (IH j eq_refl).
Qed.

Lemma rindex_of_app_none (c : ascii) (a b : string) :
  rindex_of c b = None -> rindex_of c (a +:+ b) = rindex_of c a.
Proof.
  intros H. induction a as [|x a IH]; simpl; [assumption | now rewrite IH].
Qed.

Lemma rindex_of_app_some (c : ascii) (a b : string) (j : nat) :
  rindex_of c b = Some j -> rindex_of c (a +:+ b) = Some (String.length a + j)%nat.
Proof.
  intros H. induction a as [|x a IH]; simpl; [assumption | now rewrite IH].
Qed.

Lemma drop_app_length (a b : string) (n : nat) :
  drop (String.length a + n) (a +:+ b) = drop n b.
Proof. induction a as [|x a IH]; simpl; [reflexivity | assumption]. Qed.

Lemma drop_app_le (a b : string) (n : nat) :
  (n <= String.length a)%nat -> drop n (a +:+ b) = drop n a +:+ b.
Proof.
  revert n. induction a as [|x a IH]; simpl; intros n H.
  - now replace n with 0%nat by lia.
  - destruct n as [|n]; simpl; [reflexivity | apply IH; lia].
Qed.

Lemma take_app_le (a b : string) (n : nat) :
  (n <= String.length a)%nat -> take n (a +:+ b) = take n a.
Proof.
  revert n. induction a as [|x a IH]; simpl; intros n H.
  - now replace n with 0%nat by lia.
  - destruct n as [|n]; simpl; [reflexivity | rewrite IH by lia; reflexivity].
Qed.

Lemma length_drop (s : string) (n : nat) :
  String.length (drop n s) = (String.length s - n)%nat.
Proof.
  revert n. induction s as [|x s IH]; intros [|n]; simpl; try reflexivity. apply IH.
Qed.

(** A slice between two positions of the text. *)
Lemma slice_inside (s : string) (i j : nat) :
  (i <= String.length s)%nat -> (j <= String.length s)%nat ->
  slice s (Z.of_nat i) (Z.of_nat j) = take (j - i) (drop i s).
Proof.
  intros Hi Hj. unfold slice, clamp.
  destruct (Z.ltb_spec (Z.of_nat i) 0); [lia |].
  destruct (Z.ltb_spec (Z.of_nat j) 0); [lia |].
  rewrite !Z.min_l by lia. rewrite Nat2Z.id. f_equal. lia.
Qed.

(** The slice from the first [o] to the last [c] is the same in a text
    and in that text set between a prefix without [o] and a suffix
    without [c]. *)
Lemma slice_first_last (o c : ascii) (pre body post : string) :
  contains o pre = false -> contains c post = false ->
  contains o body = true -> contains c body = true ->
  slice (pre +:+ body +:+ post) (find (pre +:+ body +:+ post) o)
    (rfind (pre +:+ body +:+ post) c + 1)
  = slice body (find body o) (rfind body c + 1).
Proof.
  intros Hpre Hpost Ho Hc.
  apply contains_index_of in Hpre. apply contains_rindex_of in Hpost.
  destruct (contains_true_index_of _ _ Ho) as [i Hi].
  destruct (contains_true_rindex_of _ _ Hc) as [j Hj].
  pose proof (index_of_lt _ _ _ Hi) as Hil.
  pose proof (rindex_of_lt _ _ _ Hj) as Hjl.
  unfold find, rfind.
  rewrite (index_of_app_none o pre (body +:+ post) Hpre).
  rewrite (index_of_app_some o body post i Hi). simpl.
  rewrite (rindex_of_app_some c pre (body +:+ post) j)
    by (rewrite (rindex_of_app_none c body post Hpost); exact Hj).
  rewrite Hi, Hj.
  replace (Z.of_nat (String.length pre + j) + 1) with (Z.of_nat (String.length pre + S j)) by lia.
  replace (Z.of_nat j + 1) with (Z.of_nat (S j)) by lia.
  rewrite slice_inside by (rewrite !length_app; lia).
  rewrite slice_inside by lia.
  rewrite drop_app_length.
  replace (String.length pre + S j - (String.length pre + i))%nat with (S j - i)%nat by lia.
  rewrite drop_app_le by lia.
  apply take_app_le. rewrite length_drop. lia.
Qed.

End PyStrFacts.

(** ** Plan parsing *)

Module ParseFacts.
Import Engine.

Lemma modification_of_keyed (entry : json) :
  keyed entry -> exists t, modification_of entry = inr t /\ carries entry t.
Proof.
  intros [[fp Hfp] [op Hop]].
  destruct entry as [| | | | |?|m]; simpl in Hfp; try discriminate.
  unfold modification_of. simpl. simpl in Hop. rewrite Hfp, Hop. simpl.
  eexists. split; [reflexivity |]. split; simpl; assumption.
Qed.

Lemma modifications_of_keyed (entries : list json) :
  Forall keyed entries ->
  exists plan, modifications_of entries = inr plan /\ Forall2 carries entries plan.
Proof.
  induction 1 as [|entry entries Hk _ IH]; simpl.
  - exists []. split; [reflexivity | constructor].
  - destruct (modification_of_keyed entry Hk) as (t & -> & Ht).
    destruct IH as (plan & -> & Hplan). simpl.
    exists (t :: plan). split; [reflexivity | now constructor].
Qed.

Lemma extract_json_embedded (pre body post : string) :
  PyStr.contains "{" pre = false -> PyStr.contains "}" post = false ->
  PyStr.contains "{" body = true -> PyStr.contains "}" body = true ->
  extract_json (pre +:+ body +:+ post) = extract_json body.
Proof. intros. unfold extract_json. now apply PyStrFacts.slice_first_last. Qed.

End ParseFacts.

(** C1, as stated, fails: a reply whose only entry has the operation
    [rename] is parsed without error, and the plan has that entry. *)
Lemma unknown_operation_is_parsed :
  fst (Engine.create_code_transformations
         (Demo.local_env
            (JsonText.dq "{'transformations': [{'file_path': 'a.txt', 'operation': 'rename'}]}"))
         "rename a.txt" Demo.no_analysis Demo.start)
  = inr [ {| file_path := JStr "a.txt"; operation := JStr "rename";
             content := JStr EmptyString; description := JStr EmptyString |} ].
Proof. vm_compute. reflexivity. Qed.

(** C1, amended: the parser makes no check of the operation.  When the
    decoded object lists entries that each have [file_path] and [operation],
    parsing succeeds whatever the operation values are and returns one
    transformation per entry, in order, each carrying its entry's path and
    operation unchanged. *)
Theorem parse_keeps_any_operation (E : Env) (reply : string)
    (members : list (string * json)) (entries : list json) :
  json_loads E (Engine.extract_json reply) = inr (JObj members) ->
  PyVal.dict_get "transformations" members = Some (JArr entries) ->
  Forall keyed entries ->
  exists plan,
    Engine.parse_plan E reply = inr plan
    /\ Forall2 carries entries plan.
Proof.
  intros Hdata Hitems Hkeyed. unfold Engine.parse_plan.
  rewrite Hdata. simpl. rewrite Hitems. simpl.
  now apply ParseFacts.modifications_of_keyed.
Qed.

Lemma parse_keeps_any_operation_witness :
  exists plan,
    Engine.parse_plan (Demo.local_env EmptyString)
      (JsonText.dq "Plan: {'transformations': [{'file_path': 'a.txt', 'operation': 'rename'}]} Done.")
    = inr plan
    /\ Forall2 carries
         [JObj [("file_path", JStr "a.txt"); ("operation", JStr "rename")]] plan.
Proof.
  apply (parse_keeps_any_operation (Demo.local_env EmptyString) _
           [("transformations", JArr [JObj [("file_path", JStr "a.txt"); ("operation", JStr "rename")]])]).
  - vm_compute. reflexivity.
  - reflexivity.
  - repeat constructor; simpl; eauto.
Defined.

(** C6, as stated, fails: prose with a brace of its own before the object
    makes the parse fail, while the object alone parses. *)
Lemma prose_with_brace_breaks_parse :
  let object_text :=
    JsonText.dq "{'transformations': [{'file_path': 'a.txt', 'operation': 'create', 'content': 'X'}]}" in
  let E := Demo.local_env EmptyString in
  Engine.parse_plan E object_text = inr [Demo.change "a.txt" "create" "X"]
  /\ is_ok (Engine.parse_plan E ("Use {braces} with care: " +:+ object_text)) = false.
Proof. vm_compute. split; reflexivity. Qed.

(** C6, amended: when the prose before the object has no opening brace and
    the prose after it has no closing brace, parsing the whole text gives
    the result of parsing the object text alone. *)
Theorem parse_embedded_object (E : Env) (before object_text after : string) :
  PyStr.contains "{" before = false ->
  PyStr.contains "}" after = false ->
  PyStr.contains "{" object_text = true ->
  PyStr.contains "}" object_text = true ->
  Engine.parse_plan E (before +:+ object_text +:+ after) = Engine.parse_plan E object_text.
Proof.
  intros Hb Ha Ho Hc. unfold Engine.parse_plan.
  now rewrite ParseFacts.extract_json_embedded.
Qed.

Lemma parse_embedded_object_witness :
  let object_text :=
    JsonText.dq "{'transformations': [{'file_path': 'a.txt', 'operation': 'create', 'content': 'X'}]}" in
  let E := Demo.local_env EmptyString in
  Engine.parse_plan E ("Here is the plan: " +:+ object_text +:+ " Let me know.")
  = Engine.parse_plan E object_text.
Proof.
  intros object_text E.
  apply (parse_embedded_object E "Here is the plan: " object_text " Let me know.");
    vm_compute; reflexivity.
Defined.

(** ** The file system *)

Module FsFacts.
Import Fs.

(** Resolution alone changes nothing. *)
Lemma walk_false_tree (path : string) (comps : list string) :
  forall (t : tree) (cur : list string) (t' : tree) (p : list string),
    walk false path t cur comps = inr (t', p) -> t' = t.
Proof.
  induction comps as [|c rest IH]; simpl; intros t cur t' p H.
  - now injection H as <- _.
  - destruct (t !! cur) as [[|d]|]; try discriminate.
    destruct (is_dot c); [now apply IH in H |].
    destruct (String.eqb c ".."); [now apply IH in H |].
    destruct (t !! (cur ++ [c])); now apply IH in H.
Qed.

(** A path that resolves to something there resolves the same way when
    missing directories would be created: none is missing. *)
Lemma walk_true_existing (path : string) (comps : list string) :
  forall (t : tree) (cur p : list string),
    walk false path t cur comps = inr (t, p) -> is_Some (t !! p) ->
    walk true path t cur comps = inr (t, p).
Proof.
  induction comps as [|c rest IH]; simpl; intros t cur p H Hp; [assumption |].
  destruct (t !! cur) as [[|d]|]; try discriminate.
  destruct (is_dot c); [now apply IH |].
  destruct (String.eqb c ".."); [now apply IH |].
  destruct (t !! (cur ++ [c])) as [n|] eqn:Hn; [now apply IH |].
  exfalso. destruct rest as [|c' rest]; simpl in H.
  - injection H as <-. rewrite Hn in Hp. now destruct Hp.
  - rewrite Hn in H. discriminate.
Qed.

Lemma makedirs_existing (path : string) (t : tree) :
  isdir path t = true -> makedirs path t = inr t.
Proof.
  unfold isdir, makedirs, resolve. intros H.
  destruct (String.eqb path EmptyString); [discriminate |].
  destruct (walk false path t [] (PyStr.split "/" path)) as [e|[t' p]] eqn:Hw; [discriminate |].
  pose proof (walk_false_tree _ _ _ _ _ _ Hw) as ->.
  destruct (t !! p) as [[|d]|] eqn:Hp; try discriminate.
  rewrite (walk_true_existing _ _ _ _ _ Hw) by (rewrite Hp; eauto).
  now rewrite Hp.
Qed.

(** Putting a regular file where there was no directory leaves every
    successful resolution as it was. *)
Lemma walk_insert_file (path : string) (q : list string) (d : string) (comps : list string) :
  forall (t : tree) (cur p : list string),
    t !! q <> Some Dir ->
    walk false path t cur comps = inr (t, p) ->
    walk false path (<[q := File d]> t) cur comps = inr (<[q := File d]> t, p).
Proof.
  induction comps as [|c rest IH]; simpl; intros t cur p Hq H.
  - now injection H as <-.
  - destruct (t !! cur) as [[|d']|] eqn:Hcur; try discriminate.
    assert (cur <> q) as Hne by congruence.
    rewrite lookup_insert_ne by congruence. rewrite Hcur.
    destruct (is_dot c); [now apply IH |].
    destruct (String.eqb c ".."); [now apply IH |].
    assert (walk false path t (cur ++ [c]) rest = inr (t, p)) as H'
      by (now destruct (t !! (cur ++ [c]))).
    destruct (<[q := File d]> t !! (cur ++ [c])); now apply IH.
Qed.

Lemma resolve_insert_file (path : string) (q p : list string) (d : string) (t : tree) :
  t !! q <> Some Dir ->
  resolve path t = inr p -> resolve path (<[q := File d]> t) = inr p.
Proof.
  unfold resolve. intros Hq H.
  destruct (String.eqb path EmptyString); [discriminate |].
  destruct (walk false path t [] (PyStr.split "/" path)) as [e|[t' p']] eqn:Hw; [discriminate |].
  injection H as ->.
  pose proof (walk_false_tree _ _ _ _ _ _ Hw) as ->.
  now rewrite (walk_insert_file _ _ _ _ _ _ _ Hq Hw).
Qed.

(** Writing a new file and removing it gives the tree back. *)
Lemma delete_written (q : list string) (d : string) (t : tree) :
  t !! q = None -> delete q (<[q := File d]> t) = t.
Proof. intros H. now apply delete_insert_id. Qed.

End FsFacts.

(** ** Plan application *)

Module ApplyFacts.
Import Engine.

Lemma set_files_same (s : state) : set_files (files s) s = s.
Proof. now destruct s. Qed.

(** One turn of the loop. *)
Lemma implement_loop_cons (E : Env) (repo : string) (t : CodeModification)
    (rest : list CodeModification) (acc : list json) (s : state) :
  implement_loop E repo (t :: rest) acc s
  = match implement_one E repo t s with
    | (inl e, s') => (inl e, s')
    | (inr _, s') => implement_loop E repo rest (acc ++ [file_path t]) (reported t s')
    end.
Proof. reflexivity. Qed.

(** A loop that ends normally lists the path of every entry, in order. *)
Lemma implement_loop_listed (E : Env) (repo : string) (ts : list CodeModification) :
  forall (acc : list json) (s : state) (l : list json) (s' : state),
    implement_loop E repo ts acc s = (inr l, s') -> l = acc ++ List.map file_path ts.
Proof.
  induction ts as [|t rest IH]; intros acc s l s' H.
  - injection H as <- _. now rewrite app_nil_r.
  - rewrite implement_loop_cons in H.
    destruct (implement_one E repo t s) as [[e|[]] s1]; [discriminate |].
    apply IH in H. now rewrite <- app_assoc in H.
Qed.

Lemma implement_transformations_listed (E : Env) (repo : string)
    (ts : list CodeModification) (s : state) (l : list json) (s' : state) :
  implement_transformations E repo ts s = (inr l, s') -> l = List.map file_path ts.
Proof.
  unfold implement_transformations, bind, try_except, emit, modify. intros H.
  destruct (implement_loop E repo ts [] _) as [[e|l'] s1] eqn:Hl; [discriminate |].
  injection H as <- _. now apply implement_loop_listed in Hl.
Qed.

(** The loop stops at the first entry that raises. *)
Lemma implement_loop_stops (E : Env) (repo : string) (before : list CodeModification)
    (t : CodeModification) (after : list CodeModification) :
  forall (acc : list json) (s s1 : state) (l : list json) (e : exn) (s2 : state),
    implement_loop E repo before acc s = (inr l, s1) ->
    implement_one E repo t s1 = (inl e, s2) ->
    implement_loop E repo (before ++ t :: after) acc s = (inl e, s2).
Proof.
  induction before as [|b before IH]; intros acc s s1 l e s2 Hb Ht.
  - injection Hb as _ <-. simpl app. rewrite implement_loop_cons. now rewrite Ht.
  - simpl app. rewrite implement_loop_cons in *.
    destruct (implement_one E repo b s) as [[e'|[]] s']; [discriminate |].
    eapply IH; eassumption.
Qed.

Lemma implement_one_unknown (E : Env) (repo : string) (t : CodeModification)
    (fp : string) (s : state) :
  file_path t = JStr fp -> known_operation (operation t) = false ->
  implement_one E repo t s = (inr tt, s).
Proof.
  unfold known_operation. intros Hfp Hop.
  apply orb_false_elim in Hop as [Hop Hd]. apply orb_false_elim in Hop as [Hc Hm].
  unfold implement_one, bind, get_self, lift, full_path_of.
  destruct (e2b_session (self s)); rewrite ?Hfp, Hc, Hm, Hd; reflexivity.
Qed.

End ApplyFacts.

(** ** One transformation on the local files, and on the sandbox *)

Module LocalFacts.
Import Engine.

(** Taking a regular file away leaves every successful resolution as it
    was. *)
Lemma walk_delete_file (path : string) (q : list string) (comps : list string) :
  forall (t : gmap (list string) node) (cur p : list string),
    t !! q <> Some Dir ->
    Fs.walk false path t cur comps = inr (t, p) ->
    Fs.walk false path (delete q t) cur comps = inr (delete q t, p).
Proof.
  induction comps as [|c rest IH]; simpl; intros t cur p Hq H.
  - now injection H as <-.
  - destruct (t !! cur) as [[|d']|] eqn:Hcur; try discriminate.
    assert (cur <> q) as Hne by congruence.
    rewrite lookup_delete_ne by congruence. rewrite Hcur.
    destruct (Fs.is_dot c); [now apply IH |].
    destruct (String.eqb c ".."); [now apply IH |].
    assert (Fs.walk false path t (cur ++ [c]) rest = inr (t, p)) as H'
      by (now destruct (t !! (cur ++ [c]))).
    destruct (delete q t !! (cur ++ [c])); now apply IH.
Qed.

Lemma resolve_delete_file (path : string) (q p : list string) (t : gmap (list string) node) :
  t !! q <> Some Dir ->
  Fs.resolve path t = inr p -> Fs.resolve path (delete q t) = inr p.
Proof.
  unfold Fs.resolve. intros Hq H.
  destruct (String.eqb path EmptyString); [discriminate |].
  destruct (Fs.walk false path t [] (PyStr.split "/" path)) as [e|[t' p']] eqn:Hw;
    [discriminate |].
  injection H as ->.
  pose proof (FsFacts.walk_false_tree _ _ _ _ _ _ Hw) as ->.
  now rewrite (walk_delete_file _ _ _ _ _ _ Hq Hw).
Qed.

(** Creating missing directories on the way adds directories only. *)
Lemma walk_true_adds_directories (path : string) (comps : list string) :
  forall (t : gmap (list string) node) (cur : list string) (t' : gmap (list string) node)
         (p : list string),
    Fs.walk true path t cur comps = inr (t', p) ->
    forall q, t' !! q = t !! q \/ (t !! q = None /\ t' !! q = Some Dir).
Proof.
  induction comps as [|c rest IH]; simpl; intros t cur t' p H q.
  - injection H as <- _. now left.
  - destruct (t !! cur) as [[|d]|]; try discriminate.
    destruct (Fs.is_dot c); [now apply (IH _ _ _ _ H) |].
    destruct (String.eqb c ".."); [now apply (IH _ _ _ _ H) |].
    destruct (t !! (cur ++ [c])) as [n|] eqn:Hn; [now apply (IH _ _ _ _ H) |].
    destruct (IH _ _ _ _ H q) as [Hsame | [Hnone Hdir]].
    + destruct (decide (cur ++ [c] = q)) as [<-|Hne].
      * right. rewrite Hsame, lookup_insert_eq. now split.
      * left. now rewrite Hsame, lookup_insert_ne.
    + right. split; [| assumption].
      destruct (decide (cur ++ [c] = q)) as [<-|Hne].
      * now rewrite lookup_insert_eq in Hnone.
      * now rewrite lookup_insert_ne in Hnone.
Qed.

(** Where a file can be opened for writing, the path resolves, and not to
    a directory. *)
Lemma open_w_inv (path : string) (t t' : gmap (list string) node) (p : list string) :
  Fs.open_w path t = inr (t', p) ->
  Fs.resolve path t = inr p /\ t !! p <> Some Dir /\ t' = <[p := File EmptyString]> t.
Proof.
  unfold Fs.open_w. destruct (Fs.resolve path t) as [e|p0]; [discriminate |].
  destruct (t !! p0) as [[|d]|] eqn:Hp; try discriminate;
    intros H; injection H as <- <-; repeat split; congruence.
Qed.

(** What a successful write leaves. *)
Lemma write_file_inv (full : string) (x : string) (s s' : state) :
  write_file full (JStr x) s = (inr tt, s') ->
  exists p, Fs.resolve full (files s) = inr p /\ files s !! p <> Some Dir
            /\ s' = set_files (<[p := File x]> (files s)) s.
Proof.
  unfold write_file, bind, get_state, modify. simpl.
  destruct (Fs.open_w full (files s)) as [e|[t p]] eqn:Ho; [discriminate |].
  apply open_w_inv in Ho as (Hr & Hp & ->). simpl.
  intros H. injection H as <-. exists p. repeat split; try assumption.
  rewrite insert_insert_eq. now destruct s.
Qed.

Lemma content_of_text (t : CodeModification) (x : string) :
  content t = JStr x -> content_or_empty t = JStr x.
Proof.
  intros H. unfold content_or_empty, PyVal.or_else. rewrite H. simpl.
  now destruct (String.eqb_spec x EmptyString) as [->|].
Qed.

(** Without a sandbox session, one transformation is applied to the local
    files. *)
Lemma implement_one_local (E : Env) (repo : string) (t : CodeModification) (s : state) :
  e2b_session (self s) = None ->
  implement_one E repo t s
  = bind (lift (full_path_of repo t))
      (fun full_path =>
         if eq_str (operation t) "create" then
           bind (makedirs (Fs.dirname full_path))
             (fun _ => write_file full_path (content_or_empty t))
         else if eq_str (operation t) "modify" then
           write_file full_path (content_or_empty t)
         else if eq_str (operation t) "delete" then remove_if_exists full_path
         else ret tt) s.
Proof.
  intros H. unfold implement_one. unfold bind at 1. unfold get_self. cbv beta iota.
  now rewrite H.
Qed.

End LocalFacts.

Module DirectoryFacts.
Import Engine.

Lemma same_directories_refl (t : gmap (list string) node) : same_directories t t.
Proof. now intros q. Qed.

Lemma same_directories_insert_file (t : gmap (list string) node) (p : list string)
    (d : string) :
  t !! p <> Some Dir -> same_directories t (<[p := File d]> t).
Proof.
  intros Hp q. destruct (decide (p = q)) as [<-|Hne].
  - rewrite lookup_insert_eq. split; [discriminate | contradiction].
  - now rewrite lookup_insert_ne.
Qed.

Lemma write_file_directories (full : string) (data : json) (s : state) :
  same_directories (files s) (files (snd (write_file full data s))).
Proof.
  unfold write_file, bind, get_state, modify, raise.
  destruct (Fs.open_w full (files s)) as [e|[t p]] eqn:Ho; [apply same_directories_refl |].
  apply LocalFacts.open_w_inv in Ho as (_ & Hp & ->).
  destruct data; simpl; rewrite ?insert_insert_eq; now apply same_directories_insert_file.
Qed.

Lemma remove_if_exists_directories (full : string) (s : state) :
  same_directories (files s) (files (snd (remove_if_exists full s))).
Proof.
  unfold remove_if_exists, bind, get_state, lift, modify.
  destruct (Fs.exists_ full (files s)); [| apply same_directories_refl].
  unfold Fs.remove.
  destruct (Fs.resolve full (files s)) as [e|p]; [apply same_directories_refl |].
  destruct (files s !! p) as [[|d]|] eqn:Hp; try apply same_directories_refl.
  simpl. intros q. destruct (decide (p = q)) as [<-|Hne].
  - rewrite lookup_delete_eq, Hp. split; discriminate.
  - now rewrite lookup_delete_ne.
Qed.

Lemma makedirs_directories (path : string) (s : state) (q : list string) :
  files s !! q = Some Dir -> files (snd (makedirs path s)) !! q = Some Dir.
Proof.
  intros Hq. unfold makedirs, bind, get_state, lift, modify, Fs.makedirs.
  destruct (String.eqb path EmptyString); [assumption |].
  destruct (Fs.walk true path (files s) [] (PyStr.split "/" path)) as [e|[t' p]] eqn:Hw;
    [assumption |].
  assert (t' !! q = Some Dir) as Hq'.
  { destruct (LocalFacts.walk_true_adds_directories _ _ _ _ _ _ Hw q) as [-> | [_ ->]];
      [assumption | reflexivity]. }
  now destruct (t' !! p) as [[|d]|].
Qed.

End DirectoryFacts.

Module RemoteSteps.
Import Engine.

Lemma run_code_answers (E : Env) (cmd : string) (s : state) :
  sandbox_answers E ->
  exists r, run_code E cmd s = (inr r, set_sent (sent s ++ [cmd]) s).
Proof.
  intros H. unfold run_code, bind, get_state, modify, lift. simpl.
  specialize (H (sent s) cmd). destruct (sandbox_run E (sent s) cmd) as [e|r]; [discriminate |].
  now exists r.
Qed.

Lemma implement_one_remote (E : Env) (repo : string) (t : CodeModification) (s : state)
    (key : string) :
  sandbox_answers E -> e2b_session (self s) = Some key ->
  implement_one E repo t s
  = (inr tt, set_sent (sent s ++ option_list (command_of repo t)) s).
Proof.
  intros H Hs. unfold implement_one, command_of.
  unfold bind at 1. unfold get_self. cbv beta iota. rewrite Hs.
  destruct (eq_str (operation t) "create"); cbn [orb].
  { unfold bind. destruct (run_code_answers E (echo_command repo t) s H) as [r ->].
    reflexivity. }
  destruct (eq_str (operation t) "modify"); cbn [orb].
  { unfold bind. destruct (run_code_answers E (echo_command repo t) s H) as [r ->].
    reflexivity. }
  destruct (eq_str (operation t) "delete").
  { unfold bind. destruct (run_code_answers E (rm_command repo t) s H) as [r ->].
    reflexivity. }
  simpl.
  rewrite app_nil_r. now destruct s.
Qed.

Lemma implement_loop_remote (E : Env) (repo : string) (key : string)
    (plan : list CodeModification) :
  sandbox_answers E ->
  forall acc s,
    e2b_session (self s) = Some key ->
    exists s',
      implement_loop E repo plan acc s = (inr (acc ++ List.map file_path plan), s')
      /\ sent s' = sent s ++ omap (command_of repo) plan
      /\ files s' = files s.
Proof.
  intros H. induction plan as [|t plan IH]; intros acc s Hs.
  - exists s. simpl. rewrite !app_nil_r. repeat split.
  - rewrite ApplyFacts.implement_loop_cons, (implement_one_remote E repo t s key H Hs).
    destruct (IH (acc ++ [file_path t])
                (reported t (set_sent (sent s ++ option_list (command_of repo t)) s)) Hs)
      as (s' & -> & Hsent & Hfiles).
    exists s'. split; [| split].
    + now rewrite <- app_assoc.
    + rewrite Hsent. simpl. destruct (command_of repo t); simpl; now rewrite <- app_assoc.
    + rewrite Hfiles. reflexivity.
Qed.

End RemoteSteps.

(** ** The directory of a path *)

Module DirnameFacts.
Import PyStr Fs.

#[local] Arguments String.append !_ _ / : simpl nomatch.

Lemma split_nonempty (c : ascii) (s : string) : split c s <> [].
Proof.
  destruct s as [|a s]; simpl; [discriminate |].
  destruct (Ascii.eqb a c); [discriminate |]. now destruct (split c s).
Qed.

(** Splitting goes through a separator. *)
Lemma split_app_sep (c : ascii) (a b : string) :
  split c (a +:+ String c b) = split c a ++ split c b.
Proof.
  induction a as [|x a IH]; simpl.
  - now rewrite Ascii.eqb_refl.
  - destruct (Ascii.eqb x c); [now rewrite IH |].
    rewrite IH. pose proof (split_nonempty c a) as Hne.
    now destruct (split c a).
Qed.

Lemma split_no_sep (c : ascii) (s : string) :
  contains c s = false -> split c s = [s].
Proof.
  induction s as [|a s IH]; simpl; [reflexivity |].
  destruct (Ascii.eqb a c); [discriminate |]. simpl. intros H. now rewrite IH.
Qed.

(** A text around its last separator. *)
Lemma rindex_decompose (c : ascii) (s : string) :
  forall j, rindex_of c s = Some j ->
            exists h base, s = h +:+ String c base /\ String.length h = j
                           /\ contains c base = false.
Proof.
  induction s as [|a s IH]; simpl; intros j H; [discriminate |].
  destruct (rindex_of c s) as [i|] eqn:Hi.
  - injection H as <-. destruct (IH i eq_refl) as (h & base & -> & Hlen & Hbase).
    exists (String a h), base. simpl. now rewrite Hlen.
  - destruct (Ascii.eqb_spec a c) as [->|]; [| discriminate]. injection H as <-.
    exists EmptyString, s. repeat split. now apply PyStrFacts.contains_rindex_of.
Qed.

Lemma take_through_sep (c : ascii) (h base : string) :
  take (S (String.length h)) (h +:+ String c base) = h +:+ String c EmptyString.
Proof. induction h as [|a h IH]; simpl; [reflexivity | f_equal; exact IH]. Qed.

(** A text is its part without the separators it ends with, then empty
    components. *)
Lemma split_rstrip (c : ascii) (s : string) :
  exists k,
    split c s
    = (if String.eqb (rstrip c s) EmptyString then [] else split c (rstrip c s))
      ++ repeat EmptyString k
    /\ (rstrip c s = EmptyString -> (0 < k)%nat).
Proof.
  induction s as [|a s (k & IH & Hk)].
  - exists 1%nat. split; [reflexivity | simpl; lia].
  - change (rstrip c (String a s))
      with (match rstrip c s with
            | EmptyString => if Ascii.eqb a c then EmptyString else String a EmptyString
            | r => String a r
            end).
    change (split c (String a s))
      with (if Ascii.eqb a c then EmptyString :: split c s
            else match split c s with
                 | w :: ws => String a w :: ws
                 | [] => [String a EmptyString]
                 end).
    destruct (rstrip c s) as [|b r] eqn:Hr.
    + change (String.eqb EmptyString EmptyString) with true in IH. cbv iota in IH.
      simpl app in IH. destruct (Ascii.eqb a c) eqn:Hac.
      * exists (S k). rewrite IH. split; [reflexivity | lia].
      * destruct k as [|k]; [specialize (Hk eq_refl); lia |].
        exists k. rewrite IH. simpl. rewrite Hac. split; [reflexivity | discriminate].
    + change (String.eqb (String b r) EmptyString) with false in IH. cbv iota in IH.
      exists k. split; [| discriminate].
      change (String.eqb (String a (String b r)) EmptyString) with false. cbv iota.
      change (split c (String a (String b r)))
        with (if Ascii.eqb a c then EmptyString :: split c (String b r)
              else match split c (String b r) with
                   | w :: ws => String a w :: ws
                   | [] => [String a EmptyString]
                   end).
      pose proof (split_nonempty c (String b r)) as Hne.
      rewrite IH. destruct (Ascii.eqb a c); [reflexivity |].
      now destruct (split c (String b r)).
Qed.

Lemma rstrip_empty (s : string) : rstrip "/" s = EmptyString -> all_char "/" s = true.
Proof.
  induction s as [|a s IH]; simpl; [reflexivity |].
  destruct (rstrip "/" s); [| discriminate].
  destruct (Ascii.eqb a "/"); [| discriminate]. intros _. now apply IH.
Qed.

(** Walking two lists of components, one after the other. *)
Lemma walk_app (path : string) (t : tree) (a b : list string) :
  forall cur,
    walk false path t cur (a ++ b)
    = match walk false path t cur a with
      | inl e => inl e
      | inr (_, p) => walk false path t p b
      end.
Proof.
  induction a as [|c a IH]; intros cur; simpl; [reflexivity |].
  destruct (t !! cur) as [[|d]|]; try reflexivity.
  destruct (is_dot c); [apply IH |].
  destruct (String.eqb c ".."); [apply IH |].
  destruct (t !! (cur ++ [c])); apply IH.
Qed.

(** Where a walk gets does not depend on the text it is the walk of. *)
Lemma walk_any_path (path path' : string) (t : tree) (comps : list string) :
  forall cur r, walk false path t cur comps = inr r -> walk false path' t cur comps = inr r.
Proof.
  induction comps as [|c comps IH]; intros cur r; simpl; [trivial |].
  destruct (t !! cur) as [[|d]|]; try discriminate.
  destruct (is_dot c); [apply IH |].
  destruct (String.eqb c ".."); [apply IH |].
  destruct (t !! (cur ++ [c])); apply IH.
Qed.

(** Empty components lead nowhere. *)
Lemma walk_empty_components (path : string) (t : tree) (k : nat) :
  forall cur q, walk false path t cur (repeat EmptyString k) = inr (t, q) -> q = cur.
Proof.
  induction k as [|k IH]; intros cur q; simpl.
  - intros H. now injection H as <-.
  - destruct (t !! cur) as [[|d]|]; try discriminate. apply IH.
Qed.

(** A walk that gets through its last component left a directory for
    it. *)
Lemma walk_last (path : string) (t : tree) (comps : list string) (c : string)
    (cur p : list string) :
  walk false path t cur (comps ++ [c]) = inr (t, p) ->
  exists q, walk false path t cur comps = inr (t, q) /\ t !! q = Some Dir.
Proof.
  rewrite walk_app.
  destruct (walk false path t cur comps) as [e|[t' q]] eqn:Hw; [discriminate |].
  pose proof (FsFacts.walk_false_tree _ _ _ _ _ _ Hw) as ->.
  simpl. destruct (t !! q) as [[|d]|] eqn:Hq; try discriminate.
  intros _. now exists q.
Qed.

(** A path that resolves has a directory part that is an existing
    directory, unless it has none. *)
Lemma resolve_dirname (full : string) (t : tree) (p : list string) :
  resolve full t = inr p ->
  dirname full = EmptyString \/ isdir (dirname full) t = true.
Proof.
  unfold resolve. destruct (String.eqb full EmptyString); [discriminate |].
  destruct (walk false full t [] (split "/" full)) as [e|[t' p']] eqn:Hw; [discriminate |].
  intros _. pose proof (FsFacts.walk_false_tree _ _ _ _ _ _ Hw) as ->.
  unfold dirname, rfind.
  destruct (rindex_of "/" full) as [j|] eqn:Hj.
  - right.
    destruct (rindex_decompose _ _ _ Hj) as (h & base & -> & Hlen & Hbase).
    replace (Z.of_nat j + 1) with (Z.of_nat (S j)) by lia.
    change 0 with (Z.of_nat 0).
    rewrite PyStrFacts.slice_inside
      by (rewrite ?PyStrFacts.length_app; simpl; lia).
    simpl drop. rewrite Nat.sub_0_r, <- Hlen, take_through_sep.
    set (head := h +:+ String "/" EmptyString).
    rewrite split_app_sep, (split_no_sep _ _ Hbase) in Hw.
    apply walk_last in Hw as (q & Hh & Hq).
    assert (forall path, walk false path t [] (split "/" head) = inr (t, q)) as Hhead.
    { intros path. unfold head. rewrite split_app_sep, walk_app.
      rewrite (walk_any_path _ path _ _ _ _ Hh). simpl. now rewrite Hq. }
    assert (String.eqb head EmptyString = false) as Hne
      by (unfold head; now destruct h).
    rewrite Hne. cbn [negb andb].
    destruct (all_char "/" head) eqn:Hall; cbn [negb].
    + unfold isdir, resolve. now rewrite Hne, Hhead, Hq.
    + destruct (split_rstrip "/" head) as (k & Hsplit & _).
      destruct (String.eqb_spec (rstrip "/" head) EmptyString) as [Hempty|Hd].
      { apply rstrip_empty in Hempty. congruence. }
      assert (forall path, walk false path t [] (split "/" (rstrip "/" head)) = inr (t, q))
        as Hdir.
      { intros path. specialize (Hhead path). rewrite Hsplit, walk_app in Hhead.
        destruct (walk false path t [] (split "/" (rstrip "/" head))) as [e|[t' q']] eqn:Hd';
          [discriminate |].
        pose proof (FsFacts.walk_false_tree _ _ _ _ _ _ Hd') as ->.
        now rewrite (walk_empty_components _ _ _ _ _ Hhead). }
      unfold isdir, resolve.
      destruct (String.eqb_spec (rstrip "/" head) EmptyString) as [|_]; [contradiction |].
      now rewrite Hdir, Hq.
  - left. change (slice full 0 (-1 + 1)) with (slice full (Z.of_nat 0) (Z.of_nat 0)).
    rewrite PyStrFacts.slice_inside by lia. reflexivity.
Qed.

End DirnameFacts.

(** ** Writing with and without the directory *)

Module CreateModify.
Import Engine.

(** What a write that returns has done, whatever was to be written. *)
Lemma write_file_returns (full : string) (data : json) (s s' : state) :
  write_file full data s = (inr tt, s') ->
  exists p x, data = JStr x /\ Fs.resolve full (files s) = inr p
              /\ files s !! p <> Some Dir
              /\ s' = set_files (<[p := File x]> (files s)) s.
Proof.
  destruct data as [| | | |x| |];
    try (unfold write_file, bind, get_state, modify, raise; simpl;
         destruct (Fs.open_w full (files s)) as [e|[t p]]; discriminate).
  intros H. apply LocalFacts.write_file_inv in H as (p & Hr & Hp & ->).
  now exists p, x.
Qed.

(** Where the path does not resolve, a write raises and changes nothing. *)
Lemma write_file_unresolved (full : string) (data : json) (s : state) (e : exn) :
  Fs.resolve full (files s) = inl e -> write_file full data s = (inl e, s).
Proof.
  intros H. unfold write_file, bind, get_state, raise, Fs.open_w. now rewrite H.
Qed.

Lemma makedirs_returns (path : string) (s s' : state) :
  makedirs path s = (inr tt, s') ->
  path <> EmptyString /\ exists t, Fs.makedirs path (files s) = inr t /\ s' = set_files t s.
Proof.
  unfold makedirs, bind, get_state, lift, modify.
  destruct (Fs.makedirs path (files s)) as [e|t] eqn:Hm; [discriminate |].
  intros H. injection H as <-. split; [| now exists t].
  intros ->. discriminate.
Qed.

End CreateModify.

(** C10: a decoded object with no [transformations] key, or with an empty
    list under it, gives the empty plan and no error; applying the empty
    plan returns the empty list and touches neither the files nor the
    sandbox. *)
Theorem missing_transformations_is_empty_plan (E : Env) (prompt : string)
    (analysis : Analysis) (reply : string) (members : list (string * json)) (s : state) :
  openai_client (self s) = true ->
  chat_completion E (Engine.context_text prompt analysis) analysis = inr (Some reply) ->
  json_loads E (Engine.extract_json reply) = inr (JObj members) ->
  PyVal.dict_get "transformations" members = None
  \/ PyVal.dict_get "transformations" members = Some (JArr []) ->
  fst (Engine.create_code_transformations E prompt analysis s) = inr []
  /\ forall (repo : string) (s' : state),
       fst (Engine.implement_transformations E repo [] s') = inr []
       /\ files (snd (Engine.implement_transformations E repo [] s')) = files s'
       /\ sent (snd (Engine.implement_transformations E repo [] s')) = sent s'.
Proof.
  intros Hclient Hreply Hdata Hkey. split.
  - unfold Engine.create_code_transformations, bind, emit, modify, get_self, try_except, lift.
    simpl. rewrite Hclient. simpl. rewrite Hreply.
    unfold Engine.parse_plan. rewrite Hdata. simpl.
    now destruct Hkey as [-> | ->].
  - intros repo s'. repeat split.
Qed.

Lemma missing_transformations_is_empty_plan_witness :
  fst (Engine.create_code_transformations
         (Demo.local_env (JsonText.dq "Nothing to change: {'summary': 'no edits'}"))
         "tidy up" Demo.no_analysis Demo.start) = inr [].
Proof.
  apply (missing_transformations_is_empty_plan
           (Demo.local_env (JsonText.dq "Nothing to change: {'summary': 'no edits'}"))
           "tidy up" Demo.no_analysis
           (JsonText.dq "Nothing to change: {'summary': 'no edits'}")
           [("summary", JStr "no edits")] Demo.start).
  - reflexivity.
  - reflexivity.
  - vm_compute. reflexivity.
  - left. reflexivity.
Defined.

(** C9: an entry whose operation is none of [create], [modify], [delete]
    changes nothing when its turn comes, and a plan that is applied to the
    end returns the path of every entry, that one included. *)
Theorem unknown_operation_is_listed (E : Env) (repo : string) (t : CodeModification)
    (fp : string) :
  file_path t = JStr fp ->
  known_operation (operation t) = false ->
  (forall s : state, Engine.implement_one E repo t s = (inr tt, s))
  /\ forall (before after : list CodeModification) (s : state) (applied : list json) (s' : state),
       Engine.implement_transformations E repo (before ++ t :: after) s = (inr applied, s') ->
       applied = List.map file_path before ++ JStr fp :: List.map file_path after.
Proof.
  intros Hfp Hop. split.
  - intros s. now apply ApplyFacts.implement_one_unknown with fp.
  - intros before after s applied s' H.
    apply ApplyFacts.implement_transformations_listed in H.
    now rewrite H, List.map_app, <- Hfp.
Qed.

Lemma unknown_operation_is_listed_witness :
  Engine.implement_transformations (Demo.local_env EmptyString) "/w/r"
    [Demo.change "notes.txt" "rename" "N"] Demo.fresh
  = (inr [JStr "notes.txt"],
     reported (Demo.change "notes.txt" "rename" "N")
       (entered "implement_transformations" Demo.fresh)).
Proof.
  destruct (unknown_operation_is_listed (Demo.local_env EmptyString) "/w/r"
              (Demo.change "notes.txt" "rename" "N") "notes.txt" eq_refl eq_refl) as [Hone _].
  unfold Engine.implement_transformations, bind, try_except, emit, modify.
  rewrite ApplyFacts.implement_loop_cons, Hone. reflexivity.
Defined.

(** C4, as stated, fails on the local path: in a fresh repository, creating
    [src/x.py] makes the directory [src] and writes the file, while
    modifying [src/x.py] raises and writes nothing. *)
Lemma modify_creates_no_directory :
  let E := Demo.local_env EmptyString in
  let created := Engine.implement_one E "/w/r" (Demo.change "src/x.py" "create" "print(1)") Demo.fresh in
  let modified := Engine.implement_one E "/w/r" (Demo.change "src/x.py" "modify" "print(1)") Demo.fresh in
  fst created = inr tt
  /\ Fs.read "/w/r/src/x.py" (files (snd created)) = Some "print(1)"
  /\ fst modified = inl (Fs.ENOENT "/w/r/src/x.py")
  /\ Fs.read "/w/r/src/x.py" (files (snd modified)) = None.
Proof. vm_compute. repeat split; reflexivity. Qed.

(** C4, amended: for the same path and content, [create] and [modify] do
    the same thing with a sandbox (they send the same command), and on the
    local files whenever the directory part of the target names an existing
    directory.  On the local files [modify] makes and removes no directory,
    and raises, changing nothing, when the directory part of the target is
    not empty and names no existing directory; a [create] that returns
    leaves that directory there and the file with the content; and when the
    directory part is empty it is [create] that raises, with
    [FileNotFoundError], changing nothing. *)
Theorem create_and_modify_agree (E : Env) (repo : string) (t1 t2 : CodeModification)
    (s : state) :
  operation t1 = JStr "create" ->
  operation t2 = JStr "modify" ->
  file_path t1 = file_path t2 ->
  content t1 = content t2 ->
  (is_Some (e2b_session (self s)) ->
   Engine.implement_one E repo t1 s = Engine.implement_one E repo t2 s)
  /\ (e2b_session (self s) = None ->
      (forall fp, file_path t1 = JStr fp ->
                  Fs.isdir (Fs.dirname (Fs.join repo fp)) (files s) = true) ->
      Engine.implement_one E repo t1 s = Engine.implement_one E repo t2 s)
  /\ (e2b_session (self s) = None ->
      same_directories (files s) (files (snd (Engine.implement_one E repo t2 s))))
  /\ (forall fp,
        e2b_session (self s) = None ->
        file_path t1 = JStr fp ->
        Fs.dirname (Fs.join repo fp) <> EmptyString ->
        Fs.isdir (Fs.dirname (Fs.join repo fp)) (files s) = false ->
        exists e, Engine.implement_one E repo t2 s = (inl e, s))
  /\ (forall fp s',
        e2b_session (self s) = None ->
        file_path t1 = JStr fp ->
        Engine.implement_one E repo t1 s = (inr tt, s') ->
        Fs.isdir (Fs.dirname (Fs.join repo fp)) (files s') = true
        /\ exists x, Engine.content_or_empty t1 = JStr x
                     /\ Fs.read (Fs.join repo fp) (files s') = Some x)
  /\ (forall fp,
        e2b_session (self s) = None ->
        file_path t1 = JStr fp ->
        Fs.dirname (Fs.join repo fp) = EmptyString ->
        Engine.implement_one E repo t1 s = (inl (Fs.ENOENT EmptyString), s)).
Proof.
  intros H1 H2 Hfp Hc.
  assert (Engine.content_or_empty t1 = Engine.content_or_empty t2) as Hce
    by (unfold Engine.content_or_empty; now rewrite Hc).
  split; [| split; [| split; [| split; [| split]]]].
  - intros [k Hs].
    unfold Engine.implement_one, bind, get_self. rewrite Hs, H1, H2. simpl.
    unfold Engine.echo_command. now rewrite Hfp, Hce.
  - intros Hs Hdir.
    rewrite !LocalFacts.implement_one_local by assumption.
    unfold bind, lift, Engine.full_path_of. rewrite <- Hfp.
    destruct (file_path t1) as [| | | |fp| |] eqn:Hp; try reflexivity.
    rewrite H1, H2. simpl.
    unfold Engine.makedirs, bind, get_state, lift, modify.
    rewrite (FsFacts.makedirs_existing _ _ (Hdir fp eq_refl)).
    now rewrite ApplyFacts.set_files_same, Hce.
  - intros Hs. rewrite LocalFacts.implement_one_local by assumption.
    unfold bind, lift, Engine.full_path_of.
    destruct (file_path t2) as [| | | |fp| |]; try apply DirectoryFacts.same_directories_refl.
    rewrite H2. simpl. apply DirectoryFacts.write_file_directories.
  - intros fp Hs Hp Hne Hdir.
    rewrite LocalFacts.implement_one_local by assumption.
    unfold bind, lift, Engine.full_path_of. rewrite <- Hfp, Hp, H2. simpl.
    destruct (Fs.resolve (Fs.join repo fp) (files s)) as [e|p] eqn:Hr.
    + exists e. now apply CreateModify.write_file_unresolved.
    + destruct (DirnameFacts.resolve_dirname _ _ _ Hr) as [Hd | Hd]; congruence.
  - intros fp s' Hs Hp.
    rewrite LocalFacts.implement_one_local by assumption.
    unfold bind at 1. unfold lift, Engine.full_path_of. rewrite Hp, H1. simpl.
    unfold bind.
    destruct (Engine.makedirs (Fs.dirname (Fs.join repo fp)) s) as [[e|[]] s1] eqn:Hm;
      [discriminate |].
    apply CreateModify.makedirs_returns in Hm as (Hne & t & Hm & ->).
    intros Hw. apply CreateModify.write_file_returns in Hw as (p & x & Hx & Hr & Hnd & ->).
    simpl in Hr, Hnd |- *.
    destruct (DirnameFacts.resolve_dirname _ _ _ Hr) as [Hd | Hd]; [contradiction |].
    split.
    + unfold Fs.isdir in Hd |- *.
      destruct (Fs.resolve (Fs.dirname (Fs.join repo fp)) t) as [e|q] eqn:Hq; [discriminate |].
      rewrite (FsFacts.resolve_insert_file _ p q x t Hnd Hq).
      destruct (t !! q) as [[|d]|] eqn:Htq; try discriminate.
      assert (p <> q) as Hpq by congruence.
      rewrite lookup_insert_ne by assumption. now rewrite Htq.
    + exists x. split; [assumption |].
      unfold Fs.read. rewrite (FsFacts.resolve_insert_file _ p p x t Hnd Hr).
      now rewrite lookup_insert_eq.
  - intros fp Hs Hp Hd.
    rewrite LocalFacts.implement_one_local by assumption.
    unfold bind at 1. unfold lift, Engine.full_path_of. rewrite Hp, H1. simpl.
    rewrite Hd. reflexivity.
Qed.

Lemma create_and_modify_agree_witness :
  Engine.implement_one (Demo.local_env EmptyString) "/w/r"
    (Demo.change "x.py" "create" "print(1)") Demo.fresh
  = Engine.implement_one (Demo.local_env EmptyString) "/w/r"
      (Demo.change "x.py" "modify" "print(1)") Demo.fresh.
Proof.
  apply (create_and_modify_agree (Demo.local_env EmptyString) "/w/r"
           (Demo.change "x.py" "create" "print(1)") (Demo.change "x.py" "modify" "print(1)")
           Demo.fresh); try reflexivity.
  intros fp Hfp. injection Hfp as <-. vm_compute. reflexivity.
Defined.

(** With an empty repository path and a bare file name the directory part
    is empty: [create] raises on it, while [modify] writes the file. *)
Example create_with_empty_directory_part :
  let E := Demo.local_env EmptyString in
  let created := Engine.implement_one E EmptyString (Demo.change "x.py" "create" "print(1)") Demo.fresh in
  let modified := Engine.implement_one E EmptyString (Demo.change "x.py" "modify" "print(1)") Demo.fresh in
  Fs.dirname (Fs.join EmptyString "x.py") = EmptyString
  /\ created = (inl (Fs.ENOENT EmptyString), Demo.fresh)
  /\ fst modified = inr tt
  /\ Fs.read "x.py" (files (snd modified)) = Some "print(1)".
Proof. vm_compute. repeat split; reflexivity. Qed.

Module LocalSteps.
Import Engine.

Section OneEntry.

Context (E : Env) (repo name : string) (s : state) (q : list string).

Hypothesis local : e2b_session (self s) = None.
Hypothesis resolves : Fs.resolve (Fs.join repo name) (files s) = inr q.

(** Writing where the directory exists and the target is not a
    directory. *)
Lemma create_writes (x : string) :
  Fs.isdir (Fs.dirname (Fs.join repo name)) (files s) = true ->
  files s !! q <> Some Dir ->
  implement_one E repo (Demo.change name "create" x) s
  = (inr tt, set_files (<[q := File x]> (files s)) s).
Proof.
  intros Hdir Hq.
  assert (PyVal.or_else (JStr x) (JStr EmptyString) = JStr x) as Hx.
  { unfold PyVal.or_else. simpl. now destruct (String.eqb_spec x EmptyString) as [->|]. }
  unfold implement_one, bind, get_self, lift, full_path_of. rewrite local. simpl.
  unfold makedirs, write_file, bind, get_state, lift, modify, content_or_empty, Fs.open_w.
  simpl. rewrite Hx, (FsFacts.makedirs_existing _ _ Hdir). simpl. rewrite resolves.
  destruct (files s !! q) as [[|d]|] eqn:Hn; try congruence;
    simpl; now rewrite insert_insert_eq.
Qed.

Lemma delete_removes (d : string) :
  files s !! q = Some (File d) ->
  implement_one E repo (deletion name) s = (inr tt, set_files (delete q (files s)) s).
Proof.
  intros Hq.
  unfold implement_one, bind, get_self, lift, full_path_of. rewrite local. simpl.
  unfold remove_if_exists, bind, get_state, lift, modify, Fs.exists_, Fs.remove.
  rewrite resolves, Hq. rewrite bool_decide_eq_true_2 by eauto. reflexivity.
Qed.

Lemma delete_skips :
  files s !! q = None ->
  implement_one E repo (deletion name) s = (inr tt, s).
Proof.
  intros Hq.
  unfold implement_one, bind, get_self, lift, full_path_of. rewrite local. simpl.
  unfold remove_if_exists, bind, get_state, Fs.exists_.
  rewrite resolves, Hq. rewrite bool_decide_eq_false_2 by (now intros []). reflexivity.
Qed.

End OneEntry.

End LocalSteps.

(** C5: entries are applied in plan order.  On the local files, for a
    target the operating system takes, whose directory exists and which is
    itself absent, writing the file and then deleting it leaves it absent,
    while deleting and then writing leaves it there with the text written.
    With a sandbox whose calls return, the write and the removal are sent in
    the order of the plan, both plans return both paths, and the local files
    stay as they are. *)
Theorem apply_in_plan_order (E : Env) (repo name x : string) (s : state) :
  let after1 :=
    Engine.implement_transformations E repo [Demo.change name "create" x; deletion name] s in
  let after2 :=
    Engine.implement_transformations E repo [deletion name; Demo.change name "create" x] s in
  (forall q : list string,
     e2b_session (self s) = None ->
     os_takes (Fs.join repo name) = true ->
     Fs.isdir (Fs.dirname (Fs.join repo name)) (files s) = true ->
     Fs.resolve (Fs.join repo name) (files s) = inr q ->
     files s !! q = None ->
     fst after1 = inr [JStr name; JStr name]
     /\ Fs.exists_ (Fs.join repo name) (files (snd after1)) = false
     /\ fst after2 = inr [JStr name; JStr name]
     /\ Fs.read (Fs.join repo name) (files (snd after2)) = Some x)
  /\ (is_Some (e2b_session (self s)) ->
      sandbox_answers E ->
      let write := Engine.echo_command repo (Demo.change name "create" x) in
      let removal := Engine.rm_command repo (deletion name) in
      fst after1 = inr [JStr name; JStr name]
      /\ sent (snd after1) = sent s ++ [write; removal]
      /\ files (snd after1) = files s
      /\ fst after2 = inr [JStr name; JStr name]
      /\ sent (snd after2) = sent s ++ [removal; write]
      /\ files (snd after2) = files s).
Proof.
  cbv zeta. split.
  - intros q Hlocal _ Hdir Hres Hq.
    assert (files s !! q <> Some Dir) as Hnd by (rewrite Hq; discriminate).
    assert (exists s1,
               Engine.implement_transformations E repo
                 [Demo.change name "create" x; deletion name] s = (inr [JStr name; JStr name], s1)
               /\ files s1 = files s) as (s1 & -> & Hs1).
    { unfold Engine.implement_transformations, bind, try_except, emit, modify.
      rewrite ApplyFacts.implement_loop_cons.
      rewrite (LocalSteps.create_writes E repo name _ q) by assumption.
      rewrite ApplyFacts.implement_loop_cons.
      rewrite (LocalSteps.delete_removes E repo name _ q) with (d := x);
        [| assumption | apply FsFacts.resolve_insert_file; assumption | apply lookup_insert_eq].
      eexists. split; [reflexivity |].
      simpl. now apply FsFacts.delete_written. }
    assert (exists s2,
               Engine.implement_transformations E repo
                 [deletion name; Demo.change name "create" x] s = (inr [JStr name; JStr name], s2)
               /\ files s2 = <[q := File x]> (files s)) as (s2 & -> & Hs2).
    { unfold Engine.implement_transformations, bind, try_except, emit, modify.
      rewrite ApplyFacts.implement_loop_cons.
      rewrite (LocalSteps.delete_skips E repo name _ q) by assumption.
      rewrite ApplyFacts.implement_loop_cons.
      rewrite (LocalSteps.create_writes E repo name _ q) by assumption.
      eexists. split; reflexivity. }
    simpl. rewrite Hs1, Hs2.
    unfold Fs.exists_, Fs.read.
    rewrite (FsFacts.resolve_insert_file _ q q x _ Hnd Hres), Hres, Hq, lookup_insert_eq.
    repeat split.
  - intros [key Hs] H.
    unfold Engine.implement_transformations, bind, try_except, emit, modify.
    destruct (RemoteSteps.implement_loop_remote E repo key
                [Demo.change name "create" x; deletion name] H []
                (entered "implement_transformations" s) Hs) as (s1 & Hrun1 & Hsent1 & Hfiles1).
    destruct (RemoteSteps.implement_loop_remote E repo key
                [deletion name; Demo.change name "create" x] H []
                (entered "implement_transformations" s) Hs) as (s2 & Hrun2 & Hsent2 & Hfiles2).
    unfold entered in Hrun1, Hrun2. rewrite Hrun1, Hrun2. simpl.
    split; [reflexivity |]. split; [exact Hsent1 |]. split; [exact Hfiles1 |].
    split; [reflexivity |]. split; [exact Hsent2 | exact Hfiles2].
Qed.

Lemma apply_in_plan_order_witness :
  let E := Demo.local_env EmptyString in
  let after1 :=
    Engine.implement_transformations E "/w/r" [Demo.change "a.txt" "create" "X"; deletion "a.txt"]
      Demo.fresh in
  let after2 :=
    Engine.implement_transformations E "/w/r" [deletion "a.txt"; Demo.change "a.txt" "create" "X"]
      Demo.fresh in
  fst after1 = inr [JStr "a.txt"; JStr "a.txt"]
  /\ Fs.exists_ "/w/r/a.txt" (files (snd after1)) = false
  /\ fst after2 = inr [JStr "a.txt"; JStr "a.txt"]
  /\ Fs.read "/w/r/a.txt" (files (snd after2)) = Some "X".
Proof.
  apply (proj1 (apply_in_plan_order (Demo.local_env EmptyString) "/w/r" "a.txt" "X" Demo.fresh)
           ["w"; "r"; "a.txt"]).
  - reflexivity.
  - vm_compute. reflexivity.
  - vm_compute. reflexivity.
  - vm_compute. reflexivity.
  - vm_compute. reflexivity.
Defined.

(** With a sandbox, the commands go out in plan order. *)
Example remote_commands_follow_plan_order :
  let E := Demo.remote_env EmptyString in
  sent (snd (Engine.implement_transformations E "/home/user/demo"
               [Demo.change "a.txt" "create" "X"; deletion "a.txt"] Demo.fresh_remote))
  = ["echo 'X' > /home/user/demo/a.txt"; "rm -f /home/user/demo/a.txt"]
  /\ sent (snd (Engine.implement_transformations E "/home/user/demo"
                  [deletion "a.txt"; Demo.change "a.txt" "create" "X"] Demo.fresh_remote))
     = ["rm -f /home/user/demo/a.txt"; "echo 'X' > /home/user/demo/a.txt"].
Proof. vm_compute. split; reflexivity. Qed.

(** C3, as stated, fails: when the second of three entries fails, no list
    of applied paths is returned (the call raises), and the error's text is
    that of the underlying error, which need not name the path.  The third
    command is never sent. *)
Lemma failed_apply_returns_no_list :
  let E := Demo.env true None second_command_fails EmptyString (ProcDone EmptyString) in
  let run :=
    Engine.implement_transformations E "/home/user/demo"
      [Demo.change "a.txt" "create" "A"; Demo.change "b.txt" "modify" "B";
       Demo.change "c.txt" "create" "C"] Demo.fresh_remote in
  fst run = inl (RuntimeError "Failed to implement transformations: sandbox timed out")
  /\ sent (snd run) = ["echo 'A' > /home/user/demo/a.txt"; "echo 'B' > /home/user/demo/b.txt"].
Proof. vm_compute. split; reflexivity. Qed.

(** C3, amended: when the first entry is applied and the second raises,
    the call raises [RuntimeError] with the text
    [Failed to implement transformations: ] followed by the text of the
    underlying error, and returns no list; the state it leaves is the state
    at the point of the failure, so the first entry's effects stay and the
    third entry, whatever it is, is never attempted. *)
Theorem second_entry_failure (E : Env) (repo : string) (t1 t2 t3 : CodeModification)
    (s s1 s2 : state) (e : exn) :
  Engine.implement_one E repo t1 (entered "implement_transformations" s)
  = (inr tt, s1) ->
  Engine.implement_one E repo t2 (reported t1 s1) = (inl e, s2) ->
  Engine.implement_transformations E repo [t1; t2; t3] s
  = (inl (RuntimeError ("Failed to implement transformations: " +:+ exn_str e)), s2).
Proof.
  intros H1 H2.
  unfold Engine.implement_transformations, bind, try_except, emit, modify.
  rewrite (ApplyFacts.implement_loop_stops E repo [t1] t2 [t3] [] _
             (reported t1 s1) [file_path t1] e s2); [reflexivity | | exact H2].
  rewrite ApplyFacts.implement_loop_cons.
  unfold entered in H1. now rewrite H1.
Qed.

Lemma second_entry_failure_witness :
  let E := Demo.local_env EmptyString in
  exists s2,
    Engine.implement_transformations E "/w/r"
      [Demo.change "a.txt" "create" "A"; Demo.change "sub/b.txt" "modify" "B";
       Demo.change "c.txt" "create" "C"] Demo.fresh
    = (inl (RuntimeError ("Failed to implement transformations: "
                          +:+ exn_str (Fs.ENOENT "/w/r/sub/b.txt"))), s2)
    /\ Fs.read "/w/r/a.txt" (files s2) = Some "A"
    /\ Fs.exists_ "/w/r/c.txt" (files s2) = false.
Proof.
  intros E. eexists. split.
  - eapply (second_entry_failure E "/w/r" (Demo.change "a.txt" "create" "A")
             (Demo.change "sub/b.txt" "modify" "B") (Demo.change "c.txt" "create" "C")
             Demo.fresh).
    + vm_compute. reflexivity.
    + vm_compute. reflexivity.
  - vm_compute. split; reflexivity.
Defined.

(** ** What a computation leaves untouched *)

Lemma enters_app (a b : list action) : enters (a ++ b) = enters a ++ enters b.
Proof.
  induction a as [|[]]; simpl; try assumption; [reflexivity | now rewrite IHa].
Qed.

Module Frame.

Section Keeps.

Context {X : Type} (proj : state -> X).

Lemma keeps_ret {A} (a : A) : keeps proj (ret a).
Proof. now intros s. Qed.

Lemma keeps_raise {A} (e : exn) : keeps proj (@raise A e).
Proof. now intros s. Qed.

Lemma keeps_lift {A} (r : result A) : keeps proj (lift r).
Proof. now intros s. Qed.

Lemma keeps_get_state : keeps proj get_state.
Proof. now intros s. Qed.

Lemma keeps_get_self : keeps proj get_self.
Proof. now intros s. Qed.

Lemma keeps_modify (f : state -> state) :
  (forall s, proj (f s) = proj s) -> keeps proj (modify f).
Proof. intros H s. apply H. Qed.

Lemma keeps_bind {A B} (m : M A) (k : A -> M B) :
  keeps proj m -> (forall a, keeps proj (k a)) -> keeps proj (bind m k).
Proof.
  intros Hm Hk s. unfold bind. specialize (Hm s).
  destruct (m s) as [[e|a] s']; simpl in *; [assumption |].
  now rewrite Hk.
Qed.

Lemma keeps_try_except {A} (m : M A) (h : exn -> M A) :
  keeps proj m -> (forall e, keeps proj (h e)) -> keeps proj (try_except m h).
Proof.
  intros Hm Hh s. unfold try_except. specialize (Hm s).
  destruct (m s) as [[e|a] s']; simpl in *; [|assumption].
  now rewrite Hh.
Qed.

End Keeps.

(** One step of a proof that a computation keeps a part of the state:
    through the sequencing operators and by cases on what is matched on. *)
Ltac keeps_step :=
  lazymatch goal with
  | |- keeps _ (bind _ _) => apply keeps_bind; [| intros ?]
  | |- keeps _ (try_except _ _) => apply keeps_try_except; [| intros ?]
  | |- keeps _ (ret _) => apply keeps_ret
  | |- keeps _ (raise _) => apply keeps_raise
  | |- keeps _ (lift _) => apply keeps_lift
  | |- keeps _ get_state => apply keeps_get_state
  | |- keeps _ get_self => apply keeps_get_self
  | |- keeps _ (match ?x with _ => _ end) => destruct x
  end.

Ltac keeps_all := repeat keeps_step.

End Frame.

Module EngineFrame.
Import Engine Frame.

Section WithEnv.

Context (E : Env) {X : Type} (proj : state -> X) (step : string -> X -> X).

(** The part of the state looked at is apart from the platform object,
    the files and the sandbox; a printed line leaves it alone and
    entering a method moves it by [step]. *)
Hypothesis apart_self : forall p s, proj (set_self p s) = proj s.
Hypothesis apart_files : forall t s, proj (set_files t s) = proj s.
Hypothesis apart_sent : forall l s, proj (set_sent l s) = proj s.
Hypothesis apart_open : forall b s, proj (set_sandbox_open b s) = proj s.
Hypothesis apart_print :
  forall line s, proj (set_trace (trace s ++ [Print line]) s) = proj s.
Hypothesis apart_enter :
  forall name s, proj (set_trace (trace s ++ [Enter name]) s) = step name (proj s).

Lemma keeps_print (line : string) : keeps proj (print line).
Proof. intros s. apply apart_print. Qed.

Lemma keeps_update_self (f : platform -> platform) : keeps proj (update_self f).
Proof. intros s. apply apart_self. Qed.

Ltac apart :=
  repeat first
    [ keeps_step
    | apply keeps_print
    | apply keeps_update_self
    | apply keeps_modify; intros ?;
      first [ apply apart_self | apply apart_files | apply apart_sent | apply apart_open ]
    | progress cbv zeta ].

(** A method: its entry, then a body that keeps [proj]. *)
Lemma method_advances {A} (name : string) (body : M A) :
  keeps proj body -> advances proj (step name) (bind (emit (Enter name)) (fun _ => body)).
Proof. intros H s. unfold bind. simpl. rewrite H. apply apart_enter. Qed.

Lemma keeps_run_code (cmd : string) : keeps proj (run_code E cmd).
Proof. unfold run_code. apart. Qed.

Lemma keeps_init (a b : option string) : keeps proj (init E a b).
Proof. unfold init. apart. Qed.

Lemma keeps_local_environment : keeps proj (local_environment E).
Proof. unfold local_environment. apart. Qed.

Lemma setup_github_connection_advances (token : string) :
  advances proj (step "setup_github_connection") (setup_github_connection E token).
Proof. apply method_advances. apart. Qed.

Lemma create_execution_environment_advances :
  advances proj (step "create_execution_environment") (create_execution_environment E).
Proof. apply method_advances. apart; apply keeps_local_environment. Qed.

Lemma retrieve_user_repositories_advances :
  advances proj (step "retrieve_user_repositories") (retrieve_user_repositories E).
Proof. apply method_advances. apart. Qed.

Lemma download_repository_advances (url : string) :
  advances proj (step "download_repository") (download_repository E url).
Proof. apply method_advances. apart; apply keeps_run_code. Qed.

Lemma examine_codebase_advances (repo : string) :
  advances proj (step "examine_codebase") (examine_codebase E repo).
Proof. apply method_advances. apart; apply keeps_run_code. Qed.

Lemma create_code_transformations_advances (prompt : string) (analysis : Analysis) :
  advances proj (step "create_code_transformations")
    (create_code_transformations E prompt analysis).
Proof. apply method_advances. apart. Qed.

Lemma keeps_implement_one (repo : string) (t : CodeModification) :
  keeps proj (implement_one E repo t).
Proof.
  unfold implement_one, makedirs, write_file, remove_if_exists.
  apart; try apply keeps_run_code.
Qed.

Lemma keeps_implement_loop (repo : string) (ts : list CodeModification) :
  forall acc, keeps proj (implement_loop E repo ts acc).
Proof.
  induction ts as [|t ts IH]; intros acc; simpl; apart;
    first [apply keeps_implement_one | apply IH].
Qed.

Lemma implement_transformations_advances (repo : string) (ts : list CodeModification) :
  advances proj (step "implement_transformations") (implement_transformations E repo ts).
Proof. apply method_advances. apart. apply keeps_implement_loop. Qed.

Lemma run_code_validation_advances (repo : string) :
  advances proj (step "run_code_validation") (run_code_validation E repo).
Proof. apply method_advances. apart; apply keeps_run_code. Qed.

Lemma keeps_run_commands (cmds : list string) : keeps proj (run_commands E cmds).
Proof.
  induction cmds as [|c cmds IH]; simpl; apart; first [apply keeps_run_code | apply IH].
Qed.

Lemma commit_and_publish_advances (repo branch message token : string) :
  advances proj (step "commit_and_publish") (commit_and_publish E repo branch message token).
Proof.
  apply method_advances. unfold run_git. apart. apply keeps_run_commands.
Qed.

Lemma cleanup_resources_advances :
  advances proj (step "cleanup_resources") (cleanup_resources E).
Proof. apply method_advances. apart. Qed.

Lemma keeps_print_repos (repos : list RepositoryInfo) :
  forall i, keeps proj (print_repos i repos).
Proof. induction repos as [|r repos IH]; intros i; simpl; apart. apply IH. Qed.

End WithEnv.

End EngineFrame.

(** ** The methods a run enters, and the sessions it leaves alone *)

Module Stages.
Import Engine.

Lemma entered_print (line : string) (s : state) :
  entered_methods (set_trace (trace s ++ [Print line]) s) = entered_methods s.
Proof. unfold entered_methods. simpl. rewrite enters_app. apply app_nil_r. Qed.

Lemma entered_yield (ev : sse) (s : state) :
  entered_methods (set_trace (trace s ++ [Yield ev]) s) = entered_methods s.
Proof. unfold entered_methods. simpl. rewrite enters_app. apply app_nil_r. Qed.

Lemma entered_enter (name : string) (s : state) :
  entered_methods (set_trace (trace s ++ [Enter name]) s) = then_ name (entered_methods s).
Proof. unfold entered_methods. simpl. now rewrite enters_app. Qed.

Ltac side := intros; first [reflexivity | apply entered_print | apply entered_enter].

Section WithEnv.

Context (E : Env).

Lemma init_enters (a b : option string) (s : state) :
  entered_methods (snd (init E a b s)) = entered_methods s.
Proof. apply (EngineFrame.keeps_init E entered_methods); side. Qed.

Lemma init_sessions (a b : option string) (s : state) :
  active_sessions (snd (init E a b s)) = active_sessions s.
Proof. apply (EngineFrame.keeps_init E active_sessions); side. Qed.

Lemma print_repos_enters (repos : list RepositoryInfo) (i : nat) (s : state) :
  entered_methods (snd (print_repos i repos s)) = entered_methods s.
Proof. apply (EngineFrame.keeps_print_repos entered_methods); side. Qed.

Lemma setup_github_connection_enters (token : string) (s : state) :
  entered_methods (snd (setup_github_connection E token s)) = entered_methods s ++ ["setup_github_connection"].
Proof.
  apply (EngineFrame.setup_github_connection_advances E entered_methods then_); side.
Qed.

Lemma setup_github_connection_sessions (token : string) (s : state) :
  active_sessions (snd (setup_github_connection E token s)) = active_sessions s.
Proof.
  apply (EngineFrame.setup_github_connection_advances E active_sessions (fun _ m => m)); side.
Qed.

Lemma create_execution_environment_enters (s : state) :
  entered_methods (snd (create_execution_environment E s)) = entered_methods s ++ ["create_execution_environment"].
Proof.
  apply (EngineFrame.create_execution_environment_advances E entered_methods then_); side.
Qed.

Lemma create_execution_environment_sessions (s : state) :
  active_sessions (snd (create_execution_environment E s)) = active_sessions s.
Proof.
  apply (EngineFrame.create_execution_environment_advances E active_sessions (fun _ m => m)); side.
Qed.

Lemma retrieve_user_repositories_enters (s : state) :
  entered_methods (snd (retrieve_user_repositories E s)) = entered_methods s ++ ["retrieve_user_repositories"].
Proof.
  apply (EngineFrame.retrieve_user_repositories_advances E entered_methods then_); side.
Qed.

Lemma retrieve_user_repositories_sessions (s : state) :
  active_sessions (snd (retrieve_user_repositories E s)) = active_sessions s.
Proof.
  apply (EngineFrame.retrieve_user_repositories_advances E active_sessions (fun _ m => m)); side.
Qed.

Lemma download_repository_enters (url : string) (s : state) :
  entered_methods (snd (download_repository E url s)) = entered_methods s ++ ["download_repository"].
Proof.
  apply (EngineFrame.download_repository_advances E entered_methods then_); side.
Qed.

Lemma download_repository_sessions (url : string) (s : state) :
  active_sessions (snd (download_repository E url s)) = active_sessions s.
Proof.
  apply (EngineFrame.download_repository_advances E active_sessions (fun _ m => m)); side.
Qed.

Lemma examine_codebase_enters (repo : string) (s : state) :
  entered_methods (snd (examine_codebase E repo s)) = entered_methods s ++ ["examine_codebase"].
Proof.
  apply (EngineFrame.examine_codebase_advances E entered_methods then_); side.
Qed.

Lemma examine_codebase_sessions (repo : string) (s : state) :
  active_sessions (snd (examine_codebase E repo s)) = active_sessions s.
Proof.
  apply (EngineFrame.examine_codebase_advances E active_sessions (fun _ m => m)); side.
Qed.

Lemma create_code_transformations_enters (prompt : string) (analysis : Analysis) (s : state) :
  entered_methods (snd (create_code_transformations E prompt analysis s)) = entered_methods s ++ ["create_code_transformations"].
Proof.
  apply (EngineFrame.create_code_transformations_advances E entered_methods then_); side.
Qed.

Lemma create_code_transformations_sessions (prompt : string) (analysis : Analysis) (s : state) :
  active_sessions (snd (create_code_transformations E prompt analysis s)) = active_sessions s.
Proof.
  apply (EngineFrame.create_code_transformations_advances E active_sessions (fun _ m => m)); side.
Qed.

Lemma implement_transformations_enters (repo : string) (ts : list CodeModification) (s : state) :
  entered_methods (snd (implement_transformations E repo ts s)) = entered_methods s ++ ["implement_transformations"].
Proof.
  apply (EngineFrame.implement_transformations_advances E entered_methods then_); side.
Qed.

Lemma implement_transformations_sessions (repo : string) (ts : list CodeModification) (s : state) :
  active_sessions (snd (implement_transformations E repo ts s)) = active_sessions s.
Proof.
  apply (EngineFrame.implement_transformations_advances E active_sessions (fun _ m => m)); side.
Qed.

Lemma run_code_validation_enters (repo : string) (s : state) :
  entered_methods (snd (run_code_validation E repo s)) = entered_methods s ++ ["run_code_validation"].
Proof.
  apply (EngineFrame.run_code_validation_advances E entered_methods then_); side.
Qed.

Lemma run_code_validation_sessions (repo : string) (s : state) :
  active_sessions (snd (run_code_validation E repo s)) = active_sessions s.
Proof.
  apply (EngineFrame.run_code_validation_advances E active_sessions (fun _ m => m)); side.
Qed.

Lemma commit_and_publish_enters (repo branch message token : string) (s : state) :
  entered_methods (snd (commit_and_publish E repo branch message token s)) = entered_methods s ++ ["commit_and_publish"].
Proof.
  apply (EngineFrame.commit_and_publish_advances E entered_methods then_); side.
Qed.

Lemma commit_and_publish_sessions (repo branch message token : string) (s : state) :
  active_sessions (snd (commit_and_publish E repo branch message token s)) = active_sessions s.
Proof.
  apply (EngineFrame.commit_and_publish_advances E active_sessions (fun _ m => m)); side.
Qed.

Lemma cleanup_resources_enters (s : state) :
  entered_methods (snd (cleanup_resources E s)) = entered_methods s ++ ["cleanup_resources"].
Proof.
  apply (EngineFrame.cleanup_resources_advances E entered_methods then_); side.
Qed.

Lemma cleanup_resources_sessions (s : state) :
  active_sessions (snd (cleanup_resources E s)) = active_sessions s.
Proof.
  apply (EngineFrame.cleanup_resources_advances E active_sessions (fun _ m => m)); side.
Qed.

End WithEnv.

End Stages.

(** ** Provisioning *)

Module ProvisionFacts.
Import Engine.

Ltac run :=
  cbv beta iota zeta delta
    [create_execution_environment local_environment download_repository implement_one
     run_code bind emit modify try_except get_self get_state update_self print ret raise lift
     fst snd];
  simpl.

(** The fallback, once the scratch directory can be made. *)
Lemma local_environment_made (E : Env) (s : state) (p : list string) (t' : Fs.tree) :
  scratch_made E s p t' ->
  exists s',
    local_environment E s = (inr (scratch_name p), s')
    /\ workspace_path (self s') = Some (scratch_name p)
    /\ files s' = t'
    /\ e2b_session (self s') = e2b_session (self s)
    /\ sandbox_open s' = sandbox_open s.
Proof.
  intros [Hp Ht]. unfold scratch_name. run. rewrite Hp. simpl. rewrite Ht. simpl.
  eexists. repeat split.
Qed.

(** The fallback raises only what making the scratch directory raises, and
    then it has changed nothing. *)
Lemma local_environment_raises (E : Env) (s : state) (e : exn) (s' : state) :
  local_environment E s = (inl e, s') ->
  s' = s /\ forall p t', ~ scratch_made E s p t'.
Proof.
  unfold scratch_made. run.
  destruct (mkdtemp E "code_transform_" (files s)) as [e0|p]; simpl.
  - intros H. injection H as _ <-. split; [reflexivity |]. intros p t' [Hp _]. discriminate.
  - destruct (Fs.mkdir _ p (files s)) as [e0|t] eqn:Ht; simpl; [| discriminate].
    intros H. injection H as _ <-. split; [reflexivity |].
    intros p' t' [Hp Ht']. injection Hp as <-. congruence.
Qed.

(** Whatever the sandbox does, provisioning returns when the scratch
    directory can be made. *)
Lemma provision_returns (E : Env) (s : state) (p : list string) (t' : Fs.tree) :
  scratch_made E s p t' ->
  exists name s', create_execution_environment E s = (inr name, s').
Proof.
  intros [Hp Ht]. run.
  destruct (E2B_AVAILABLE E); simpl;
    [| rewrite Hp; simpl; rewrite Ht; eexists _, _; reflexivity].
  destruct (e2b_api_key (self s)) as [key|];
    [| simpl; rewrite Hp; simpl; rewrite Ht; eexists _, _; reflexivity].
  destruct (String.eqb key EmptyString);
    [simpl; rewrite Hp; simpl; rewrite Ht; eexists _, _; reflexivity |].
  destruct (sandbox_new E key);
    [simpl; rewrite Hp; simpl; rewrite Ht; eexists _, _; reflexivity |].
  simpl.
  destruct (sandbox_aenter E key); simpl; [rewrite Hp; simpl; rewrite Ht |];
    eexists _, _; reflexivity.
Qed.

(** Then the scratch directory is returned and no session is recorded. *)
Lemma unreachable_falls_back (E : Env) (s : state) (p : list string) (t' : Fs.tree) :
  unreachable E s ->
  scratch_made E s p t' ->
  exists s',
    create_execution_environment E s = (inr (scratch_name p), s')
    /\ workspace_path (self s') = Some (scratch_name p)
    /\ e2b_session (self s') = e2b_session (self s).
Proof.
  unfold scratch_name. intros [H | [H | (key & e & Hk & Hn)]] [Hp Ht]; run.
  - rewrite H. simpl. rewrite Hp. simpl. rewrite Ht. eexists. repeat split.
  - destruct (E2B_AVAILABLE E); simpl;
      [| rewrite Hp; simpl; rewrite Ht; eexists; repeat split].
    destruct (e2b_api_key (self s)) as [key|]; simpl in H; [rewrite H |];
      simpl; rewrite Hp; simpl; rewrite Ht; eexists; repeat split.
  - destruct (E2B_AVAILABLE E); simpl;
      [| rewrite Hp; simpl; rewrite Ht; eexists; repeat split].
    rewrite Hk.
    destruct (String.eqb key EmptyString);
      [simpl; rewrite Hp; simpl; rewrite Ht; eexists; repeat split |].
    rewrite Hn. simpl. rewrite Hp. simpl. rewrite Ht. eexists. repeat split.
Qed.

End ProvisionFacts.

(** C7, where the code departs from it: when the sandbox object is made but
    entering its session raises, provisioning falls back to the scratch
    directory as the claim says (it returns its name whenever the directory
    can be made, and raises the error of making it otherwise), yet the
    platform keeps the sandbox object as its session,
    although the session was never opened; the stages that follow test that
    attribute and send their commands to the sandbox (here: the clone, and
    the write of a plan entry), leaving the local files alone. *)
Theorem failed_enter_keeps_session (E : Env) (s : state) (key : string) (e : exn) :
  E2B_AVAILABLE E = true ->
  e2b_api_key (self s) = Some key ->
  String.eqb key EmptyString = false ->
  sandbox_new E key = None ->
  sandbox_aenter E key = Some e ->
  let provisioned := Engine.create_execution_environment E s in
  (forall p t',
      scratch_made E s p t' ->
      fst provisioned = inr (scratch_name p)
      /\ workspace_path (self (snd provisioned)) = Some (scratch_name p)
      /\ files (snd provisioned) = t')
  /\ ((forall p t', ~ scratch_made E s p t') ->
      exists e0, fst provisioned = inl e0 /\ files (snd provisioned) = files s)
  /\ e2b_session (self (snd provisioned)) = Some key
  /\ sandbox_open (snd provisioned) = sandbox_open s
  /\ (forall url,
        sent (snd (Engine.download_repository E url (snd provisioned)))
        = sent s ++ ["git clone " +:+ url])
  /\ (forall repo t,
        operation t = JStr "create" ->
        let applied := Engine.implement_one E repo t (snd provisioned) in
        sent (snd applied) = sent s ++ [Engine.echo_command repo t]
        /\ files (snd applied) = files (snd provisioned)).
Proof.
  intros Hav Hkey Hne Hnew Henter. unfold scratch_name, scratch_made.
  ProvisionFacts.run.
  rewrite Hav. simpl. rewrite Hkey, Hne, Hnew. simpl. rewrite Henter. simpl.
  destruct (mkdtemp E "code_transform_" (files s)) as [e0|p0] eqn:Hmd; simpl.
  - split; [intros p t' [Hp _]; discriminate |].
    split; [intros _; now exists e0 |].
    repeat split.
    + intros url. now destruct (sandbox_run E (sent s) _).
    + rewrite H. simpl. now destruct (sandbox_run E (sent s) _).
    + rewrite H. simpl. now destruct (sandbox_run E (sent s) _).
  - destruct (Fs.mkdir _ p0 (files s)) as [e0|t0] eqn:Hmk; simpl.
    + split; [intros p t' [Hp Ht]; injection Hp as <-; congruence |].
      split; [intros _; now exists e0 |].
      repeat split.
      * intros url. now destruct (sandbox_run E (sent s) _).
      * rewrite H. simpl. now destruct (sandbox_run E (sent s) _).
      * rewrite H. simpl. now destruct (sandbox_run E (sent s) _).
    + split.
      { intros p t' [Hp Ht]. injection Hp as <-. rewrite Hmk in Ht. injection Ht as <-.
        now repeat split. }
      split; [intros Hno; destruct (Hno p0 t0); now split |].
      repeat split.
      * intros url. now destruct (sandbox_run E (sent s) _).
      * rewrite H. simpl. now destruct (sandbox_run E (sent s) _).
      * rewrite H. simpl. now destruct (sandbox_run E (sent s) _).
Qed.

Lemma failed_enter_keeps_session_witness :
  let provisioned := Engine.create_execution_environment enter_fails with_key in
  fst provisioned = inr "/tmp/code_transform_0"
  /\ e2b_session (self (snd provisioned)) = Some "e2b-key"
  /\ sandbox_open (snd provisioned) = false
  /\ sent (snd (Engine.download_repository enter_fails "https://github.com/octo/demo.git"
                  (snd provisioned)))
     = ["git clone https://github.com/octo/demo.git"].
Proof.
  destruct (failed_enter_keeps_session enter_fails with_key "e2b-key"
              (Exn "SandboxException" "cannot start sandbox")
              eq_refl eq_refl eq_refl eq_refl eq_refl) as (H1 & _ & H3 & H4 & H5 & _).
  intros provisioned.
  destruct (H1 ["tmp"; "code_transform_0"]
              (<[ ["tmp"; "code_transform_0"] := Dir ]> (files with_key)))
    as (Hname & _).
  { split; reflexivity. }
  split; [exact Hname | split; [exact H3 | split; [exact H4 | exact (H5 _)]]].
Defined.

(** ** Which methods a pipeline can have entered when it ends *)

Module Outcome.
Import Frame.

Lemma in_cat_all (l1 l2 : list (list string)) (x y : list string) :
  In x l1 -> In y l2 -> In (x ++ y) (cat_all l1 l2).
Proof.
  intros Hx Hy. unfold cat_all. apply in_flat_map. exists x. split; [assumption |].
  now apply in_map.
Qed.

Lemma outcome_bind {A B} (ok1 bad1 ok2 bad2 : list (list string)) (m : M A) (k : A -> M B) :
  outcome ok1 bad1 m -> (forall a, outcome ok2 bad2 (k a)) ->
  outcome (cat_all ok1 ok2) (bad1 ++ cat_all ok1 bad2) (bind m k).
Proof.
  intros Hm Hk s. unfold bind. destruct (Hm s) as (x & Hx & Hin).
  destruct (m s) as [[e|a] s1]; simpl in *.
  - exists x. split; [assumption |]. apply in_or_app. now left.
  - destruct (Hk a s1) as (y & Hy & Hiny). exists (x ++ y).
    rewrite Hy, Hx, app_assoc. split; [reflexivity |].
    destruct (fst (k a s1)); [apply in_or_app; right |]; now apply in_cat_all.
Qed.

Lemma outcome_try_except {A} (ok bad okh badh : list (list string)) (m : M A)
    (h : exn -> M A) :
  outcome ok bad m -> (forall e, outcome okh badh (h e)) ->
  outcome (ok ++ cat_all bad okh) (cat_all bad badh) (try_except m h).
Proof.
  intros Hm Hh s. unfold try_except. destruct (Hm s) as (x & Hx & Hin).
  destruct (m s) as [[e|a] s1]; simpl in *.
  - destruct (Hh e s1) as (y & Hy & Hiny). exists (x ++ y).
    rewrite Hy, Hx, app_assoc. split; [reflexivity |].
    destruct (fst (h e s1)); [| apply in_or_app; right]; now apply in_cat_all.
  - exists x. split; [assumption |]. apply in_or_app. now left.
Qed.

Lemma outcome_try_finally {A} (ok bad okf badf : list (list string)) (m : M A)
    (f : M unit) :
  outcome ok bad m -> outcome okf badf f ->
  outcome (cat_all ok okf) (cat_all bad okf ++ cat_all (ok ++ bad) badf) (try_finally m f).
Proof.
  intros Hm Hf s. unfold try_finally. destruct (Hm s) as (x & Hx & Hin).
  destruct (m s) as [r s1]; simpl in *.
  destruct (Hf s1) as (y & Hy & Hiny). exists (x ++ y).
  destruct (f s1) as [[e|[]] s2]; simpl in *; rewrite Hy, Hx, app_assoc;
    (split; [reflexivity |]).
  - apply in_or_app. right. apply in_cat_all; [| assumption].
    apply in_or_app. destruct r; [now right | now left].
  - destruct r; [apply in_or_app; left |]; now apply in_cat_all.
Qed.

(** A choice between two computations can end as either. *)
Lemma outcome_option {A B} (ok1 bad1 ok2 bad2 : list (list string)) (o : option B)
    (g : B -> M A) (f : M A) :
  (forall b, outcome ok1 bad1 (g b)) -> outcome ok2 bad2 f ->
  outcome (ok1 ++ ok2) (bad1 ++ bad2) (match o with Some b => g b | None => f end).
Proof.
  intros Hg Hf s. destruct o as [b|].
  - destruct (Hg b s) as (x & Hx & Hin). exists x. split; [assumption |].
    destruct (fst (g b s)); apply in_or_app; now left.
  - destruct (Hf s) as (x & Hx & Hin). exists x. split; [assumption |].
    destruct (fst (f s)); apply in_or_app; now right.
Qed.

(** A computation that enters no method. *)
Lemma outcome_quiet {A} (m : M A) : keeps entered_methods m -> outcome [[]] [[]] m.
Proof.
  intros H s. exists []. rewrite H, app_nil_r. split; [reflexivity |].
  destruct (fst (m s)); now left.
Qed.

(** An event or a line of output: no method entered, and no exception. *)
Lemma outcome_emit_quiet (a : action) :
  (forall s, entered_methods (set_trace (trace s ++ [a]) s) = entered_methods s) ->
  outcome [[]] [] (emit a).
Proof. intros H s. exists []. simpl. rewrite H, app_nil_r. split; [reflexivity | now left]. Qed.

Lemma outcome_print (line : string) : outcome [[]] [] (print line).
Proof. apply outcome_emit_quiet. intros s. apply Stages.entered_print. Qed.

Lemma outcome_yield (ev : sse) : outcome [[]] [] (yield ev).
Proof. apply outcome_emit_quiet. intros s. apply Stages.entered_yield. Qed.

(** A method, which enters itself and nothing else. *)
Lemma outcome_method {A} (name : string) (m : M A) :
  (forall s, entered_methods (snd (m s)) = entered_methods s ++ [name]) ->
  outcome [[name]] [[name]] m.
Proof.
  intros H s. exists [name]. split; [apply H |]. destruct (fst (m s)); now left.
Qed.

(** A method that cannot raise. *)
Lemma outcome_total_method {A} (name : string) (m : M A) :
  (forall s, entered_methods (snd (m s)) = entered_methods s ++ [name]) ->
  (forall s, exists a, fst (m s) = inr a) ->
  outcome [[name]] [] m.
Proof.
  intros H Ht s. exists [name]. split; [apply H |].
  destruct (Ht s) as [a ->]. now left.
Qed.

(** What holds of every list of [ok] and [bad] holds of the methods
    entered by a run that starts with none entered. *)
Lemma outcome_all {A} (P : list string -> bool) (ok bad : list (list string)) (m : M A) :
  outcome ok bad m ->
  forallb P (ok ++ bad) = true ->
  forall s, entered_methods s = [] -> P (entered_methods (snd (m s))) = true.
Proof.
  intros Hm HP s Hs. destruct (Hm s) as (x & -> & Hin). rewrite Hs. simpl.
  rewrite forallb_forall in HP. apply HP. apply in_or_app.
  destruct (fst (m s)); [now right | now left].
Qed.

(** The same for the runs that raise. *)
Lemma outcome_all_bad {A} (P : list string -> bool) (ok bad : list (list string)) (m : M A) :
  outcome ok bad m ->
  forallb P bad = true ->
  forall s e s', entered_methods s = [] -> m s = (inl e, s') -> P (entered_methods s') = true.
Proof.
  intros Hm HP s e s' Hs Hrun. destruct (Hm s) as (x & Hx & Hin).
  rewrite Hrun in Hx, Hin. simpl in *. rewrite Hx, Hs. simpl.
  rewrite forallb_forall in HP. now apply HP.
Qed.

End Outcome.

(** ** Validation and the command-line pipeline *)

Module PipelineFacts.
Import Engine Frame Outcome.

(** A handler that returns makes the whole [try] return. *)
Lemma try_except_returns {A} (m : M A) (h : exn -> M A) :
  (forall e s, exists a, fst (h e s) = inr a) ->
  forall s, exists a, fst (try_except m h s) = inr a.
Proof.
  intros Hh s. unfold try_except. destruct (m s) as [[e|a] s1]; [apply Hh | now exists a].
Qed.

Lemma entered_then_returns {A} (name : string) (m : M A) :
  (forall s, exists a, fst (m s) = inr a) ->
  forall s, exists a, fst (bind (emit (Enter name)) (fun _ => m) s) = inr a.
Proof. intros H s. unfold bind. simpl. apply H. Qed.

Lemma validation_never_raises (E : Env) (repo : string) (s : state) :
  exists v, fst (run_code_validation E repo s) = inr v.
Proof.
  apply entered_then_returns. apply try_except_returns. intros e s'. now eexists.
Qed.

Lemma cleanup_never_raises (E : Env) (s : state) :
  exists u, fst (cleanup_resources E s) = inr u.
Proof.
  apply entered_then_returns. apply try_except_returns. intros e s'. now eexists.
Qed.

Ltac quiet :=
  apply outcome_quiet;
  first
    [ intros ?; apply Stages.init_enters
    | intros ?; apply Stages.print_repos_enters
    | apply keeps_modify; intros ?; reflexivity
    | keeps_all ].

Ltac outcome_step :=
  lazymatch goal with
  | |- outcome _ _ (bind _ _) => eapply outcome_bind; [| intros ?]
  | |- outcome _ _ (try_except _ _) => eapply outcome_try_except; [| intros ?]
  | |- outcome _ _ (try_finally _ _) => eapply outcome_try_finally
  | |- outcome _ _ (print _) => apply outcome_print
  | |- outcome _ _ (yield _) => apply outcome_yield
  | |- outcome _ _ (setup_github_connection _ _) =>
      apply outcome_method; intros ?; apply Stages.setup_github_connection_enters
  | |- outcome _ _ (create_execution_environment _) =>
      apply outcome_method; intros ?; apply Stages.create_execution_environment_enters
  | |- outcome _ _ (retrieve_user_repositories _) =>
      apply outcome_method; intros ?; apply Stages.retrieve_user_repositories_enters
  | |- outcome _ _ (download_repository _ _) =>
      apply outcome_method; intros ?; apply Stages.download_repository_enters
  | |- outcome _ _ (examine_codebase _ _) =>
      apply outcome_method; intros ?; apply Stages.examine_codebase_enters
  | |- outcome _ _ (create_code_transformations _ _ _) =>
      apply outcome_method; intros ?; apply Stages.create_code_transformations_enters
  | |- outcome _ _ (implement_transformations _ _ _) =>
      apply outcome_method; intros ?; apply Stages.implement_transformations_enters
  | |- outcome _ _ (commit_and_publish _ _ _ _ _) =>
      apply outcome_method; intros ?; apply Stages.commit_and_publish_enters
  | |- outcome _ _ (run_code_validation _ _) =>
      apply outcome_total_method; intros ?;
      [apply Stages.run_code_validation_enters | apply validation_never_raises]
  | |- outcome _ _ (cleanup_resources _) =>
      apply outcome_total_method; intros ?;
      [apply Stages.cleanup_resources_enters | apply cleanup_never_raises]
  | |- outcome _ _ (match _ with Some _ => _ | None => _ end) =>
      eapply outcome_option; [intros ? |]
  | |- outcome _ _ _ => quiet
  end.

Ltac outcomes := cbv zeta; repeat outcome_step.

(** Once the plan is applied, [main] enters validation and then
    publication, whatever validation reports. *)
Lemma validate_and_publish_enters (E : Env) (repo prompt token : string) (s : state) :
  entered_methods (snd (validate_and_publish E repo prompt token s))
  = entered_methods s ++ ["run_code_validation"; "commit_and_publish"].
Proof.
  eassert (outcome _ _ (validate_and_publish E repo prompt token)) as Hout
    by (unfold validate_and_publish; outcomes).
  destruct (Hout s) as (x & -> & Hin). f_equal.
  destruct (fst (validate_and_publish E repo prompt token s)); vm_compute in Hin;
    repeat (destruct Hin as [<- | Hin]; [reflexivity |]); destruct Hin.
Qed.

Section WithEnv.

Context (E : Env) (token : string) (number : result Z) (prompt : string).

(** In every run of [main], publishing is entered right after
    validation, and the teardown right after the last stage reached. *)
Lemma main_publishes_after_validation (s : state) :
  entered_methods s = [] ->
  always_followed_by "run_code_validation" "commit_and_publish"
    (entered_methods (snd (main E token number prompt s))) = true.
Proof.
  eapply outcome_all.
  - unfold main, main_steps, validate_and_publish. outcomes.
  - vm_compute. reflexivity.
Qed.

(** The methods a run of [main] enters: none when the constructor raises,
    and otherwise the stages in order up to the one that raised, or all of
    them, and then the teardown. *)
Lemma main_enters_stages_in_order (s : state) :
  entered_methods s = [] ->
  In (entered_methods (snd (main E token number prompt s))) main_runs.
Proof.
  intros Hs.
  assert (one_of_main_runs (entered_methods (snd (main E token number prompt s))) = true) as H.
  { revert s Hs. eapply (outcome_all one_of_main_runs).
    - unfold main, main_steps, validate_and_publish. outcomes.
    - vm_compute. reflexivity. }
  apply existsb_exists in H as (l & Hl & Heq).
  apply bool_decide_eq_true in Heq. now rewrite Heq.
Qed.

End WithEnv.

End PipelineFacts.

(** C8, as stated, fails with a sandbox: the command is sent with no bound
    of this code's, and when the sandbox call runs out of time and raises,
    validation returns a result that says failed, with the text of the
    error, not one that says timed out. *)
Lemma remote_timeout_is_reported_failed :
  let run := Engine.run_code_validation sandbox_times_out "/home/user/demo" Demo.fresh_remote in
  fst run = inr (failed_with (Exn "TimeoutException" "sandbox timed out"))
  /\ fst run <> inr timed_out
  /\ sent (snd run)
     = ["cd /home/user/demo && python -m pytest --tb=short || echo 'No pytest found'"].
Proof. vm_compute. repeat split; [discriminate]. Qed.

(** C8, amended: without a sandbox the test run is given sixty seconds, and
    when it runs out of time validation returns (it does not raise) a result
    that says so, with the status completed; with a sandbox, an exception of
    the call, a timeout included, gives a result that says failed with the
    text of the error.  Validation raises in no case; [main], once the
    plan is applied, always enters validation and then publication; and the
    methods a run of [main] enters are none (the constructor raised), or its
    stages in order up to one other than validation and then the
    teardown. *)
Theorem validation_timeout_is_not_fatal (E : Env) (repo : string) (s : state) :
  (e2b_session (self s) = None ->
   fst (pytest E repo 60 (files s)) = ProcTimeout ->
   Engine.run_code_validation E repo s
   = (inr timed_out,
      set_files (snd (pytest E repo 60 (files s))) (entered "run_code_validation" s)))
  /\ (forall key e,
        e2b_session (self s) = Some key ->
        sandbox_run E (sent s) (Engine.pytest_command repo) = inl e ->
        fst (Engine.run_code_validation E repo s) = inr (failed_with e))
  /\ (forall repo' s', exists v, fst (Engine.run_code_validation E repo' s') = inr v)
  /\ (forall repo' prompt token s',
        entered_methods (snd (Engine.validate_and_publish E repo' prompt token s'))
        = entered_methods s' ++ ["run_code_validation"; "commit_and_publish"])
  /\ (forall token number prompt s0,
        entered_methods s0 = [] ->
        In (entered_methods (snd (Engine.main E token number prompt s0))) main_runs
        /\ always_followed_by "run_code_validation" "commit_and_publish"
             (entered_methods (snd (Engine.main E token number prompt s0))) = true).
Proof.
  split; [| split; [| split; [| split]]].
  - intros Hlocal Htimeout.
    unfold Engine.run_code_validation, bind, try_except, emit, modify, get_self, get_state, ret.
    simpl. rewrite Hlocal. simpl. rewrite Htimeout. reflexivity.
  - intros key e Hremote Hrun.
    unfold Engine.run_code_validation, Engine.run_code, bind, try_except, emit, modify,
      get_self, get_state, lift, ret.
    simpl. rewrite Hremote. simpl. rewrite Hrun. reflexivity.
  - intros repo' s'. apply PipelineFacts.validation_never_raises.
  - intros repo' prompt token s'. apply PipelineFacts.validate_and_publish_enters.
  - intros token number prompt s0 Hs0. split.
    + now apply PipelineFacts.main_enters_stages_in_order.
    + now apply PipelineFacts.main_publishes_after_validation.
Qed.

Lemma validation_timeout_is_not_fatal_witness :
  Engine.run_code_validation slow_tests "/w/r" Demo.fresh
  = (inr timed_out, entered "run_code_validation" Demo.fresh).
Proof.
  destruct (validation_timeout_is_not_fatal slow_tests "/w/r" Demo.fresh) as [Hlocal _].
  rewrite (Hlocal eq_refl eq_refl). reflexivity.
Defined.

(** A whole run of [main] with such tests: the change is published. *)
Example main_with_slow_tests :
  let s' := snd (Engine.main slow_tests "ghp" (inr 1) "add a.txt"
                   (set_trace [] (set_self Demo.new_platform
                      (set_files {[ [] := Dir; ["tmp"] := Dir ]} Demo.start)))) in
  entered_methods s'
  = ["setup_github_connection"; "create_execution_environment"; "retrieve_user_repositories";
     "download_repository"; "examine_codebase"; "create_code_transformations";
     "implement_transformations"; "run_code_validation"; "commit_and_publish";
     "cleanup_resources"]
  /\ In (Print "✅ Validation completed: completed") (trace s')
  /\ In (Print "🎉 Publication completed successfully!") (trace s').
Proof.
  vm_compute. split; [reflexivity |].
  split; repeat (first [left; reflexivity | right]).
Qed.

(** ** The streaming pipeline *)

Module WebFacts.
Import Frame Outcome.

Section WithEnv.

Context (E : Env) (session_id : string).

Ltac untouched :=
  intros ?; unfold session_ids;
  first
    [ rewrite Stages.init_sessions
    | rewrite Stages.setup_github_connection_sessions
    | rewrite Stages.create_execution_environment_sessions
    | rewrite Stages.download_repository_sessions
    | rewrite Stages.examine_codebase_sessions
    | rewrite Stages.create_code_transformations_sessions
    | rewrite Stages.implement_transformations_sessions
    | rewrite Stages.commit_and_publish_sessions ];
  reflexivity.

Lemma keeps_set_session_status (status : string) :
  keeps session_ids (Web.set_session_status session_id status).
Proof. intros s. unfold session_ids. simpl. apply dom_alter_L. Qed.

(** No step of the generator adds or removes a session. *)
Lemma event_steps_session_ids : keeps session_ids (Web.event_steps E session_id).
Proof.
  unfold Web.event_steps.
  repeat first
    [ keeps_step
    | apply keeps_set_session_status
    | apply keeps_modify; intros ?; reflexivity
    | untouched ].
Qed.

(** When the steps raise, the methods entered are an initial segment of
    the stages. *)
Lemma event_steps_raise_in_order (s : state) (e : exn) (s1 : state) :
  entered_methods s = [] ->
  Web.event_steps E session_id s = (inl e, s1) ->
  initial_segment web_stages (entered_methods s1) = true.
Proof.
  eapply (outcome_all_bad (initial_segment web_stages)).
  - unfold Web.event_steps. PipelineFacts.outcomes.
  - vm_compute. reflexivity.
Qed.

(** The teardown is not among them. *)
Lemma event_steps_raise_no_teardown (s : state) (e : exn) (s1 : state) :
  entered_methods s = [] ->
  Web.event_steps E session_id s = (inl e, s1) ->
  never_entered "cleanup_resources" (entered_methods s1) = true.
Proof.
  eapply (outcome_all_bad (never_entered "cleanup_resources")).
  - unfold Web.event_steps. PipelineFacts.outcomes.
  - vm_compute. reflexivity.
Qed.

End WithEnv.

End WebFacts.

(** C2 at a failing input: in a run with a sandbox where the plan's entry
    has no operation, the session is marked failed and the error is the last
    event, but no teardown precedes it: [cleanup_resources] is never entered
    and the sandbox session is still open when the stream ends. *)
Lemma web_failure_without_teardown :
  let run :=
    Web.event_generator
      (Demo.remote_env (JsonText.dq "{'transformations': [{'file_path': 'a.txt'}]}"))
      "session_1" Demo.start in
  s_status <$> active_sessions (snd run) !! "session_1" = Some "failed"
  /\ List.last (trace (snd run)) (Print EmptyString)
     = Yield (Web.error_event
                "Generation failed: Failed to create code transformations: 'operation'")
  /\ entered_methods (snd run)
     = ["setup_github_connection"; "create_execution_environment"; "download_repository";
        "examine_codebase"; "create_code_transformations"]
  /\ sandbox_open (snd run) = true.
Proof. vm_compute. repeat split; reflexivity. Qed.

(** C2, where the code departs from it: when a step of the streaming
    pipeline raises, the generator marks the session failed, and reports the
    failure as its last event, with the text [Generation failed: ] followed
    by the text of the error; the methods entered by then are an initial
    segment of the stages, so no later stage has run.  But there is no
    teardown before the report, nor after it: [cleanup_resources] is not
    entered, and the handler leaves the sandbox, the files and the platform
    object as the failed step left them, so a sandbox session that was
    opened stays open. *)
Theorem stage_failure_is_reported (E : Env) (session_id : string) (session_data : Session)
    (s : state) (e : exn) (s1 : state) :
  active_sessions s !! session_id = Some session_data ->
  entered_methods s = [] ->
  Web.event_steps E session_id s = (inl e, s1) ->
  exists s',
    Web.event_generator E session_id s = (inr tt, s')
    /\ s_status <$> active_sessions s' !! session_id = Some "failed"
    /\ trace s' = trace s1 ++ [Yield (Web.error_event ("Generation failed: " +:+ exn_str e))]
    /\ initial_segment web_stages (entered_methods s') = true
    /\ never_entered "cleanup_resources" (entered_methods s') = true
    /\ sandbox_open s' = sandbox_open s1
    /\ files s' = files s1
    /\ self s' = self s1.
Proof.
  intros Hsession Hfresh Hrun.
  assert (is_Some (active_sessions s1 !! session_id)) as [session_data' Hs1].
  { apply elem_of_dom.
    pose proof (WebFacts.event_steps_session_ids E session_id s) as Hids.
    rewrite Hrun in Hids. unfold session_ids in Hids. simpl in Hids.
    rewrite Hids. apply elem_of_dom. eauto. }
  unfold Web.event_generator, try_except. rewrite Hrun.
  eexists. split; [reflexivity |]. simpl. split; [| split; [| split; [| split]]].
  - rewrite lookup_alter_eq, Hs1. reflexivity.
  - reflexivity.
  - unfold entered_methods. simpl. rewrite enters_app. simpl. rewrite app_nil_r.
    now apply (WebFacts.event_steps_raise_in_order E session_id s e s1).
  - unfold entered_methods. simpl. rewrite enters_app. simpl. rewrite app_nil_r.
    now apply (WebFacts.event_steps_raise_no_teardown E session_id s e s1).
  - repeat split.
Qed.

Lemma stage_failure_is_reported_witness :
  exists s',
    Web.event_generator incomplete_reply "session_1" Demo.start = (inr tt, s')
    /\ s_status <$> active_sessions s' !! "session_1" = Some "failed"
    /\ List.last (trace s') (Print EmptyString)
       = Yield (Web.error_event
                  "Generation failed: Failed to create code transformations: 'operation'")
    /\ initial_segment web_stages (entered_methods s') = true
    /\ never_entered "cleanup_resources" (entered_methods s') = true.
Proof.
  destruct (stage_failure_is_reported incomplete_reply "session_1" Demo.a_session Demo.start
              (RuntimeError "Failed to create code transformations: 'operation'")
              (snd (Web.event_steps incomplete_reply "session_1" Demo.start)))
    as (s' & Hrun & Hstatus & Htrace & Hstages & Hteardown & _).
  - reflexivity.
  - reflexivity.
  - vm_compute. reflexivity.
  - exists s'. split; [exact Hrun |]. split; [exact Hstatus |].
    split; [| split; [exact Hstages | exact Hteardown]].
    rewrite Htrace. apply last_last.
Defined.

(** ** Teardown in the command-line pipeline *)

Module TeardownFacts.
Import Engine.

(** A step that raises ends the sequence it is in. *)
Lemma bind_raise {A B} (m : M A) (k : A -> M B) (s : state) (e : exn) (s' : state) :
  m s = (inl e, s') -> bind m k s = (inl e, s').
Proof. intros H. unfold bind. now rewrite H. Qed.

(** Teardown returns, and what it adds to the trace starts with its own
    entry. *)
Lemma cleanup_trace (E : Env) (s : state) :
  exists rest s',
    cleanup_resources E s = (inr tt, s')
    /\ trace s' = trace s ++ Enter "cleanup_resources" :: rest.
Proof.
  cbv beta iota zeta delta
    [cleanup_resources bind emit modify try_except get_self get_state print lift ret raise].
  simpl.
  repeat match goal with
         | |- context [match ?x with _ => _ end] =>
             lazymatch x with
             | context [match _ with _ => _ end] => fail
             | _ => destruct x; simpl
             end
         end;
    repeat match goal with u : unit |- _ => destruct u end;
    eexists _, _; (split; [reflexivity |]); simpl; rewrite <- ?app_assoc; reflexivity.
Qed.

(** In [main], once the platform object exists, a failure of the steps is
    printed and teardown is entered right after. *)
Lemma main_reports_then_tears_down (E : Env) (token : string) (number : result Z)
    (prompt : string) (s s2 : state) (e : exn) (s3 : state) :
  (print "🚀 Advanced AI-Powered Code Transformation System";;
   print "==================================================";;
   init E None None)%M s = (inr tt, s2) ->
  main_steps E token number prompt s2 = (inl e, s3) ->
  exists rest s',
    main E token number prompt s = (inr tt, s')
    /\ trace s' = trace s3 ++ Print ("❌ Error: " +:+ exn_str e)
                              :: Enter "cleanup_resources" :: rest.
Proof.
  intros Hinit Hsteps. unfold main.
  unfold bind in Hinit |- *. simpl in Hinit |- *.
  destruct (init E None None _) as [[e0|[]] s2'] eqn:Hi; [discriminate |].
  injection Hinit as ->.
  unfold try_finally, try_except. rewrite Hsteps. simpl.
  destruct (cleanup_trace E (set_trace (trace s3 ++ [Print ("❌ Error: " +:+ exn_str e)]) s3))
    as (rest & s' & -> & Htrace).
  exists rest, s'. split; [reflexivity |].
  rewrite Htrace. simpl. now rewrite <- app_assoc.
Qed.

End TeardownFacts.

(** * Further properties *)

(** ** Extraction and parsing *)

Module ExtractFacts.
Import PyStr Engine.

#[local] Arguments String.append !_ _ / : simpl nomatch.

Lemma take_all (s : string) : take (String.length s) s = s.
Proof. induction s as [|a s IH]; simpl; [reflexivity | now rewrite IH]. Qed.

Lemma rindex_of_end (c : ascii) (s : string) :
  rindex_of c (s +:+ String c EmptyString) = Some (String.length s).
Proof.
  rewrite (PyStrFacts.rindex_of_app_some c s (String c EmptyString) 0).
  - f_equal. lia.
  - simpl. now rewrite Ascii.eqb_refl.
Qed.

(** A text from an opening brace to a closing brace is extracted whole. *)
Lemma extract_json_braced (mid : string) :
  extract_json ("{" +:+ mid +:+ "}") = "{" +:+ mid +:+ "}".
Proof.
  unfold extract_json, find, rfind.
  change ("{" +:+ mid +:+ "}") with (String "{" (mid +:+ "}")).
  change (index_of "{" (String "{" (mid +:+ "}"))) with (Some 0%nat).
  change (String "{" (mid +:+ "}")) with (String "{" mid +:+ "}").
  rewrite rindex_of_end.
  replace (Z.of_nat (String.length (String "{" mid)) + 1)
    with (Z.of_nat (String.length (String "{" mid +:+ "}")))
    by (rewrite PyStrFacts.length_app; simpl; lia).
  change 0 with (Z.of_nat 0).
  rewrite PyStrFacts.slice_inside by lia.
  rewrite Nat.sub_0_r. apply take_all.
Qed.

(** Without a closing brace nothing is extracted. *)
Lemma extract_json_unclosed (s : string) :
  contains "}" s = false -> extract_json s = EmptyString.
Proof.
  intros H. apply PyStrFacts.contains_rindex_of in H.
  unfold extract_json, rfind. rewrite H. unfold slice, clamp. simpl.
  destruct (Z.ltb_spec (find s "{") 0);
    rewrite Z.min_l by lia;
    replace (Z.to_nat (0 - _)) with 0%nat by lia; reflexivity.
Qed.

End ExtractFacts.

(** X1: when the reply is prose without an opening brace, then an object
    text from its opening to its closing brace, then prose without a closing
    brace, the decoder is handed exactly the object text. *)
Theorem decoder_gets_the_object (E : Env) (before mid after : string) :
  PyStr.contains "{" before = false ->
  PyStr.contains "}" after = false ->
  Engine.extract_json (before +:+ ("{" +:+ mid +:+ "}") +:+ after) = "{" +:+ mid +:+ "}"
  /\ Engine.parse_plan E (before +:+ ("{" +:+ mid +:+ "}") +:+ after)
     = Engine.parse_plan E ("{" +:+ mid +:+ "}").
Proof.
  intros Hb Ha.
  assert (Engine.extract_json (before +:+ ("{" +:+ mid +:+ "}") +:+ after)
          = "{" +:+ mid +:+ "}") as Hx.
  { rewrite ParseFacts.extract_json_embedded; try assumption.
    - apply ExtractFacts.extract_json_braced.
    - reflexivity.
    - destruct (PyStr.contains "}" ("{" +:+ mid +:+ "}")) eqn:Hc; [reflexivity |].
      apply PyStrFacts.contains_rindex_of in Hc.
      change ("{" +:+ mid +:+ "}") with (String "{" mid +:+ "}") in Hc.
      rewrite ExtractFacts.rindex_of_end in Hc. discriminate. }
  split; [exact Hx |].
  unfold Engine.parse_plan. now rewrite Hx, ExtractFacts.extract_json_braced.
Qed.

Lemma decoder_gets_the_object_witness :
  Engine.extract_json
    ("Plan: " +:+ ("{" +:+ JsonText.dq "'transformations': []" +:+ "}") +:+ " Done {almost")
  = "{" +:+ JsonText.dq "'transformations': []" +:+ "}".
Proof.
  apply (decoder_gets_the_object (Demo.local_env EmptyString) "Plan: "
           (JsonText.dq "'transformations': []") " Done {almost"); reflexivity.
Defined.

(** X2: a reply with no closing brace gives the decoder the empty text,
    whatever else it holds; the outcome of parsing is then the decoder's
    verdict on the empty text. *)
Theorem unclosed_reply_decodes_nothing (E : Env) (reply : string) :
  PyStr.contains "}" reply = false ->
  Engine.extract_json reply = EmptyString
  /\ Engine.parse_plan E reply = Engine.parse_plan E EmptyString.
Proof.
  intros H. split; [now apply ExtractFacts.extract_json_unclosed |].
  unfold Engine.parse_plan.
  rewrite (ExtractFacts.extract_json_unclosed reply H).
  now rewrite (ExtractFacts.extract_json_unclosed EmptyString).
Qed.

Lemma unclosed_reply_decodes_nothing_witness :
  Engine.extract_json "Sorry, { is all I have" = EmptyString
  /\ is_ok (Engine.parse_plan (Demo.local_env EmptyString) "Sorry, { is all I have") = false.
Proof.
  destruct (unclosed_reply_decodes_nothing (Demo.local_env EmptyString)
              "Sorry, { is all I have" eq_refl) as [Hx Hp].
  split; [exact Hx |]. rewrite Hp. reflexivity.
Defined.

Module PlanFacts.
Import Engine.

(** What one entry must be for the loop body to return. *)
Lemma modification_of_inv (entry : json) (t : CodeModification) :
  modification_of entry = inr t -> keyed entry /\ carries entry t /\ filled entry t.
Proof.
  unfold modification_of, keyed, carries, filled.
  destruct entry as [| | | | | |m]; try discriminate. simpl.
  destruct (PyVal.dict_get "file_path" m) as [fp|]; [| discriminate].
  destruct (PyVal.dict_get "operation" m) as [op|]; [| discriminate].
  simpl. intros H. injection H as <-. simpl. repeat split; eauto.
Qed.

Lemma modifications_of_inv (mods : list json) :
  forall plan,
    modifications_of mods = inr plan ->
    Forall keyed mods /\ Forall2 (fun e t => carries e t /\ filled e t) mods plan.
Proof.
  induction mods as [|entry mods IH]; simpl; intros plan H.
  - injection H as <-. split; constructor.
  - destruct (modification_of entry) as [e|t] eqn:Ht; [discriminate |]. simpl in H.
    destruct (modifications_of mods) as [e|ts] eqn:Hts; [discriminate |]. simpl in H.
    injection H as <-. apply modification_of_inv in Ht as (Hk & Hc & Hf).
    destruct (IH ts eq_refl) as [Hks Hcs]. split; constructor; auto.
Qed.

(** Iterating over anything but a list gives no object. *)
Lemma iterate_objects (items : json) (mods : list json) :
  PyVal.iterate items = inr mods -> Forall keyed mods -> mods <> [] ->
  items = JArr mods.
Proof.
  destruct items as [| | | |s|l|m]; simpl; try discriminate; intros H Hk Hne.
  - injection H as <-. destruct s as [|a s]; [now destruct Hne |].
    simpl in Hk. inversion Hk as [|? ? [[? Hfp] _] _]. discriminate.
  - now injection H as <-.
  - injection H as <-. destruct m as [|[k v] m]; [now destruct Hne |].
    simpl in Hk. inversion Hk as [|? ? [[? Hfp] _] _]. discriminate.
Qed.

(** The loop stops at the first entry that lacks a key, and names it. *)
Lemma modifications_of_missing (before : list json) (m : list (string * json))
    (after : list json) (k : string) :
  Forall keyed before -> missing_key m = Some k ->
  modifications_of (before ++ JObj m :: after) = inl (Exn "KeyError" (PyVal.repr_str k)).
Proof.
  intros Hb Hm. induction Hb as [|entry before Hk _ IH]; simpl.
  - unfold modification_of, missing_key in *. simpl.
    destruct (PyVal.dict_get "file_path" m); [| now injection Hm as <-].
    destruct (PyVal.dict_get "operation" m); [discriminate | now injection Hm as <-].
  - destruct (ParseFacts.modification_of_keyed entry Hk) as (t & -> & _). simpl.
    now rewrite IH.
Qed.

End PlanFacts.

(** X3: whenever parsing returns a plan, the decoded value is an object, and
    iterating over what it has under [transformations] (the empty list when
    it has nothing there) gives entries that each have [file_path] and
    [operation]; the plan has one transformation per entry, in order, with
    the entry's path and operation, and with its content and description or
    the empty text where the entry has none.  A plan that is not empty comes
    from a list of such entries; an empty one also comes from an empty text
    or an empty object. *)
Theorem plan_only_from_keyed_entries (E : Env) (reply : string)
    (plan : list CodeModification) :
  Engine.parse_plan E reply = inr plan ->
  exists members entries,
    json_loads E (Engine.extract_json reply) = inr (JObj members)
    /\ PyVal.iterate (default (JArr []) (PyVal.dict_get "transformations" members))
       = inr entries
    /\ Forall keyed entries
    /\ Forall2 (fun e t => carries e t /\ filled e t) entries plan
    /\ (plan <> [] -> PyVal.dict_get "transformations" members = Some (JArr entries)).
Proof.
  unfold Engine.parse_plan. intros H.
  destruct (json_loads E (Engine.extract_json reply)) as [e|data]; [discriminate |].
  simpl in H. destruct data as [| | | | | |members]; try discriminate. simpl in H.
  destruct (PyVal.iterate _) as [e|mods] eqn:Hit; [discriminate |]. simpl in H.
  apply PlanFacts.modifications_of_inv in H as [Hk Hc].
  exists members, mods. split; [reflexivity |]. split; [exact Hit |].
  split; [exact Hk |]. split; [exact Hc |].
  intros Hne.
  assert (mods <> []) as Hmods by (intros ->; inversion Hc; congruence).
  pose proof (PlanFacts.iterate_objects _ _ Hit Hk Hmods) as Hitems.
  destruct (PyVal.dict_get "transformations" members) as [items|]; simpl in Hitems.
  - now rewrite Hitems.
  - injection Hitems as <-. now destruct Hmods.
Qed.

Lemma plan_only_from_keyed_entries_witness :
  exists members entries,
    json_loads (Demo.local_env EmptyString)
      (Engine.extract_json
         (JsonText.dq "{'transformations': [{'file_path': 'a.txt', 'operation': 'create'}]}"))
    = inr (JObj members)
    /\ PyVal.iterate (default (JArr []) (PyVal.dict_get "transformations" members))
       = inr entries
    /\ Forall keyed entries
    /\ Forall2 (fun e t => carries e t /\ filled e t) entries
         [Demo.change "a.txt" "create" EmptyString]
    /\ ([Demo.change "a.txt" "create" EmptyString] <> []
        -> PyVal.dict_get "transformations" members = Some (JArr entries)).
Proof.
  apply (plan_only_from_keyed_entries (Demo.local_env EmptyString)
           (JsonText.dq "{'transformations': [{'file_path': 'a.txt', 'operation': 'create'}]}")
           [Demo.change "a.txt" "create" EmptyString]).
  vm_compute. reflexivity.
Defined.

(** An empty text under [transformations] gives the empty plan. *)
Example empty_text_gives_empty_plan :
  Engine.parse_plan (Demo.local_env EmptyString) (JsonText.dq "{'transformations': ''}")
  = inr [].
Proof. vm_compute. reflexivity. Qed.

(** X4: when an entry is an object without [file_path], or with it but
    without [operation], and the entries before it have both, parsing fails
    with the [KeyError] of that key and no plan at all is returned; the
    method raises [RuntimeError] with the text
    [Failed to create code transformations: ] and the quoted key. *)
Theorem missing_key_fails_the_plan (E : Env) (prompt : string) (analysis : Analysis)
    (reply : string) (members : list (string * json)) (before : list json)
    (m : list (string * json)) (after : list json) (k : string) (s : state) :
  openai_client (self s) = true ->
  chat_completion E (Engine.context_text prompt analysis) analysis = inr (Some reply) ->
  json_loads E (Engine.extract_json reply) = inr (JObj members) ->
  PyVal.dict_get "transformations" members = Some (JArr (before ++ JObj m :: after)) ->
  Forall keyed before ->
  missing_key m = Some k ->
  Engine.parse_plan E reply = inl (Exn "KeyError" (PyVal.repr_str k))
  /\ fst (Engine.create_code_transformations E prompt analysis s)
     = inl (RuntimeError ("Failed to create code transformations: " +:+ PyVal.repr_str k)).
Proof.
  intros Hclient Hreply Hdata Hitems Hbefore Hmiss.
  assert (Engine.parse_plan E reply = inl (Exn "KeyError" (PyVal.repr_str k))) as Hp.
  { unfold Engine.parse_plan. rewrite Hdata. simpl. rewrite Hitems. simpl.
    now apply PlanFacts.modifications_of_missing. }
  split; [exact Hp |].
  unfold Engine.create_code_transformations, bind, emit, modify, get_self, try_except, lift.
  simpl. rewrite Hclient. simpl. rewrite Hreply, Hp. reflexivity.
Qed.

Lemma missing_key_fails_the_plan_witness :
  let reply :=
    JsonText.dq
      "{'transformations': [{'file_path': 'a.txt', 'operation': 'create'}, {'file_path': 'b.txt'}]}" in
  fst (Engine.create_code_transformations (Demo.local_env reply) "p" Demo.no_analysis Demo.start)
  = inl (RuntimeError "Failed to create code transformations: 'operation'").
Proof.
  intros reply.
  apply (missing_key_fails_the_plan (Demo.local_env reply) "p" Demo.no_analysis reply
           [("transformations",
             JArr ([JObj [("file_path", JStr "a.txt"); ("operation", JStr "create")]]
                   ++ JObj [("file_path", JStr "b.txt")] :: []))]
           [JObj [("file_path", JStr "a.txt"); ("operation", JStr "create")]]
           [("file_path", JStr "b.txt")] [] "operation" Demo.start).
  - reflexivity.
  - reflexivity.
  - vm_compute. reflexivity.
  - reflexivity.
  - repeat constructor; simpl; eauto.
  - reflexivity.
Defined.

(** ** More on plan application *)

(** X5: with a sandbox session whose calls all return, applying a plan sends
    exactly one command per entry that has a known operation, in plan order
    (a write for create and modify, a removal for delete, nothing for any
    other operation), returns the path of every entry, and leaves the local
    files alone. *)
Theorem remote_apply_sends_commands (E : Env) (repo key : string)
    (plan : list CodeModification) (s : state) :
  sandbox_answers E ->
  e2b_session (self s) = Some key ->
  let applied := Engine.implement_transformations E repo plan s in
  fst applied = inr (List.map file_path plan)
  /\ sent (snd applied) = sent s ++ omap (command_of repo) plan
  /\ files (snd applied) = files s.
Proof.
  intros H Hs. cbv zeta.
  unfold Engine.implement_transformations, bind, try_except, emit, modify.
  destruct (RemoteSteps.implement_loop_remote E repo key plan H []
              (entered "implement_transformations" s) Hs) as (s' & Hrun & Hsent & Hfiles).
  unfold entered in Hrun. rewrite Hrun. simpl. repeat split; assumption.
Qed.

Lemma remote_apply_sends_commands_witness :
  let applied :=
    Engine.implement_transformations (Demo.remote_env EmptyString) "/home/user/demo"
      [Demo.change "a.txt" "create" "A"; Demo.change "b.txt" "rename" "B"; deletion "c.txt"]
      Demo.fresh_remote in
  fst applied = inr [JStr "a.txt"; JStr "b.txt"; JStr "c.txt"]
  /\ sent (snd applied) = ["echo 'A' > /home/user/demo/a.txt"; "rm -f /home/user/demo/c.txt"]
  /\ files (snd applied) = files Demo.fresh_remote.
Proof.
  apply (remote_apply_sends_commands (Demo.remote_env EmptyString) "/home/user/demo" "e2b-key"
           [Demo.change "a.txt" "create" "A"; Demo.change "b.txt" "rename" "B"; deletion "c.txt"]
           Demo.fresh_remote).
  - intros history cmd. reflexivity.
  - reflexivity.
Defined.

(** X6: on the local path, after a create or a modify that returns, reading
    the target gives the content written, whatever was there before. *)
Theorem local_write_then_read (E : Env) (repo : string) (t : CodeModification)
    (fp x : string) (s s' : state) :
  e2b_session (self s) = None ->
  file_path t = JStr fp ->
  content t = JStr x ->
  writes t = true ->
  Engine.implement_one E repo t s = (inr tt, s') ->
  Fs.read (Fs.join repo fp) (files s') = Some x.
Proof.
  intros Hlocal Hfp Hx Hw.
  unfold Engine.implement_one. unfold bind at 1. unfold get_self. cbv beta iota.
  rewrite Hlocal. unfold bind at 1. unfold lift, Engine.full_path_of. rewrite Hfp.
  cbv beta iota. rewrite (LocalFacts.content_of_text t x Hx).
  assert (forall s0 s1, Engine.write_file (Fs.join repo fp) (JStr x) s0 = (inr tt, s1) ->
                        Fs.read (Fs.join repo fp) (files s1) = Some x) as Hwrite.
  { intros s0 s1 H. apply LocalFacts.write_file_inv in H as (p & Hr & Hp & ->). simpl.
    unfold Fs.read. rewrite (FsFacts.resolve_insert_file _ p p x _ Hp Hr).
    now rewrite lookup_insert_eq. }
  unfold writes in Hw.
  destruct (Engine.eq_str (operation t) "create").
  - unfold bind. destruct (Engine.makedirs _ s) as [[e|[]] s1]; [discriminate |].
    apply Hwrite.
  - simpl in Hw. rewrite Hw. apply Hwrite.
Qed.

Lemma local_write_then_read_witness :
  Fs.read "/w/r/src/x.py"
    (files (snd (Engine.implement_one (Demo.local_env EmptyString) "/w/r"
                   (Demo.change "src/x.py" "create" "print(1)") Demo.fresh)))
  = Some "print(1)".
Proof.
  apply (local_write_then_read (Demo.local_env EmptyString) "/w/r"
           (Demo.change "src/x.py" "create" "print(1)") "src/x.py" "print(1)" Demo.fresh);
    reflexivity.
Defined.

(** X7: on the local path, a delete that returns leaves nothing at the
    target, and a second delete of the same path changes nothing: a missing
    target is skipped, not an error. *)
Theorem local_delete_twice (E : Env) (repo : string) (t : CodeModification)
    (fp : string) (s s' : state) :
  e2b_session (self s) = None ->
  file_path t = JStr fp ->
  operation t = JStr "delete" ->
  Engine.implement_one E repo t s = (inr tt, s') ->
  Fs.exists_ (Fs.join repo fp) (files s') = false
  /\ Engine.implement_one E repo t s' = (inr tt, s').
Proof.
  intros Hlocal Hfp Hop.
  assert (forall s0, e2b_session (self s0) = None ->
            Engine.implement_one E repo t s0 = Engine.remove_if_exists (Fs.join repo fp) s0)
    as Hone.
  { intros s0 H0. unfold Engine.implement_one. unfold bind at 1. unfold get_self.
    cbv beta iota. rewrite H0. unfold bind at 1. unfold lift, Engine.full_path_of.
    rewrite Hfp. cbv beta iota. rewrite Hop. reflexivity. }
  rewrite (Hone s Hlocal).
  assert (forall s0, Fs.exists_ (Fs.join repo fp) (files s0) = false ->
            Engine.remove_if_exists (Fs.join repo fp) s0 = (inr tt, s0)) as Hskip.
  { intros s0 H0. unfold Engine.remove_if_exists, bind, get_state. now rewrite H0. }
  intros Hrun.
  assert (Fs.exists_ (Fs.join repo fp) (files s') = false /\ self s' = self s) as [Hgone Hself].
  { revert Hrun. unfold Engine.remove_if_exists, bind, get_state, lift, modify.
    destruct (Fs.exists_ (Fs.join repo fp) (files s)) eqn:Hex.
    - unfold Fs.remove. unfold Fs.exists_ in Hex.
      destruct (Fs.resolve (Fs.join repo fp) (files s)) as [e|p] eqn:Hr; [discriminate |].
      destruct (files s !! p) as [[|d]|] eqn:Hp; try discriminate.
      intros H. injection H as <-. simpl. split; [| reflexivity].
      unfold Fs.exists_.
      rewrite (LocalFacts.resolve_delete_file _ p p (files s)) by congruence.
      rewrite lookup_delete_eq. apply bool_decide_eq_false. now intros [x Hx].
    - intros H. injection H as <-. now split. }
  split; [assumption |].
  rewrite Hone by congruence. now apply Hskip.
Qed.

Lemma local_delete_twice_witness :
  let t := deletion "a.txt" in
  let s1 := snd (Engine.implement_one (Demo.local_env EmptyString) "/w/r"
                   (Demo.change "a.txt" "create" "x") Demo.fresh) in
  let s2 := snd (Engine.implement_one (Demo.local_env EmptyString) "/w/r" t s1) in
  Fs.exists_ "/w/r/a.txt" (files s1) = true
  /\ Fs.exists_ "/w/r/a.txt" (files s2) = false
  /\ Engine.implement_one (Demo.local_env EmptyString) "/w/r" t s2 = (inr tt, s2).
Proof.
  intros t s1 s2. split; [reflexivity |].
  apply (local_delete_twice (Demo.local_env EmptyString) "/w/r" t "a.txt" s1 s2);
    reflexivity.
Defined.

(** X8: on the local path, whether it returns or raises, applying one
    transformation never removes a directory nor turns one into a file, and
    only a create can add one: after any other operation the directories
    are the ones there were. *)
Theorem local_apply_keeps_directories (E : Env) (repo : string) (t : CodeModification)
    (s : state) :
  e2b_session (self s) = None ->
  let after := files (snd (Engine.implement_one E repo t s)) in
  (forall q, files s !! q = Some Dir -> after !! q = Some Dir)
  /\ (Engine.eq_str (operation t) "create" = false -> same_directories (files s) after).
Proof.
  intros Hlocal. cbv zeta.
  rewrite LocalFacts.implement_one_local by assumption.
  remember (Engine.full_path_of repo t) as target eqn:Ht. clear Ht.
  unfold bind at 1 3. unfold lift.
  destruct target as [e|full];
    [split; [trivial | intros _; apply DirectoryFacts.same_directories_refl] |].
  cbv beta iota.
  destruct (Engine.eq_str (operation t) "create").
  - split; [| discriminate]. intros q Hq. unfold bind.
    pose proof (DirectoryFacts.makedirs_directories (Fs.dirname full) s q Hq) as Hm.
    destruct (Engine.makedirs (Fs.dirname full) s) as [[e|[]] s1]; [exact Hm |].
    now apply DirectoryFacts.write_file_directories.
  - assert (forall X : gmap (list string) node,
              same_directories (files s) X ->
              (forall q, files s !! q = Some Dir -> X !! q = Some Dir)
              /\ (false = false -> same_directories (files s) X)) as Hboth.
    { intros X HX. split; [intros q; apply HX | trivial]. }
    apply Hboth.
    destruct (Engine.eq_str (operation t) "modify");
      [apply DirectoryFacts.write_file_directories |].
    destruct (Engine.eq_str (operation t) "delete");
      [apply DirectoryFacts.remove_if_exists_directories |
       apply DirectoryFacts.same_directories_refl].
Qed.

Lemma local_apply_keeps_directories_witness :
  let after :=
    files (snd (Engine.implement_one (Demo.local_env EmptyString) "/w/r"
                  (Demo.change "src/x.py" "modify" "print(1)") Demo.fresh)) in
  same_directories (files Demo.fresh) after.
Proof.
  intros after.
  apply (local_apply_keeps_directories (Demo.local_env EmptyString) "/w/r"
           (Demo.change "src/x.py" "modify" "print(1)") Demo.fresh); reflexivity.
Defined.

(** X9: on the local path an absolute file path is used as it stands: the
    repository path plays no part, so the entry is applied outside the
    clone. *)
Theorem absolute_path_leaves_the_repository (E : Env) (repo repo' : string)
    (t : CodeModification) (fp : string) (s : state) :
  e2b_session (self s) = None ->
  file_path t = JStr fp ->
  PyStr.startswith fp "/" = true ->
  Engine.implement_one E repo t s = Engine.implement_one E repo' t s
  /\ Engine.full_path_of repo t = inr fp.
Proof.
  intros Hlocal Hfp Habs.
  assert (forall r, Engine.full_path_of r t = inr fp) as Hfull.
  { intros r. unfold Engine.full_path_of, Fs.join. now rewrite Hfp, Habs. }
  split; [| apply Hfull].
  rewrite !LocalFacts.implement_one_local by assumption.
  unfold bind at 1 3. unfold lift. now rewrite !Hfull.
Qed.

Lemma absolute_path_leaves_the_repository_witness :
  let s' := snd (Engine.implement_one (Demo.local_env EmptyString) "/w/r"
                   (Demo.change "/w/outside.txt" "create" "x") Demo.fresh) in
  Fs.read "/w/outside.txt" (files s') = Some "x"
  /\ Engine.full_path_of "/w/r" (Demo.change "/w/outside.txt" "create" "x")
     = inr "/w/outside.txt".
Proof.
  intros s'. split; [reflexivity |].
  apply (absolute_path_leaves_the_repository (Demo.local_env EmptyString) "/w/r" "/elsewhere"
           (Demo.change "/w/outside.txt" "create" "x") "/w/outside.txt" Demo.fresh);
    reflexivity.
Defined.

(** ** Validation, publication and teardown *)

(** X10: validation never raises and reports one of two statuses; it
    reports failed exactly when running the tests raised: locally when the
    subprocess raised something other than a timeout or a missing program,
    with a sandbox when the call to it raised.  A test run that ends is
    completed, whatever it printed.  The platform object is left as it was;
    the local files are the ones the local test run leaves, and with a
    sandbox they are not touched. *)
Theorem validation_fails_only_on_exception (E : Env) (repo : string) (s : state) :
  exists v s',
    Engine.run_code_validation E repo s = (inr v, s')
    /\ (validation_status v = "completed" \/ validation_status v = "failed")
    /\ (e2b_session (self s) = None ->
        (validation_status v = "failed"
         <-> exists e, fst (pytest E repo 60 (files s)) = ProcRaised e)
        /\ files s' = snd (pytest E repo 60 (files s))
        /\ sent s' = sent s)
    /\ (is_Some (e2b_session (self s)) ->
        (validation_status v = "failed"
         <-> is_ok (sandbox_run E (sent s) (Engine.pytest_command repo)) = false)
        /\ files s' = files s
        /\ sent s' = sent s ++ [Engine.pytest_command repo])
    /\ self s' = self s.
Proof.
  unfold Engine.run_code_validation, Engine.run_code, bind, try_except, emit, modify,
    get_self, get_state, lift, ret, raise.
  simpl.
  destruct (e2b_session (self s)) as [key|] eqn:Hs; simpl.
  - destruct (sandbox_run E (sent s) (Engine.pytest_command repo)) as [e|r]; simpl;
      eexists _, _; (split; [reflexivity |]); simpl;
      (split; [auto |]); (split; [discriminate |]); (split; [| auto]); intros _;
      (split; [| split; reflexivity]); split; (discriminate || reflexivity).
  - destruct (pytest E repo 60 (files s)) as [[out| | |e] t] eqn:Hp; simpl;
      eexists _, _; (split; [reflexivity |]); simpl;
      (split; [auto |]);
      (split; [| split; [intros [x Hx]; discriminate | auto]]);
      intros _; (split; [| split; reflexivity]);
      split; try discriminate; try (intros [x Hx]; discriminate); eauto.
Qed.

(** ** Publication *)

Module PublishFacts.
Import Engine.

Lemma run_code_eq (E : Env) (cmd : string) (s : state) :
  run_code E cmd s = (sandbox_run E (sent s) cmd, set_sent (sent s ++ [cmd]) s).
Proof. reflexivity. Qed.

(** The commands are sent in order up to the first that fails. *)
Lemma run_commands_prefix (E : Env) (cmds : list string) :
  forall s,
    let r := run_commands E cmds s in
    exists k,
      sent (snd r) = sent s ++ firstn k cmds
      /\ files (snd r) = files s
      /\ match fst r with
         | inr _ => k = List.length cmds
         | inl e =>
             (0 < k <= List.length cmds)%nat
             /\ (sandbox_answers E ->
                 exists cmd, List.last (sent (snd r)) EmptyString = cmd
                             /\ e = RuntimeError ("Git command failed: " +:+ cmd))
         end.
Proof.
  induction cmds as [|c rest IH]; intros s; cbv zeta.
  - exists 0%nat. simpl. now rewrite app_nil_r.
  - simpl. unfold bind. rewrite !run_code_eq.
    destruct (sandbox_run E (sent s) c) as [e|r] eqn:Hrun.
    + exists 1%nat. simpl. split; [reflexivity |]. split; [reflexivity |].
      split; [lia |].
      intros Hanswers. specialize (Hanswers (sent s) c). rewrite Hrun in Hanswers.
      discriminate.
    + destruct (error r).
      * exists 1%nat. simpl. split; [reflexivity |]. split; [reflexivity |].
        split; [lia |].
        intros _. exists c. now rewrite last_last.
      * destruct (IH (set_sent (sent s ++ [c]) s)) as (k & Hsent & Hfiles & Hres).
        exists (S k). rewrite Hsent, Hfiles. simpl. rewrite <- app_assoc.
        split; [reflexivity |]. split; [reflexivity |].
        destruct (fst (run_commands E rest (set_sent (sent s ++ [c]) s))) as [e|[]].
        -- destruct Hres as [Hk Hmsg]. split; [lia |].
           intros Hanswers. destruct (Hmsg Hanswers) as (cmd & Hlast & ->).
           exists cmd. split; [| reflexivity].
           rewrite Hsent in Hlast. simpl in Hlast. now rewrite <- app_assoc in Hlast.
        -- now rewrite Hres.
Qed.

(** With a sandbox session, publication is the five commands. *)
Lemma commit_and_publish_remote (E : Env) (repo branch message token key : string)
    (s : state) :
  e2b_session (self s) = Some key ->
  commit_and_publish E repo branch message token s
  = match run_commands E (publish_commands repo branch message)
            (entered "commit_and_publish" s) with
    | (inl e, s1) => (inl (RuntimeError ("Failed to commit and publish: " +:+ exn_str e)), s1)
    | (inr _, s1) => (inr (published branch message), s1)
    end.
Proof.
  intros Hs.
  unfold commit_and_publish, try_except, bind, emit, modify, get_self, ret, raise.
  cbv beta iota. cbn [self set_trace]. rewrite Hs.
  unfold publish_commands, entered.
  now destruct (run_commands E _ _) as [[e|[]] s1].
Qed.

End PublishFacts.

(** X11: with a sandbox session, publication sends the five commands in
    order and stops at the first that fails: what was sent is an initial
    segment of them.  When all went through the result says success; when
    not, the error is a [RuntimeError] that starts with
    [Failed to commit and publish: ] and, if the sandbox call itself
    returned, names the command sent last.  The token is not used and the
    local files are not touched. *)
Theorem remote_publish_stops_at_first_failure (E : Env)
    (repo branch message token key : string) (s : state) :
  e2b_session (self s) = Some key ->
  let run := Engine.commit_and_publish E repo branch message token s in
  exists k,
    sent (snd run) = sent s ++ firstn k (publish_commands repo branch message)
    /\ files (snd run) = files s
    /\ match fst run with
       | inr result => k = 5%nat /\ result = published branch message
       | inl e =>
           (0 < k <= 5)%nat
           /\ exists msg,
                e = RuntimeError ("Failed to commit and publish: " +:+ msg)
                /\ (sandbox_answers E ->
                    msg = "Git command failed: " +:+ List.last (sent (snd run)) EmptyString)
       end.
Proof.
  intros Hs. cbv zeta.
  rewrite (PublishFacts.commit_and_publish_remote E repo branch message token key s Hs).
  pose proof (PublishFacts.run_commands_prefix E (publish_commands repo branch message)
                (entered "commit_and_publish" s)) as Hp.
  cbv zeta in Hp.
  destruct (Engine.run_commands E _ _) as [[e|[]] s1]; simpl in Hp |- *;
    destruct Hp as (k & Hsent & Hfiles & Hres); exists k;
    (split; [exact Hsent |]); (split; [exact Hfiles |]).
  - destruct Hres as [Hk Hmsg]. split; [exact Hk |].
    exists (exn_str e). split; [reflexivity |].
    intros Hanswers. destruct (Hmsg Hanswers) as (cmd & <- & ->). reflexivity.
  - split; [exact Hres | reflexivity].
Qed.

Lemma remote_publish_stops_at_first_failure_witness :
  let run :=
    Engine.commit_and_publish (Demo.remote_env EmptyString) "/home/user/demo" "b" "m" "ghp"
      Demo.fresh_remote in
  sent (snd run) = publish_commands "/home/user/demo" "b" "m"
  /\ fst run = inr (published "b" "m").
Proof.
  intros run.
  destruct (remote_publish_stops_at_first_failure (Demo.remote_env EmptyString)
              "/home/user/demo" "b" "m" "ghp" "e2b-key" Demo.fresh_remote eq_refl)
    as (k & Hsent & _ & Hres).
  fold run in Hsent, Hres.
  assert (fst run = inr (published "b" "m")) as Hrun by reflexivity.
  rewrite Hrun in Hres. destruct Hres as [-> _].
  split; [exact Hsent | exact Hrun].
Defined.
Module CleanupFacts.
Import Engine.

Lemma is_prefix_refl (p : list string) : Fs.is_prefix p p = true.
Proof. induction p as [|a p IH]; simpl; [reflexivity |]. now rewrite String.eqb_refl. Qed.

(** What is left of a tree once everything under [p] is taken away. *)
Lemma lookup_pruned (t : gmap (list string) node) (p q : list string) :
  filter (fun kv => negb (Fs.is_prefix p (fst kv)) = true) t !! q
  = if Fs.is_prefix p q then None else t !! q.
Proof.
  destruct (Fs.is_prefix p q) eqn:Hq.
  - apply map_lookup_filter_None. right. intros x _. simpl. now rewrite Hq.
  - destruct (t !! q) as [x|] eqn:Hx.
    + apply map_lookup_filter_Some. split; [assumption |]. simpl. now rewrite Hq.
    + apply map_lookup_filter_None. now left.
Qed.

(** A path that resolved before resolves to the same place afterwards, or
    not at all. *)
Lemma walk_pruned (path : string) (p : list string) (comps : list string) :
  forall (t : gmap (list string) node) (cur p0 : list string),
    Fs.walk false path t cur comps = inr (t, p0) ->
    Fs.walk false path (filter (fun kv => negb (Fs.is_prefix p (fst kv)) = true) t) cur comps
    = inr (filter (fun kv => negb (Fs.is_prefix p (fst kv)) = true) t, p0)
    \/ exists e,
         Fs.walk false path (filter (fun kv => negb (Fs.is_prefix p (fst kv)) = true) t)
           cur comps = inl e.
Proof.
  induction comps as [|c rest IH]; intros t cur p0 H; simpl in H |- *.
  - injection H as <-. now left.
  - rewrite lookup_pruned.
    destruct (t !! cur) as [[|d]|] eqn:Hcur; try discriminate.
    destruct (Fs.is_prefix p cur); [right; eauto |].
    destruct (Fs.is_dot c); [now apply IH |].
    destruct (String.eqb c ".."); [now apply IH |].
    assert (Fs.walk false path t (cur ++ [c]) rest = inr (t, p0)) as H'
      by (now destruct (t !! (cur ++ [c]))).
    destruct (filter _ t !! (cur ++ [c])); now apply IH.
Qed.

Lemma exists_pruned (ws : string) (p : list string) (t : gmap (list string) node) :
  Fs.resolve ws t = inr p ->
  Fs.exists_ ws (filter (fun kv => negb (Fs.is_prefix p (fst kv)) = true) t) = false.
Proof.
  unfold Fs.exists_, Fs.resolve. intros H.
  destruct (String.eqb ws EmptyString); [discriminate |].
  destruct (Fs.walk false ws t [] (PyStr.split "/" ws)) as [e|[t0 p0]] eqn:Hw; [discriminate |].
  injection H as ->.
  pose proof (FsFacts.walk_false_tree _ _ _ _ _ _ Hw) as ->.
  destruct (walk_pruned ws p _ _ _ _ Hw) as [-> | [e ->]]; [| reflexivity].
  rewrite lookup_pruned, is_prefix_refl. apply bool_decide_eq_false. now intros [x Hx].
Qed.

(** Teardown when there is no sandbox session and the scratch directory
    is there. *)
Lemma cleanup_local (E : Env) (s : state) (ws : string) (p : list string) :
  e2b_session (self s) = None ->
  workspace_path (self s) = Some ws ->
  Fs.resolve ws (files s) = inr p ->
  files s !! p = Some Dir ->
  exists s',
    cleanup_resources E s = (inr tt, s')
    /\ files s' = filter (fun kv => negb (Fs.is_prefix p (fst kv)) = true) (files s)
    /\ self s' = self s.
Proof.
  intros Hs Hws Hr Hp.
  assert (String.eqb ws EmptyString = false) as Hne.
  { unfold Fs.resolve in Hr. now destruct (String.eqb ws EmptyString). }
  assert (Fs.exists_ ws (files s) = true) as Hex.
  { unfold Fs.exists_. rewrite Hr, Hp. now apply bool_decide_eq_true. }
  unfold cleanup_resources, try_except, bind, emit, modify, get_self, get_state, lift, ret,
    print, raise.
  cbv beta iota. cbn [self files set_trace]. rewrite Hs, Hws. cbv beta iota.
  cbn [self files set_trace]. rewrite Hne, Hex. cbn [negb andb].
  unfold Fs.rmtree. rewrite Hr, Hp. cbv beta iota.
  eexists. split; [reflexivity |]. now split.
Qed.

(** Teardown when there is nothing at the scratch path. *)
Lemma cleanup_nothing_left (E : Env) (s : state) (ws : string) :
  e2b_session (self s) = None ->
  workspace_path (self s) = Some ws ->
  Fs.exists_ ws (files s) = false ->
  cleanup_resources E s = (inr tt, entered "cleanup_resources" s).
Proof.
  intros Hs Hws Hex.
  unfold cleanup_resources, try_except, bind, emit, modify, get_self, get_state, lift, ret,
    print, raise.
  cbv beta iota. cbn [self files set_trace]. rewrite Hs, Hws. cbv beta iota.
  cbn [self files set_trace]. rewrite Hex, andb_false_r. reflexivity.
Qed.

End CleanupFacts.

(** X12: without a sandbox session, teardown removes the scratch directory
    with all that is under it and nothing else; the platform object is left
    as it was, still naming the directory, and a second teardown finds
    nothing to remove and changes no file. *)
Theorem teardown_removes_the_workspace (E : Env) (s : state) (ws : string)
    (p : list string) :
  e2b_session (self s) = None ->
  workspace_path (self s) = Some ws ->
  Fs.resolve ws (files s) = inr p ->
  files s !! p = Some Dir ->
  exists s',
    Engine.cleanup_resources E s = (inr tt, s')
    /\ Fs.exists_ ws (files s') = false
    /\ (forall q, files s' !! q = if Fs.is_prefix p q then None else files s !! q)
    /\ self s' = self s
    /\ Engine.cleanup_resources E s' = (inr tt, entered "cleanup_resources" s').
Proof.
  intros Hs Hws Hr Hp.
  destruct (CleanupFacts.cleanup_local E s ws p Hs Hws Hr Hp) as (s' & Hrun & Hfiles & Hself).
  assert (Fs.exists_ ws (files s') = false) as Hgone
    by (rewrite Hfiles; now apply CleanupFacts.exists_pruned).
  exists s'. split; [exact Hrun |]. split; [exact Hgone |].
  split; [intros q; rewrite Hfiles; apply CleanupFacts.lookup_pruned |].
  split; [exact Hself |].
  apply (CleanupFacts.cleanup_nothing_left E s' ws); congruence.
Qed.

Lemma teardown_removes_the_workspace_witness :
  let s := snd (Engine.local_environment (Demo.local_env EmptyString) Demo.start) in
  exists s',
    Engine.cleanup_resources (Demo.local_env EmptyString) s = (inr tt, s')
    /\ Fs.exists_ "/tmp/code_transform_0" (files s) = true
    /\ Fs.exists_ "/tmp/code_transform_0" (files s') = false
    /\ files s' !! ["tmp"] = Some Dir.
Proof.
  intros s.
  destruct (teardown_removes_the_workspace (Demo.local_env EmptyString) s
              "/tmp/code_transform_0" ["tmp"; "code_transform_0"]
              eq_refl eq_refl eq_refl eq_refl)
    as (s' & Hrun & Hgone & Hrest & _).
  exists s'. split; [exact Hrun |]. split; [reflexivity |]. split; [exact Hgone |].
  rewrite Hrest. reflexivity.
Defined.

(** X13: with a sandbox session whose closing raises, teardown still
    returns; it prints the warning and goes no further: the scratch
    directory is not looked at, so no file is removed, and the sandbox stays
    marked open. *)
Theorem failed_close_skips_removal (E : Env) (s : state) (key : string) (e : exn) :
  e2b_session (self s) = Some key ->
  sandbox_aexit E (sent s) = Some e ->
  exists s',
    Engine.cleanup_resources E s = (inr tt, s')
    /\ files s' = files s
    /\ sandbox_open s' = sandbox_open s
    /\ trace s' = trace s ++ [Enter "cleanup_resources";
                              Print ("⚠️ Cleanup warning: " +:+ exn_str e)].
Proof.
  intros Hs Hexit.
  unfold Engine.cleanup_resources, try_except, bind, emit, modify, get_self, get_state, lift,
    ret, print, raise.
  cbv beta iota. cbn [self sent set_trace]. rewrite Hs. cbv beta iota.
  cbn [self sent set_trace]. rewrite Hexit. cbv beta iota.
  eexists. split; [reflexivity |]. cbn. rewrite <- app_assoc. now repeat split.
Qed.

Lemma failed_close_skips_removal_witness :
  exists s',
    Engine.cleanup_resources close_fails Demo.fresh_remote = (inr tt, s')
    /\ files s' = files Demo.fresh_remote
    /\ sandbox_open s' = true
    /\ trace s' = [Enter "cleanup_resources";
                   Print "⚠️ Cleanup warning: sandbox is gone"].
Proof.
  exact (failed_close_skips_removal close_fails Demo.fresh_remote "e2b-key"
           (Exn "SandboxException" "sandbox is gone") eq_refl eq_refl).
Defined.

(** ** The command-line driver *)

Module MainFacts.
Import Engine.

(** The two lines [main] prints first. *)
Lemma main_with_key (E : Env) (token : string) (number : result Z) (prompt : string)
    (s : state) (k : string) :
  getenv E "OPENAI_API_KEY" = Some k ->
  String.eqb k EmptyString = false ->
  exists s0,
    main E token number prompt s
    = try_finally
        (try_except (main_steps E token number prompt)
           (fun e => print ("❌ Error: " +:+ exn_str e)))
        (cleanup_resources E) s0
    /\ entered_methods s0 = entered_methods s.
Proof.
  intros Hkey Hne. unfold main, init, or_str, falsy. rewrite Hkey, Hne.
  unfold bind at 1 2 3. unfold print, emit, modify. cbv beta iota.
  eexists. split; [reflexivity |].
  unfold entered_methods. simpl. rewrite !enters_app. simpl. now rewrite !app_nil_r.
Qed.

End MainFacts.

(** X14: when the OpenAI key is in the environment, [main] returns
    normally whatever happens in its steps, and the method entered last is
    the teardown. *)
Theorem main_always_tears_down (E : Env) (token : string) (number : result Z)
    (prompt : string) (s : state) (k : string) :
  getenv E "OPENAI_API_KEY" = Some k ->
  String.eqb k EmptyString = false ->
  exists s',
    Engine.main E token number prompt s = (inr tt, s')
    /\ List.last (entered_methods s') EmptyString = "cleanup_resources".
Proof.
  intros Hkey Hne.
  destruct (MainFacts.main_with_key E token number prompt s k Hkey Hne) as (s0 & -> & _).
  unfold try_finally.
  assert (exists s3, try_except (Engine.main_steps E token number prompt)
                       (fun e => print ("❌ Error: " +:+ exn_str e)) s0 = (inr tt, s3))
    as [s3 ->].
  { unfold try_except.
    destruct (Engine.main_steps E token number prompt s0) as [[e|[]] s3]; eexists; reflexivity. }
  pose proof (Stages.cleanup_resources_enters E s3) as Henters.
  destruct (PipelineFacts.cleanup_never_raises E s3) as [u Hu].
  destruct (Engine.cleanup_resources E s3) as [[e|[]] s4]; simpl in Hu, Henters;
    [discriminate |].
  exists s4. split; [reflexivity |]. rewrite Henters. apply last_last.
Qed.

Lemma main_always_tears_down_witness :
  exists s',
    Engine.main incomplete_reply "ghp" (inr 1) "add a file" Demo.start = (inr tt, s')
    /\ List.last (entered_methods s') EmptyString = "cleanup_resources".
Proof.
  exact (main_always_tears_down incomplete_reply "ghp" (inr 1) "add a file" Demo.start
           "sk-demo" eq_refl eq_refl).
Defined.

(** X15: when no OpenAI key is in the environment, [main] raises the
    [ValueError] of the constructor after its two opening lines: no method
    is entered, the teardown included, and no file is touched. *)
Theorem main_without_key (E : Env) (token : string) (number : result Z)
    (prompt : string) (s : state) :
  Engine.falsy (getenv E "OPENAI_API_KEY") = true ->
  exists s',
    Engine.main E token number prompt s
    = (inl (ValueError "OpenAI API key is required"), s')
    /\ entered_methods s' = entered_methods s
    /\ files s' = files s /\ self s' = self s.
Proof.
  intros Hkey. unfold Engine.main, Engine.init.
  replace (Engine.or_str None (getenv E "OPENAI_API_KEY")) with (getenv E "OPENAI_API_KEY")
    by reflexivity.
  rewrite Hkey. unfold bind, print, emit, modify, raise. cbv beta iota.
  eexists. split; [reflexivity |].
  unfold entered_methods. simpl. rewrite !enters_app. simpl. now rewrite !app_nil_r.
Qed.

Lemma main_without_key_witness :
  exists s',
    Engine.main no_keys "ghp" (inr 1) "add a file" Demo.start
    = (inl (ValueError "OpenAI API key is required"), s')
    /\ entered_methods s' = []
    /\ files s' = files Demo.start /\ self s' = self Demo.start.
Proof.
  exact (main_without_key no_keys "ghp" (inr 1) "add a file" Demo.start eq_refl).
Defined.

(** ** Sessions and the streaming pipeline *)

Module StreamFacts.
Import Frame Outcome.

(** A sequence that returns: its first step returned, and the rest did. *)
Lemma bind_returns {A B} (m : M A) (k : A -> M B) (s : state) (b : B) (s' : state) :
  bind m k s = (inr b, s') ->
  exists a s0, m s = (inr a, s0) /\ k a s0 = (inr b, s').
Proof.
  unfold bind. destruct (m s) as [[e|a] s0]; [discriminate |]. intros H. now exists a, s0.
Qed.

(** A publication that returns says success. *)
Lemma commit_and_publish_result (E : Env) (repo branch message token : string)
    (s : state) (r : Published) (s' : state) :
  Engine.commit_and_publish E repo branch message token s = (inr r, s') ->
  r = published branch message.
Proof.
  unfold Engine.commit_and_publish. intros H.
  apply bind_returns in H as (? & s0 & _ & H).
  unfold try_except in H.
  destruct (bind get_self _ s0) as [[e|r0] s1] eqn:Hbody; [discriminate |].
  injection H as <- <-.
  apply bind_returns in Hbody as (? & ? & _ & Hbody).
  apply bind_returns in Hbody as (? & ? & _ & Hbody).
  now injection Hbody as <- _.
Qed.

Lemma yield_enters (ev : sse) (s : state) :
  entered_methods (snd (yield ev s)) = entered_methods s.
Proof. apply Stages.entered_yield. Qed.

Lemma status_enters (session_id status : string) (s : state) :
  entered_methods (snd (Web.set_session_status session_id status s)) = entered_methods s.
Proof. reflexivity. Qed.

(** What a step that returned did to the methods entered. *)
Ltac enters_of E H :=
  lazymatch type of H with
  | _ ?sa = (_, _) =>
      let P := fresh "P" in
      first
        [ epose proof (Stages.init_enters E _ _ sa) as P; rewrite H in P
        | epose proof (yield_enters _ sa) as P; rewrite H in P
        | epose proof (status_enters _ _ sa) as P; rewrite H in P
        | epose proof (Stages.setup_github_connection_enters E _ sa) as P; rewrite H in P
        | epose proof (Stages.create_execution_environment_enters E sa) as P; rewrite H in P
        | epose proof (Stages.download_repository_enters E _ sa) as P; rewrite H in P
        | epose proof (Stages.examine_codebase_enters E _ sa) as P; rewrite H in P
        | epose proof (Stages.create_code_transformations_enters E _ _ sa) as P; rewrite H in P
        | epose proof (Stages.implement_transformations_enters E _ _ sa) as P; rewrite H in P
        | epose proof (Stages.commit_and_publish_enters E _ _ _ _ sa) as P; rewrite H in P ];
      cbn [snd] in P
  end.

Lemma yield_sessions (ev : sse) (s : state) :
  active_sessions (snd (yield ev s)) = active_sessions s.
Proof. reflexivity. Qed.

Lemma status_sessions (session_id status : string) (s : state) :
  active_sessions (snd (Web.set_session_status session_id status s))
  = alter (with_status status) session_id (active_sessions s).
Proof. reflexivity. Qed.

(** What a step that returned did to the sessions. *)
Ltac sessions_of E H :=
  lazymatch type of H with
  | _ ?sa = (_, _) =>
      let P := fresh "P" in
      first
        [ epose proof (Stages.init_sessions E _ _ sa) as P; rewrite H in P
        | epose proof (yield_sessions _ sa) as P; rewrite H in P
        | epose proof (status_sessions _ _ sa) as P; rewrite H in P
        | epose proof (Stages.setup_github_connection_sessions E _ sa) as P; rewrite H in P
        | epose proof (Stages.create_execution_environment_sessions E sa) as P; rewrite H in P
        | epose proof (Stages.download_repository_sessions E _ sa) as P; rewrite H in P
        | epose proof (Stages.examine_codebase_sessions E _ sa) as P; rewrite H in P
        | epose proof (Stages.create_code_transformations_sessions E _ _ sa) as P;
          rewrite H in P
        | epose proof (Stages.implement_transformations_sessions E _ _ sa) as P; rewrite H in P
        | epose proof (Stages.commit_and_publish_sessions E _ _ _ _ sa) as P; rewrite H in P ];
      cbn [snd] in P
  end.

Section WithSession.

Context (E : Env) (session_id : string).

(** A run of the steps that returns: every stage was entered, the last
    event says so, and the session is marked completed. *)
Lemma event_steps_returned (s : state) (session_data : Session) (s1 : state) :
  active_sessions s !! session_id = Some session_data ->
  Web.event_steps E session_id s = (inr tt, s1) ->
  entered_methods s1 = entered_methods s ++ web_stages
  /\ List.last (trace s1) (Print EmptyString)
     = Yield (deployment_complete (s_branch_name session_data)
                (s_commit_message session_data))
  /\ active_sessions s1 !! session_id
     = with_status "completed" <$> active_sessions s !! session_id.
Proof.
  intros Hsession Hrun. unfold Web.event_steps in Hrun.
  apply bind_returns in Hrun as (s0 & s0' & Hget & Hrun).
  injection Hget as <- <-. rewrite Hsession in Hrun.
  repeat (apply bind_returns in Hrun as (? & ? & ? & Hrun)).
  match goal with
  | H : Engine.commit_and_publish _ _ _ _ _ _ = (inr ?r, _) |- _ =>
      pose proof (commit_and_publish_result _ _ _ _ _ _ _ _ H); subst r
  end.
  split; [| split].
  - repeat match goal with
           | H : _ _ = (inr _, _) |- _ => enters_of E H; clear H
           end.
    repeat match goal with
           | P : entered_methods _ = _ |- _ => rewrite P; clear P
           end.
    rewrite <- ?app_assoc. reflexivity.
  - injection Hrun as <-.
    match goal with
    | H : yield (Build_sse "deployment_complete" _ _ _ _) _ = (inr _, _) |- _ =>
        injection H as _ <-
    end.
    cbn [trace set_active_sessions set_trace]. apply last_last.
  - repeat match goal with
           | H : _ _ = (inr _, _) |- _ => sessions_of E H; clear H
           end.
    repeat match goal with
           | P : active_sessions _ = _ |- _ => rewrite P; clear P
           end.
    rewrite !lookup_alter_eq. now destruct (active_sessions s !! session_id).
Qed.

(** The generator returns, whatever its steps do. *)
Lemma event_generator_returns (s : state) :
  fst (Web.event_generator E session_id s) = inr tt.
Proof.
  unfold Web.event_generator, try_except.
  now destruct (Web.event_steps E session_id s) as [[e|[]] s1].
Qed.

(** In every run of the generator the methods entered are an initial
    segment of the stages; validation and teardown are not among them. *)
Lemma event_generator_stages (s : state) :
  entered_methods s = [] ->
  (fun l => initial_segment web_stages l
            && never_entered "run_code_validation" l
            && never_entered "cleanup_resources" l)
    (entered_methods (snd (Web.event_generator E session_id s))) = true.
Proof.
  eapply outcome_all.
  - unfold Web.event_generator, Web.event_steps. PipelineFacts.outcomes.
  - vm_compute. reflexivity.
Qed.

(** What does not depend on the status of this session is kept. *)
Section Apart.

Context {X : Type} (f : gmap string Session -> X).

Hypothesis apart_status :
  forall status m, f (alter (with_status status) session_id m) = f m.

Ltac stage_kept :=
  intros ?; cbn beta;
  first
    [ rewrite Stages.init_sessions
    | rewrite Stages.setup_github_connection_sessions
    | rewrite Stages.create_execution_environment_sessions
    | rewrite Stages.download_repository_sessions
    | rewrite Stages.examine_codebase_sessions
    | rewrite Stages.create_code_transformations_sessions
    | rewrite Stages.implement_transformations_sessions
    | rewrite Stages.commit_and_publish_sessions ];
  reflexivity.

Ltac kept :=
  repeat first
    [ keeps_step
    | apply keeps_modify; intros ?; first [reflexivity | apply apart_status]
    | stage_kept ].

Lemma keeps_event_steps :
  keeps (fun s => f (active_sessions s)) (Web.event_steps E session_id).
Proof. unfold Web.event_steps. kept. Qed.

Lemma keeps_event_generator :
  keeps (fun s => f (active_sessions s)) (Web.event_generator E session_id).
Proof. unfold Web.event_generator. kept. apply keeps_event_steps. Qed.

End Apart.

Lemma request_of_status (status : string) (m : gmap string Session) :
  request_of <$> alter (with_status status) session_id m !! session_id
  = request_of <$> m !! session_id.
Proof. rewrite lookup_alter_eq. now destruct (m !! session_id). Qed.

(** A run of the steps that raised: the generator marks the session
    failed. *)
Lemma event_steps_raised (s : state) (session_data : Session) (e : exn) (s1 : state) :
  active_sessions s !! session_id = Some session_data ->
  Web.event_steps E session_id s = (inl e, s1) ->
  s_status <$> active_sessions (snd (Web.event_generator E session_id s)) !! session_id
  = Some "failed".
Proof.
  intros Hsession Hrun.
  pose proof (keeps_event_steps (fun m => request_of <$> m !! session_id)
                request_of_status s) as Hkept.
  cbn beta in Hkept. rewrite Hrun, Hsession in Hkept. cbn [snd] in Hkept.
  unfold Web.event_generator, try_except. rewrite Hrun. cbn.
  rewrite lookup_alter_eq. now destruct (active_sessions s1 !! session_id).
Qed.

End WithSession.

End StreamFacts.

(** X16: asked for a session that is not there, the generator yields one
    event, the error [Session not found], and does nothing else: no
    platform object is made and no method entered. *)
Theorem unknown_session_is_reported (E : Env) (session_id : string) (s : state) :
  active_sessions s !! session_id = None ->
  Web.event_generator E session_id s
  = (inr tt, set_trace (trace s ++ [Yield (Web.error_event "Session not found")]) s).
Proof.
  intros Hnone. unfold Web.event_generator, Web.event_steps, try_except, bind, get_state.
  now rewrite Hnone.
Qed.

Lemma unknown_session_is_reported_witness :
  Web.event_generator (Demo.local_env EmptyString) "session_2" Demo.start
  = (inr tt, set_trace [Yield (Web.error_event "Session not found")] Demo.start).
Proof.
  exact (unknown_session_is_reported (Demo.local_env EmptyString) "session_2" Demo.start
           eq_refl).
Defined.

(** X17: the generator never raises, and in every run the methods it has
    entered are an initial segment of the seven stages: it never runs the
    validation and never tears the environment down, also when all went
    well. *)
Theorem stream_never_validates_nor_tears_down (E : Env) (session_id : string) (s : state) :
  entered_methods s = [] ->
  let run := Web.event_generator E session_id s in
  fst run = inr tt
  /\ initial_segment web_stages (entered_methods (snd run)) = true
  /\ never_entered "run_code_validation" (entered_methods (snd run)) = true
  /\ never_entered "cleanup_resources" (entered_methods (snd run)) = true.
Proof.
  intros Hfresh run. split; [apply StreamFacts.event_generator_returns |].
  pose proof (StreamFacts.event_generator_stages E session_id s Hfresh) as H.
  cbn beta in H. apply andb_true_iff in H as [H H3]. apply andb_true_iff in H as [H1 H2].
  now repeat split.
Qed.

Lemma stream_never_validates_nor_tears_down_witness :
  let run := Web.event_generator one_file_reply "session_1" Demo.start in
  fst run = inr tt
  /\ initial_segment web_stages (entered_methods (snd run)) = true
  /\ never_entered "run_code_validation" (entered_methods (snd run)) = true
  /\ never_entered "cleanup_resources" (entered_methods (snd run)) = true.
Proof.
  exact (stream_never_validates_nor_tears_down one_file_reply "session_1" Demo.start eq_refl).
Defined.

(** X18: when every step of the stream returns, all seven stages were
    entered in order, the last event is [deployment_complete] with the
    branch and the message of the request and the status [success], and the
    session is marked completed. *)
Theorem completed_stream (E : Env) (session_id : string) (session_data : Session)
    (s s1 : state) :
  active_sessions s !! session_id = Some session_data ->
  entered_methods s = [] ->
  Web.event_steps E session_id s = (inr tt, s1) ->
  Web.event_generator E session_id s = (inr tt, s1)
  /\ entered_methods s1 = web_stages
  /\ List.last (trace s1) (Print EmptyString)
     = Yield (deployment_complete (s_branch_name session_data)
                (s_commit_message session_data))
  /\ active_sessions s1 !! session_id = Some (with_status "completed" session_data).
Proof.
  intros Hsession Hfresh Hrun.
  destruct (StreamFacts.event_steps_returned E session_id s session_data s1 Hsession Hrun)
    as (Hentered & Hlast & Hstatus).
  split; [unfold Web.event_generator, try_except; now rewrite Hrun |].
  split; [now rewrite Hentered, Hfresh |].
  split; [exact Hlast |]. now rewrite Hstatus, Hsession.
Qed.

Lemma completed_stream_witness :
  let s1 := snd (Web.event_steps one_file_reply "session_1" Demo.start) in
  Web.event_generator one_file_reply "session_1" Demo.start = (inr tt, s1)
  /\ entered_methods s1 = web_stages
  /\ List.last (trace s1) (Print EmptyString)
     = Yield (deployment_complete "ai-generated-changes" "AI-generated improvements")
  /\ active_sessions s1 !! "session_1" = Some (with_status "completed" Demo.a_session).
Proof.
  intros s1.
  apply (completed_stream one_file_reply "session_1" Demo.a_session Demo.start s1).
  - reflexivity.
  - reflexivity.
  - vm_compute. reflexivity.
Defined.

(** X19: a run of the generator changes nothing of the sessions but the
    status of its own: every other session is left as it was, none is added
    or removed, and its own keeps the tokens, the repository, the prompt,
    the branch and the message it was started with. *)
Theorem stream_changes_only_its_status (E : Env) (session_id : string) (s : state) :
  let s' := snd (Web.event_generator E session_id s) in
  (forall other, other <> session_id ->
                 active_sessions s' !! other = active_sessions s !! other)
  /\ request_of <$> active_sessions s' !! session_id
     = request_of <$> active_sessions s !! session_id.
Proof.
  intros s'. split.
  - intros other Hother.
    apply (StreamFacts.keeps_event_generator E session_id (fun m => m !! other)).
    intros status m. now apply lookup_alter_ne.
  - apply (StreamFacts.keeps_event_generator E session_id
             (fun m => request_of <$> m !! session_id)).
    apply StreamFacts.request_of_status.
Qed.

(** X20: starting a generation stores the request, pending, under the
    identifier returned, leaving the other sessions alone; streaming that
    identifier then ends with the session marked completed when every step
    returned and failed when one raised, never pending or running. *)
Theorem started_session_ends_failed_or_completed (E : Env) (stamp : string)
    (request : CodeGenerationRequest) (s : state) :
  let session_id := "session_" +:+ stamp in
  let started := snd (Api.start_generation stamp request s) in
  let streamed := snd (Web.event_generator E session_id started) in
  fst (Api.start_generation stamp request s) = inr (session_id, "started")
  /\ active_sessions started !! session_id = Some (Api.session_of request)
  /\ (forall other, other <> session_id ->
                    active_sessions started !! other = active_sessions s !! other)
  /\ s_status <$> active_sessions streamed !! session_id
     = Some (if is_ok (fst (Web.event_steps E session_id started))
             then "completed" else "failed").
Proof.
  intros session_id started streamed.
  assert (active_sessions started !! session_id = Some (Api.session_of request)) as Hstored
    by apply lookup_insert_eq.
  split; [reflexivity |]. split; [exact Hstored |].
  split; [intros other Hother; now apply lookup_insert_ne |].
  subst streamed.
  destruct (Web.event_steps E session_id started) as [[e|[]] s1] eqn:Hrun.
  - now apply (StreamFacts.event_steps_raised E session_id started _ e s1 Hstored).
  - destruct (StreamFacts.event_steps_returned E session_id started _ s1 Hstored Hrun)
      as (_ & _ & Hstatus).
    unfold Web.event_generator, try_except. rewrite Hrun. cbn [snd fst is_ok].
    now rewrite Hstatus, Hstored.
Qed.

(** ** Provisioning, download and examination *)

(** X21: provisioning ends in one of three ways.  With the sandbox session
    open, the name [e2b_environment] returned and the local files and the
    scratch path untouched.  Or with a scratch directory made, a new
    directory in an existing one, its name returned and recorded as the
    workspace path, and the sandbox as it was.  Or, when no scratch
    directory can be made, with the error of that raised, outside any
    handler, and no file touched. *)
Theorem provisioning_ends_one_of_three_ways (E : Env) (s : state) :
  let run := Engine.create_execution_environment E s in
  let s' := snd run in
  (fst run = inr "e2b_environment"
   /\ E2B_AVAILABLE E = true
   /\ sandbox_open s' = true
   /\ e2b_session (self s') = e2b_api_key (self s)
   /\ is_Some (e2b_session (self s'))
   /\ workspace_path (self s') = workspace_path (self s)
   /\ files s' = files s)
  \/ (exists p,
        scratch_made E s p (files s')
        /\ fst run = inr (scratch_name p)
        /\ workspace_path (self s') = Some (scratch_name p)
        /\ files s !! p = None
        /\ files s !! Fs.parent p = Some Dir
        /\ files s' = <[p := Dir]> (files s)
        /\ sandbox_open s' = sandbox_open s)
  \/ (exists e,
        fst run = inl e
        /\ (forall p t', ~ scratch_made E s p t')
        /\ files s' = files s
        /\ workspace_path (self s') = workspace_path (self s)
        /\ sandbox_open s' = sandbox_open s).
Proof.
  assert (forall s0 : state,
             files s0 = files s ->
             workspace_path (self s0) = workspace_path (self s) ->
             sandbox_open s0 = sandbox_open s ->
             let run := Engine.local_environment E s0 in
             (exists p,
                 scratch_made E s p (files (snd run))
                 /\ fst run = inr (scratch_name p)
                 /\ workspace_path (self (snd run)) = Some (scratch_name p)
                 /\ files s !! p = None
                 /\ files s !! Fs.parent p = Some Dir
                 /\ files (snd run) = <[p := Dir]> (files s)
                 /\ sandbox_open (snd run) = sandbox_open s)
             \/ (exists e,
                    fst run = inl e
                    /\ (forall p t', ~ scratch_made E s p t')
                    /\ files (snd run) = files s
                    /\ workspace_path (self (snd run)) = workspace_path (self s)
                    /\ sandbox_open (snd run) = sandbox_open s)) as Hlocal.
  { intros s0 Hfiles Hws Hopen. unfold scratch_made, scratch_name. ProvisionFacts.run. rewrite Hfiles.
    destruct (mkdtemp E "code_transform_" (files s)) as [e|p] eqn:Hp; simpl.
    - right. exists e. repeat split; try assumption. intros p t' [H _]. discriminate.
    - destruct (Fs.mkdir _ p (files s)) as [e|t] eqn:Ht; simpl.
      + right. exists e. repeat split; try assumption.
        intros p' t' [H Ht']. injection H as <-. congruence.
      + left. exists p. unfold Fs.mkdir in Ht.
        destruct (files s !! p) eqn:Hfresh; [discriminate |].
        destruct (files s !! Fs.parent p) as [[|d]|] eqn:Hparent; try discriminate.
        injection Ht as <-. repeat split; try assumption.
        unfold Fs.mkdir. now rewrite Hfresh, Hparent. }
  cbv zeta.
  remember (Engine.create_execution_environment E s) as run eqn:Hrun.
  revert Hrun.
  unfold Engine.create_execution_environment.
  set (fallback := Engine.local_environment E) in *.
  unfold try_except, bind, update_self, print, emit, modify, get_self, raise, ret.
  simpl.
  destruct (E2B_AVAILABLE E) eqn:Hav; cbn [negb];
    [| simpl; intros ->; right; apply Hlocal; reflexivity].
  simpl.
  destruct (e2b_api_key (self s)) as [key|] eqn:Hkey;
    [| simpl; intros ->; right; apply Hlocal; reflexivity].
  destruct (String.eqb key EmptyString);
    [simpl; intros ->; right; apply Hlocal; reflexivity |].
  destruct (sandbox_new E key);
    [simpl; intros ->; right; apply Hlocal; reflexivity |].
  simpl.
  destruct (sandbox_aenter E key);
    [simpl; intros ->; right; apply Hlocal; reflexivity |].
  simpl. intros ->. left. simpl. repeat split; eauto.
Qed.

Module WrapFacts.

(** A method whose body is wrapped raises what the wrapper makes. *)
Lemma method_wraps {A} (name prefix : string) (body : M A) (s : state) (e : exn)
    (s' : state) :
  bind (emit (Enter name))
    (fun _ => try_except body (fun e => raise (RuntimeError (prefix +:+ exn_str e)))) s
  = (inl e, s') ->
  exists cause, e = RuntimeError (prefix +:+ exn_str cause).
Proof.
  unfold bind, emit, modify, try_except, raise. cbv beta iota.
  destruct (body _) as [[cause|a] s1]; [| discriminate].
  intros H. injection H as <- _. now exists cause.
Qed.

End WrapFacts.

(** X22: whatever goes wrong inside a stage, what leaves it is a
    [RuntimeError] whose text starts with the stage's own words and goes
    on with the text of the cause.  Two checks sit before the wrapped part:
    the missing model client and the missing repository connection, each
    with a fixed text. *)
Theorem stage_errors_name_the_stage (E : Env) (s : state) (e : exn) (s' : state) :
  (forall url,
      Engine.download_repository E url s = (inl e, s') ->
      exists cause, e = RuntimeError ("Failed to download repository: " +:+ exn_str cause))
  /\ (forall repo,
         Engine.examine_codebase E repo s = (inl e, s') ->
         exists cause, e = RuntimeError ("Failed to examine codebase: " +:+ exn_str cause))
  /\ (forall prompt analysis,
         Engine.create_code_transformations E prompt analysis s = (inl e, s') ->
         e = RuntimeError "OpenAI client not available"
         \/ exists cause,
              e = RuntimeError ("Failed to create code transformations: " +:+ exn_str cause))
  /\ (forall repo plan,
         Engine.implement_transformations E repo plan s = (inl e, s') ->
         exists cause,
           e = RuntimeError ("Failed to implement transformations: " +:+ exn_str cause))
  /\ (forall repo branch message token,
         Engine.commit_and_publish E repo branch message token s = (inl e, s') ->
         exists cause, e = RuntimeError ("Failed to commit and publish: " +:+ exn_str cause))
  /\ (Engine.retrieve_user_repositories E s = (inl e, s') ->
      e = RuntimeError "GitHub connection not established"
      \/ exists cause,
           e = RuntimeError ("Failed to retrieve repositories: " +:+ exn_str cause)).
Proof.
  repeat split.
  - intros url. apply WrapFacts.method_wraps.
  - intros repo. apply WrapFacts.method_wraps.
  - intros prompt analysis. unfold Engine.create_code_transformations.
    unfold bind at 1 2. unfold emit, modify, get_self. cbv beta iota. cbn [self set_trace].
    destruct (openai_client (self s)); cbn [negb].
    + unfold try_except, raise.
      destruct (bind _ _ _) as [[cause|a] s1]; [| discriminate].
      intros H. injection H as <- _. right. now exists cause.
    + unfold raise. intros H. injection H as <- _. now left.
  - intros repo plan. apply WrapFacts.method_wraps.
  - intros repo branch message token. apply WrapFacts.method_wraps.
  - unfold Engine.retrieve_user_repositories, bind, emit, modify, get_self, raise, ret.
    cbv beta iota. cbn [self set_trace].
    destruct (github_client (self s)) as [tok|]; [| intros H; injection H as <- _; now left].
    destruct (get_repos E tok) as [cause|repos]; [| discriminate].
    intros H. injection H as <- _. right. now exists cause.
Qed.

(** X23: with a sandbox session, downloading sends the one command
    [git clone <url>] and, when the call returns, reports the path
    [/home/user/<name>] without looking at the result: an error flag set by
    the sandbox makes no difference, and no local file is touched. *)
Theorem remote_download_ignores_the_result (E : Env) (url key : string) (s : state)
    (r : Execution) :
  e2b_session (self s) = Some key ->
  sandbox_run E (sent s) ("git clone " +:+ url) = inr r ->
  let run := Engine.download_repository E url s in
  fst run = inr ("/home/user/" +:+ Engine.repo_name_of url)
  /\ sent (snd run) = sent s ++ ["git clone " +:+ url]
  /\ files (snd run) = files s.
Proof.
  intros Hs Hrun. ProvisionFacts.run. rewrite Hs. simpl. rewrite Hrun. now repeat split.
Qed.

Lemma remote_download_ignores_the_result_witness :
  let run :=
    Engine.download_repository failing_sandbox "https://github.com/octo/demo.git"
      Demo.fresh_remote in
  fst run = inr "/home/user/demo"
  /\ sent (snd run) = ["git clone https://github.com/octo/demo.git"]
  /\ files (snd run) = files Demo.fresh_remote.
Proof.
  exact (remote_download_ignores_the_result failing_sandbox
           "https://github.com/octo/demo.git" "e2b-key" Demo.fresh_remote
           {| text := None; error := true |} eq_refl eq_refl).
Defined.

Module ExamineFacts.
Import Engine.

Lemma length_split (c : ascii) (s : string) :
  List.length (PyStr.split c s) = S (occurrences c s).
Proof.
  induction s as [|a s IH]; simpl; [reflexivity |].
  destruct (Ascii.eqb a c); simpl; [now rewrite IH |].
  destruct (PyStr.split c s) as [|w ws]; [discriminate | exact IH].
Qed.

(** Examination with a sandbox session, once the listing is there. *)
Lemma examine_remote (E : Env) (repo key : string) (s : state) (r : Execution) :
  e2b_session (self s) = Some key ->
  sandbox_run E (sent s) (find_command repo) = inr r ->
  exists s',
    examine_codebase E repo s
    = (inr (let file_list :=
              match text r with
              | Some t => if String.eqb t EmptyString then []
                          else PyStr.split (ascii_of_nat 10) (PyStr.strip t)
              | None => []
              end in
            {| total_files := List.length file_list;
               languages := _identify_languages file_list;
               main_files := List.firstn 10 file_list;
               structure := "Repository with " +:+ pretty (List.length file_list)
                            +:+ " code files" |}), s')
    /\ files s' = files s.
Proof.
  intros Hs Hrun.
  unfold examine_codebase, run_code, try_except, bind, emit, modify, get_self, get_state,
    lift, ret.
  cbv beta iota. cbn [self sent set_trace set_sent]. rewrite Hs. cbv beta iota.
  cbn [self sent set_trace set_sent]. rewrite Hrun. cbv beta iota.
  eexists. split; reflexivity.
Qed.

End ExamineFacts.

(** X24: with a sandbox session, the files counted are the lines of the
    listing once stripped: none when the sandbox gave no text or an empty
    one, and otherwise one more than the line breaks left, so at least
    one, even when the listing is blank. *)
Theorem remote_listing_count (E : Env) (repo key : string) (s : state) (r : Execution) :
  e2b_session (self s) = Some key ->
  sandbox_run E (sent s) (Engine.find_command repo) = inr r ->
  exists analysis s',
    Engine.examine_codebase E repo s = (inr analysis, s')
    /\ total_files analysis
       = match text r with
         | None => 0%nat
         | Some t => if String.eqb t EmptyString then 0%nat
                     else S (occurrences (ascii_of_nat 10) (PyStr.strip t))
         end
    /\ (List.length (main_files analysis) <= 10)%nat
    /\ files s' = files s.
Proof.
  intros Hs Hrun.
  destruct (ExamineFacts.examine_remote E repo key s r Hs Hrun) as (s' & -> & Hfiles).
  eexists _, s'. split; [reflexivity |]. cbn [total_files main_files].
  split; [| split; [| exact Hfiles]].
  - destruct (text r) as [t|]; [| reflexivity].
    destruct (String.eqb t EmptyString); [reflexivity | apply ExamineFacts.length_split].
  - rewrite length_take. lia.
Qed.

Lemma remote_listing_count_witness :
  exists analysis s',
    Engine.examine_codebase blank_listing "/home/user/demo" Demo.fresh_remote
    = (inr analysis, s')
    /\ total_files analysis = 1%nat
    /\ (List.length (main_files analysis) <= 10)%nat
    /\ files s' = files Demo.fresh_remote.
Proof.
  exact (remote_listing_count blank_listing "/home/user/demo" "e2b-key" Demo.fresh_remote
           {| text := Some Engine.nl; error := false |} eq_refl eq_refl).
Defined.

(** A line of the listing that holds only a no-break space is stripped
    with the line breaks around it. *)
Example strip_takes_no_break_space :
  let nbsp := String (ascii_of_nat 194) (String (ascii_of_nat 160) EmptyString) in
  PyStr.strip ("a.py" +:+ Engine.nl +:+ nbsp +:+ Engine.nl) = "a.py"
  /\ PyStr.strip (" " +:+ nbsp +:+ "a b" +:+ nbsp +:+ Engine.nl) = "a b".
Proof. vm_compute. split; reflexivity. Qed.

(** A listing of one name followed by a line that holds only a no-break
    space counts one file. *)
Example listing_with_blank_line_counts_one :
  let nbsp := String (ascii_of_nat 194) (String (ascii_of_nat 160) EmptyString) in
  let listing := "a.py" +:+ Engine.nl +:+ nbsp +:+ Engine.nl in
  let E := Demo.env true None (fun _ _ => inr {| text := Some listing; error := false |})
             EmptyString (ProcDone EmptyString) in
  PyStr.strip listing = "a.py"
  /\ exists analysis s',
       Engine.examine_codebase E "/home/user/demo" Demo.fresh_remote = (inr analysis, s')
       /\ total_files analysis = 1%nat
       /\ main_files analysis = ["a.py"].
Proof. vm_compute. split; [reflexivity |]. eexists _, _. repeat split. Qed.

Module LanguageFacts.
Import Engine.

(** No two extensions stand for the same language. *)
Lemma assoc_language_inj (e1 e2 lang : string) :
  assoc e1 language_map = Some lang -> assoc e2 language_map = Some lang -> e1 = e2.
Proof.
  unfold language_map. cbn [assoc].
  repeat match goal with
         | |- context [String.eqb ?a e1] => destruct (String.eqb_spec a e1); [subst e1 |]
         end;
    try discriminate;
    (intros H; injection H as <-);
    repeat match goal with
           | |- context [String.eqb ?a e2] => destruct (String.eqb_spec a e2); [subst e2 |]
           end;
    try discriminate; reflexivity.
Qed.

Lemma assoc_known (e lang : string) :
  assoc e language_map = Some lang -> lang ∈ known_languages.
Proof.
  unfold language_map, known_languages. cbn [assoc List.map snd].
  repeat match goal with
         | |- context [String.eqb ?a e] => destruct (String.eqb a e)
         end;
    try discriminate; intros H; injection H as <-; set_solver.
Qed.

Lemma NoDup_omap_inj {A B} (f : A -> option B) (l : list A) :
  (forall x y z, f x = Some z -> f y = Some z -> x = y) ->
  NoDup l -> NoDup (omap f l).
Proof.
  intros Hinj. induction 1 as [|x l Hx Hl IH]; simpl; [constructor |].
  destruct (f x) as [z|] eqn:Hfx; [| assumption].
  constructor; [| assumption].
  intros Hz. apply list_elem_of_omap in Hz as (y & Hy & Hfy).
  now rewrite (Hinj x y z Hfx Hfy) in Hx.
Qed.

End LanguageFacts.

(** X25: the languages found are the known languages of the files'
    extensions, lower-cased: a language is listed exactly when some file
    counts for it, it is listed once, and nothing else is listed.  Files
    with another extension or none add nothing. *)
Theorem languages_of_the_files (file_list : list string) :
  (forall lang,
      lang ∈ Engine._identify_languages file_list
      <-> exists file, file ∈ file_list /\ language_of file = Some lang)
  /\ NoDup (Engine._identify_languages file_list)
  /\ (forall lang, lang ∈ Engine._identify_languages file_list -> lang ∈ known_languages)
  /\ (List.length (Engine._identify_languages file_list) <= 8)%nat.
Proof.
  assert (forall lang, lang ∈ Engine._identify_languages file_list
                       -> lang ∈ known_languages) as Hknown.
  { intros lang H. apply list_elem_of_omap in H as (e & _ & He).
    now apply (LanguageFacts.assoc_known e). }
  assert (NoDup (Engine._identify_languages file_list)) as Hnodup.
  { apply LanguageFacts.NoDup_omap_inj; [apply LanguageFacts.assoc_language_inj |].
    apply NoDup_remove_dups. }
  split; [| split; [exact Hnodup | split; [exact Hknown |]]].
  - intros lang. unfold Engine._identify_languages, language_of. split.
    + intros H. apply list_elem_of_omap in H as (e & He & Hlang).
      apply elem_of_remove_dups, list_elem_of_In, filter_In in He as [He _].
      apply in_map_iff in He as (file & <- & Hfile).
      exists file. split; [now apply list_elem_of_In | exact Hlang].
    + intros (file & Hfile & Hlang). apply list_elem_of_omap.
      exists (Engine.suffix_lower file). split; [| exact Hlang].
      apply elem_of_remove_dups, list_elem_of_In, filter_In. split.
      * apply in_map. now apply list_elem_of_In.
      * destruct (String.eqb_spec (Engine.suffix_lower file) EmptyString) as [Hempty|];
          [| reflexivity].
        rewrite Hempty in Hlang. discriminate.
  - change 8%nat with (List.length known_languages).
    apply submseteq_length, NoDup_submseteq; assumption.
Qed.

(** The extension is that of the last component that names something. *)
Example suffix_of_the_name :
  Engine.suffix_lower "src/a.py/." = ".py"
  /\ Engine._identify_languages ["src/a.py/."] = ["Python"]
  /\ Engine.suffix_lower "a.py/.." = EmptyString
  /\ Engine.suffix_lower ".py" = EmptyString
  /\ Engine.suffix_lower "lib/Main.JAVA" = ".java"
  /\ Engine.suffix_lower "a.tar.gz" = ".gz"
  /\ Engine.suffix_lower "a." = EmptyString.
Proof. vm_compute. repeat split; reflexivity. Qed.

Module WalkFacts.

#[local] Arguments String.append !_ _ / : simpl nomatch.

Lemma drop_app (a b : string) (k : nat) :
  PyStr.drop (String.length a + k) (a +:+ b) = PyStr.drop k b.
Proof. induction a as [|c a IH]; simpl; [reflexivity | exact IH]. Qed.

(** What a name ends with, the path joined from it ends with. *)
Lemma endswith_app (a f p : string) :
  PyStr.endswith f p = true -> PyStr.endswith (a +:+ f) p = true.
Proof.
  unfold PyStr.endswith. intros H. apply andb_true_iff in H as [Hlen Heq].
  apply Nat.leb_le in Hlen. rewrite PyStrFacts.length_app.
  apply andb_true_iff. split; [apply Nat.leb_le; lia |].
  replace (String.length a + String.length f - String.length p)%nat
    with (String.length a + (String.length f - String.length p))%nat by lia.
  now rewrite drop_app.
Qed.

Lemma endswith_join (d f p : string) :
  PyStr.endswith f p = true -> PyStr.endswith (Fs.join d f) p = true.
Proof.
  intros H. unfold Fs.join.
  destruct (PyStr.startswith f "/"); [exact H |].
  destruct (_ || _); [now apply endswith_app |].
  now apply endswith_app, endswith_app.
Qed.

Lemma code_files_are_code (walked : list (string * list string)) :
  Forall (fun path => code_file path = true) (Engine.code_files walked).
Proof.
  apply Forall_forall. intros path Hin. apply list_elem_of_In in Hin.
  unfold Engine.code_files in Hin.
  apply in_flat_map in Hin as ([d names] & _ & Hin). cbn [fst snd] in Hin.
  apply in_map_iff in Hin as (name & <- & Hname).
  apply filter_In in Hname as [_ Hcode].
  unfold code_file. apply existsb_exists in Hcode as (suffix & Hsuffix & Hends).
  apply existsb_exists. exists suffix. split; [exact Hsuffix |].
  now apply endswith_join.
Qed.

End WalkFacts.

(** X26: without a sandbox session, examination never raises and touches
    no file; every path it lists ends in one of the eight suffixes of code
    files, the count is the number of paths listed, and at most ten of them
    are kept as main files, the first ones. *)
Theorem local_examination (E : Env) (repo : string) (s : state) :
  e2b_session (self s) = None ->
  exists analysis s',
    Engine.examine_codebase E repo s = (inr analysis, s')
    /\ main_files analysis = List.firstn 10 (Engine.code_files (os_walk E repo (files s)))
    /\ total_files analysis = List.length (Engine.code_files (os_walk E repo (files s)))
    /\ Forall (fun path => code_file path = true) (main_files analysis)
    /\ files s' = files s.
Proof.
  intros Hs.
  unfold Engine.examine_codebase, try_except, bind, emit, modify, get_self, get_state, ret.
  cbv beta iota. cbn [self files set_trace]. rewrite Hs. cbv beta iota.
  eexists _, _. split; [reflexivity |]. cbn [main_files total_files files set_trace].
  repeat split.
  apply Forall_take, WalkFacts.code_files_are_code.
Qed.

Lemma local_examination_witness :
  exists analysis s',
    Engine.examine_codebase (listing [("/w/r", ["a.py"; "README.md"; "lib.rs"])]) "/w/r"
      Demo.fresh = (inr analysis, s')
    /\ main_files analysis = ["/w/r/a.py"; "/w/r/lib.rs"]
    /\ total_files analysis = 2%nat
    /\ Forall (fun path => code_file path = true) (main_files analysis)
    /\ files s' = files Demo.fresh.
Proof.
  exact (local_examination (listing [("/w/r", ["a.py"; "README.md"; "lib.rs"])]) "/w/r"
           Demo.fresh eq_refl).
Defined.

Module RetrieveFacts.

Lemma sublist_bool_filter {A} (f : A -> bool) (l : list A) : sublist (List.filter f l) l.
Proof.
  induction l as [|x l IH]; simpl; [constructor |].
  destruct (f x); now constructor.
Qed.

End RetrieveFacts.

(** X27: once the connection is set up with a token, the repositories
    retrieved are the ones the host lists for that token that are not
    forks, in the host's order; the token is kept on the platform object
    and no file is touched. *)
Theorem repositories_of_the_token (E : Env) (token : string) (s : state)
    (repos : list RepositoryInfo) :
  GITHUB_AVAILABLE E = true ->
  get_repos E token = inr repos ->
  exists result s',
    bind (Engine.setup_github_connection E token)
      (fun _ => Engine.retrieve_user_repositories E) s = (inr result, s')
    /\ (forall r, In r result <-> In r repos /\ repo_fork r = false)
    /\ sublist result repos
    /\ github_client (self s') = Some token
    /\ files s' = files s.
Proof.
  intros Havailable Hrepos.
  unfold Engine.setup_github_connection, Engine.retrieve_user_repositories, bind, emit,
    update_self, print, modify, get_self, ret, raise.
  cbv beta iota. rewrite Havailable. simpl. rewrite Hrepos.
  eexists _, _. split; [reflexivity |].
  split; [| split; [apply RetrieveFacts.sublist_bool_filter | now split]].
  intros r. rewrite filter_In. now rewrite negb_true_iff.
Qed.

Lemma repositories_of_the_token_witness :
  exists result s',
    bind (Engine.setup_github_connection (Demo.local_env EmptyString) "ghp")
      (fun _ => Engine.retrieve_user_repositories (Demo.local_env EmptyString)) Demo.start
    = (inr result, s')
    /\ (forall r, In r result <-> In r [Demo.a_repo] /\ repo_fork r = false)
    /\ sublist result [Demo.a_repo]
    /\ github_client (self s') = Some "ghp"
    /\ files s' = files Demo.start.
Proof.
  exact (repositories_of_the_token (Demo.local_env EmptyString) "ghp" Demo.start
           [Demo.a_repo] eq_refl eq_refl).
Defined.

(** ** Helper functions *)

Module HelperFacts.
Import Helpers.

#[local] Arguments String.append !_ _ / : simpl nomatch.

(** Replacing one character by another goes character by character. *)
Lemma replace_char_cons (c d a : ascii) (s : string) :
  PyStr.replace (String a s) (String c EmptyString) (String d EmptyString)
  = String (if Ascii.eqb a c then d else a)
      (PyStr.replace s (String c EmptyString) (String d EmptyString)).
Proof.
  unfold PyStr.replace. simpl.
  destruct (ascii_dec c a) as [->|Hne].
  - rewrite Ascii.eqb_refl. now destruct s.
  - destruct (Ascii.eqb_spec a c) as [->|_]; [contradiction | reflexivity].
Qed.

Lemma replace_char_nil (c d : ascii) :
  PyStr.replace EmptyString (String c EmptyString) (String d EmptyString) = EmptyString.
Proof. reflexivity. Qed.

Lemma safe_char_steps (a : ascii) :
  List.fold_left (fun x c => if Ascii.eqb x c then "_"%char else x) unsafe_chars a
  = safe_char a.
Proof.
  unfold safe_char, unsafe_chars. cbn [List.fold_left List.existsb].
  repeat match goal with
         | |- context [Ascii.eqb a ?c] =>
             destruct (Ascii.eqb_spec a c) as [->|?]; [vm_compute; reflexivity |]
         end.
  reflexivity.
Qed.

(** The loop, one character at a time. *)
Lemma fold_replace_cons (chars : list ascii) :
  forall (a : ascii) (s : string),
    List.fold_left (fun name char => PyStr.replace name (String char EmptyString) "_")
      chars (String a s)
    = String (List.fold_left (fun x c => if Ascii.eqb x c then "_"%char else x) chars a)
        (List.fold_left (fun name char => PyStr.replace name (String char EmptyString) "_")
           chars s).
Proof.
  induction chars as [|c chars IH]; intros a s; simpl; [reflexivity |].
  now rewrite replace_char_cons, IH.
Qed.

Lemma fold_replace_nil (chars : list ascii) :
  List.fold_left (fun name char => PyStr.replace name (String char EmptyString) "_")
    chars EmptyString = EmptyString.
Proof. induction chars as [|c chars IH]; simpl; [reflexivity | exact IH]. Qed.

Lemma sanitize_cons (a : ascii) (s : string) :
  sanitize_filename (String a s) = String (safe_char a) (sanitize_filename s).
Proof. unfold sanitize_filename. now rewrite fold_replace_cons, safe_char_steps. Qed.

Lemma sanitize_nil : sanitize_filename EmptyString = EmptyString.
Proof. apply fold_replace_nil. Qed.

Lemma safe_char_safe (a : ascii) :
  List.existsb (Ascii.eqb (safe_char a)) unsafe_chars = false.
Proof.
  unfold safe_char. destruct (List.existsb (Ascii.eqb a) unsafe_chars) eqn:H;
    [reflexivity | exact H].
Qed.

Lemma safe_char_idem (a : ascii) : safe_char (safe_char a) = safe_char a.
Proof. unfold safe_char at 1. now rewrite safe_char_safe. Qed.

End HelperFacts.

(** X28: a sanitized file name has the length of the name given and none
    of the nine unsafe characters: each of them is replaced by an
    underscore and every other character stays where it is.  Sanitizing
    twice is sanitizing once. *)
Theorem sanitized_names_are_safe (filename : string) :
  String.length (Helpers.sanitize_filename filename) = String.length filename
  /\ (forall c, In c Helpers.unsafe_chars ->
                PyStr.contains c (Helpers.sanitize_filename filename) = false)
  /\ (forall i, String.get i (Helpers.sanitize_filename filename)
                = safe_char <$> String.get i filename)
  /\ Helpers.sanitize_filename (Helpers.sanitize_filename filename)
     = Helpers.sanitize_filename filename.
Proof.
  induction filename as [|a s (IHlen & IHsafe & IHget & IHidem)].
  - rewrite HelperFacts.sanitize_nil. repeat split.
  - rewrite !HelperFacts.sanitize_cons. cbn [String.length].
    split; [now rewrite IHlen |]. split; [| split].
    + intros c Hc. cbn [PyStr.contains]. rewrite (IHsafe c Hc), orb_false_r.
      pose proof (HelperFacts.safe_char_safe a) as Hsafe.
      destruct (Ascii.eqb_spec (safe_char a) c) as [Heq|]; [| reflexivity].
      assert (List.existsb (Ascii.eqb (safe_char a)) Helpers.unsafe_chars = true) as Htrue.
      { apply existsb_exists. exists c. split; [exact Hc |]. rewrite Heq.
        apply Ascii.eqb_refl. }
      congruence.
    + intros [|i]; [reflexivity | apply IHget].
    + now rewrite HelperFacts.safe_char_idem, IHidem.
Qed.

Module UrlFacts.
Import Helpers.

#[local] Arguments String.append !_ _ / : simpl nomatch.

(** The long form of a short name names the host and has a scheme. *)
Lemma long_form (url : string) :
  substring_of "github.com" ("https://github.com/" +:+ url) = true
  /\ PyStr.startswith ("https://github.com/" +:+ url) "https://" = true.
Proof. split; vm_compute; reflexivity. Qed.

Lemma split_no_slash (s : string) :
  PyStr.contains "/" s = false -> PyStr.split "/" s = [s].
Proof.
  induction s as [|a s IH]; simpl; [reflexivity |].
  destruct (Ascii.eqb a "/"); [discriminate |]. simpl. intros H. now rewrite IH.
Qed.

Lemma split_component (a rest : string) :
  PyStr.contains "/" a = false ->
  PyStr.split "/" (a +:+ "/" +:+ rest) = a :: PyStr.split "/" rest.
Proof.
  induction a as [|c a IH]; simpl in *; [reflexivity |].
  destruct (Ascii.eqb c "/"); [discriminate |]. simpl. intros H. now rewrite IH.
Qed.

(** The components of a long form. *)
Lemma split_github_url (owner repo : string) :
  PyStr.contains "/" owner = false ->
  PyStr.contains "/" repo = false ->
  PyStr.split "/" (github_url owner repo)
  = ["https:"; EmptyString; "github.com"; owner; repo].
Proof.
  intros Howner Hrepo. unfold github_url.
  change ("https://github.com/" +:+ owner +:+ "/" +:+ repo)
    with ("https:" +:+ "/" +:+ (EmptyString +:+ "/" +:+ ("github.com" +:+ "/"
            +:+ (owner +:+ "/" +:+ repo)))).
  rewrite !split_component by (assumption || reflexivity).
  now rewrite split_no_slash.
Qed.

Lemma parts_of_github_url (owner repo : string) :
  let parts := ["https:"; EmptyString; "github.com"; owner; repo] in
  match index_in "github.com" parts with
  | Some github_index =>
      if Nat.leb (github_index + 3) (List.length parts) then
        match List.nth_error parts (github_index + 1), List.nth_error parts (github_index + 2) with
        | Some o, Some r => Some (o, r)
        | _, _ => None
        end
      else None
  | None => None
  end = Some (owner, repo).
Proof. reflexivity. Qed.

Lemma length_append (a b : string) :
  String.length (a +:+ b) = (String.length a + String.length b)%nat.
Proof. induction a as [|c a IH]; simpl; [reflexivity | now rewrite IH]. Qed.

Lemma drop_length_append (a b : string) : PyStr.drop (String.length a) (a +:+ b) = b.
Proof. induction a as [|c a IH]; simpl; [reflexivity | exact IH]. Qed.

Lemma take_length_append (a b : string) : PyStr.take (String.length a) (a +:+ b) = a.
Proof. induction a as [|c a IH]; simpl; [reflexivity | now rewrite IH]. Qed.

(** A text followed by [.git] ends with it, and without its last four
    characters is the text. *)
Lemma dot_git (a : string) :
  PyStr.endswith (a +:+ ".git") ".git" = true
  /\ PyStr.slice (a +:+ ".git") 0 (-4) = a.
Proof.
  split.
  - unfold PyStr.endswith. rewrite length_append. apply andb_true_iff. split.
    + apply Nat.leb_le. simpl. lia.
    + replace (String.length a + String.length ".git" - String.length ".git")%nat
        with (String.length a) by lia.
      rewrite drop_length_append. reflexivity.
  - unfold PyStr.slice, PyStr.clamp. rewrite length_append.
    change (String.length ".git") with 4%nat.
    change (0 <? 0) with false. change (-4 <? 0) with true. cbv beta iota.
    replace (Z.min 0 (Z.of_nat (String.length a + 4))) with 0 by lia.
    replace (Z.max 0 (-4 + Z.of_nat (String.length a + 4)) - 0)
      with (Z.of_nat (String.length a)) by lia.
    rewrite Nat2Z.id. change (Z.to_nat 0) with 0%nat. cbn [PyStr.drop].
    apply take_length_append.
Qed.

End UrlFacts.

(** X29: a formatted repository URL names the host and starts with a
    scheme; anything without a scheme is taken as a short name and comes
    back with [https://github.com/] before it, which never fails; a URL
    with a scheme comes back as it is, or the call fails when the host is
    not named in it.  Formatting what was formatted changes nothing. *)
Theorem formatted_urls (url : string) :
  match Helpers.format_repository_url url with
  | inr formatted =>
      Helpers.substring_of "github.com" formatted = true
      /\ (PyStr.startswith formatted "http://" || PyStr.startswith formatted "https://") = true
      /\ formatted
         = (if PyStr.startswith url "http://" || PyStr.startswith url "https://"
            then url else "https://github.com/" +:+ url)
      /\ Helpers.format_repository_url formatted = inr formatted
  | inl e =>
      e = ValueError "Repository URL must be a GitHub URL"
      /\ (PyStr.startswith url "http://" || PyStr.startswith url "https://") = true
      /\ Helpers.substring_of "github.com" url = false
  end.
Proof.
  unfold Helpers.format_repository_url at 1.
  destruct (PyStr.startswith url "http://" || PyStr.startswith url "https://") eqn:Hscheme;
    cbn [negb].
  - destruct (Helpers.substring_of "github.com" url) eqn:Hhost; cbn [negb];
      [| now repeat split].
    repeat split; try assumption.
    unfold Helpers.format_repository_url. rewrite Hscheme. cbv beta iota zeta delta [negb].
    now rewrite Hhost.
  - destruct (UrlFacts.long_form url) as [Hhost Hhttps]. rewrite Hhost. cbn [negb].
    now repeat split.
Qed.

(** X30: from the long form of a short name [owner/repo], with or without
    [.git] at its end, the owner and the repository are read back, when
    neither has a slash in it and the URL without [.git] does not end in
    [.git] itself. *)
Theorem repository_read_back (owner repo : string) :
  PyStr.contains "/" owner = false ->
  PyStr.contains "/" repo = false ->
  PyStr.endswith (github_url owner repo) ".git" = false ->
  Helpers.extract_repo_info_from_url (github_url owner repo)
  = inr {| Helpers.ref_owner := owner; Helpers.ref_repo := repo |}
  /\ Helpers.extract_repo_info_from_url (github_url owner repo +:+ ".git")
     = inr {| Helpers.ref_owner := owner; Helpers.ref_repo := repo |}
  /\ Helpers.format_repository_url (github_url owner repo) = inr (github_url owner repo).
Proof.
  intros Howner Hrepo Hgit.
  assert (forall url, PyStr.split "/" url = ["https:"; EmptyString; "github.com"; owner; repo] ->
            (let parts := PyStr.split "/" url in
             let failure :=
               inl (ValueError "Could not extract repository information from URL") in
             match Helpers.index_in "github.com" parts with
             | Some github_index =>
                 if Nat.leb (github_index + 3) (List.length parts) then
                   match List.nth_error parts (github_index + 1),
                         List.nth_error parts (github_index + 2) with
                   | Some o, Some r => inr {| Helpers.ref_owner := o; Helpers.ref_repo := r |}
                   | _, _ => failure
                   end
                 else failure
             | None => failure
             end) = inr {| Helpers.ref_owner := owner; Helpers.ref_repo := repo |}) as Hparts.
  { intros url ->. reflexivity. }
  split; [| split].
  - unfold Helpers.extract_repo_info_from_url. rewrite Hgit.
    apply Hparts. now apply UrlFacts.split_github_url.
  - unfold Helpers.extract_repo_info_from_url.
    destruct (UrlFacts.dot_git (github_url owner repo)) as [-> ->].
    apply Hparts. now apply UrlFacts.split_github_url.
  - unfold Helpers.format_repository_url, github_url.
    destruct (UrlFacts.long_form (owner +:+ "/" +:+ repo)) as [Hhost Hhttps].
    rewrite Hhttps, orb_true_r. cbv beta iota zeta delta [negb]. now rewrite Hhost.
Qed.

Lemma repository_read_back_witness :
  Helpers.extract_repo_info_from_url "https://github.com/octo/demo"
  = inr {| Helpers.ref_owner := "octo"; Helpers.ref_repo := "demo" |}
  /\ Helpers.extract_repo_info_from_url "https://github.com/octo/demo.git"
     = inr {| Helpers.ref_owner := "octo"; Helpers.ref_repo := "demo" |}
  /\ Helpers.format_repository_url "https://github.com/octo/demo"
     = inr "https://github.com/octo/demo".
Proof.
  exact (repository_read_back "octo" "demo" eq_refl eq_refl eq_refl).
Defined.
